(** * Card catalog toolchain: admin server and publishing scripts

    A shallow embedding of [admin-server.py], [scripts/process-face-card.py]
    and [scripts/process-number-card.py].

    Python text is modelled by [string]; a character stands for the code
    point of the same number (0 to 255).  Case conversion is carried for the
    ASCII letters only, the Unicode case tables are not part of the model.
    JSON documents are values of [json]; floating point numbers are not part
    of the model. *)

From Stdlib Require Import ZArith String Ascii List Lia Bool.
From Stdlib Require Import DecimalFacts DecimalPos DecimalZ.
From stdpp Require Import gmap strings.

#[local] Arguments String.append !_ _ / : simpl nomatch.

(** ** Characters and text *)

Module Text.

Definition code (c : ascii) : N := N_of_ascii c.

(** The double quote and the line feed, which have no literal of their own. *)
Definition dquote : ascii := "034"%char.
Definition newline : ascii := "010"%char.

Definition in_range (lo hi c : ascii) : bool :=
  (code lo <=? code c)%N && (code c <=? code hi)%N.

Definition is_upper (c : ascii) : bool := in_range "A" "Z" c.
Definition is_lower (c : ascii) : bool := in_range "a" "z" c.
Definition is_digit (c : ascii) : bool := in_range "0" "9" c.

(** [str.isspace] on the characters of the model. *)
Definition is_space (c : ascii) : bool :=
  in_range "009" "013" c || in_range "028" "032" c
  || Ascii.eqb c "133" || Ascii.eqb c "160".

(** The capital and the small letters of code points 128 to 255: the
    letters from 192 to 222 and from 224 to 254, the signs [x] at 215 and
    [/] at 247 apart. *)
Definition is_latin_capital (c : ascii) : bool :=
  in_range "192" "214" c || in_range "216" "222" c.
Definition is_latin_small (c : ascii) : bool :=
  in_range "224" "246" c || in_range "248" "254" c.

(** [c.lower()]: the small letter is 32 code points after its capital. *)
Definition lower_char (c : ascii) : ascii :=
  if is_upper c || is_latin_capital c then ascii_of_N (code c + 32) else c.

(** [c.upper()]: the capital is 32 code points before its small letter, and
    the sharp s (223) becomes [SS].  The capitals of the micro sign (181) and
    of the y with diaeresis (255) are code points above 255, where the text
    of the model ends: [upper_char] leaves these two as they are, and
    [has_capital] tells them apart. *)
Definition upper_char (c : ascii) : string :=
  if is_lower c || is_latin_small c then String (ascii_of_N (code c - 32)) ""
  else if Ascii.eqb c "223" then "SS"
  else String c "".

Definition has_capital (c : ascii) : bool :=
  negb (Ascii.eqb c "181" || Ascii.eqb c "255").

Fixpoint map (f : ascii -> ascii) (s : string) : string :=
  match s with
  | EmptyString => EmptyString
  | String c r => String (f c) (map f r)
  end.

Fixpoint forallb (p : ascii -> bool) (s : string) : bool :=
  match s with
  | EmptyString => true
  | String c r => p c && forallb p r
  end.

(** [str.lower()] and [str.upper()]. *)
Definition lower (s : string) : string := map lower_char s.

Fixpoint upper (s : string) : string :=
  match s with
  | EmptyString => EmptyString
  | String c r => upper_char c ++ upper r
  end.

(** The texts whose upper case is a text of the model: every statement
    about [upper s] is made of these. *)
Definition capitals_fit (s : string) : bool := forallb has_capital s.

(** A text that names a file of a directory whatever short suffix follows
    it: no [/], which would name a file of another directory, no NUL, and
    at most 120 characters, so that the name is within the 255 bytes of a
    file name once encoded. *)
Definition is_file_name (s : string) : bool :=
  forallb (fun c => negb (Ascii.eqb c "/" || Ascii.eqb c "000")) s
  && (String.length s <=? 120)%nat.

(** [str.strip()]: leading and trailing white space removed. *)
Fixpoint lstrip (s : string) : string :=
  match s with
  | String c r => if is_space c then lstrip r else s
  | EmptyString => EmptyString
  end.

Fixpoint rstrip (s : string) : string :=
  match s with
  | EmptyString => EmptyString
  | String c r =>
      match rstrip r with
      | EmptyString => if is_space c then EmptyString else String c EmptyString
      | r' => String c r'
      end
  end.

Definition strip (s : string) : string := rstrip (lstrip s).

(** [s[:n]]. *)
Fixpoint take (n : nat) (s : string) : string :=
  match n, s with
  | S n', String c r => String c (take n' r)
  | _, _ => EmptyString
  end.

(** The rest of [s] after the prefix [p], when [s] starts with [p]. *)
Fixpoint strip_prefix (p s : string) : option string :=
  match p, s with
  | EmptyString, _ => Some s
  | String a p', String b s' => if Ascii.eqb a b then strip_prefix p' s' else None
  | String _ _, EmptyString => None
  end.

(** The last character of a text. *)
Fixpoint last_char (s : string) : option ascii :=
  match s with
  | EmptyString => None
  | String c EmptyString => Some c
  | String _ r => last_char r
  end.

(** [sep.join(parts)]. *)
Fixpoint join (sep : string) (parts : list string) : string :=
  match parts with
  | [] => ""
  | [x] => x
  | x :: rest => x +:+ sep +:+ join sep rest
  end.

Fixpoint spaces (n : nat) : string :=
  match n with
  | O => ""
  | S n' => String " " (spaces n')
  end.

(** [needle in haystack] on text. *)
Fixpoint contains (needle hay : string) : bool :=
  String.prefix needle hay ||
  match hay with
  | EmptyString => false
  | String _ r => contains needle r
  end.

(** Lower-case hexadecimal digit of a number below 16. *)
Definition hex_digit (n : N) : ascii :=
  if (n <? 10)%N then ascii_of_N (48 + n) else ascii_of_N (87 + n).

(** [format(n, "0<width>x")] for [n < 16 ^ width]: exactly [width] digits. *)
Fixpoint hex (width : nat) (n : N) : string :=
  match width with
  | O => ""
  | S w => hex w (n / 16) +:+ String (hex_digit (n mod 16)) ""
  end.

Definition hex_value (c : ascii) : option N :=
  if is_digit c then Some (code c - 48)%N
  else if in_range "a" "f" c then Some (code c - 87)%N
  else if in_range "A" "F" c then Some (code c - 55)%N
  else None.

Definition is_hex_lower (c : ascii) : bool :=
  is_digit c || in_range "a" "f" c.

(** An ASCII letter or digit. *)
Definition is_alnum (c : ascii) : bool :=
  is_upper c || is_lower c || is_digit c.

End Text.

(** ** JSON documents

    The values [json.load] returns and [json.dump] accepts.  An object keeps
    its members in insertion order, as a Python [dict] does. *)

Unset Elimination Schemes.
Inductive json : Type :=
  | JNull
  | JBool (b : bool)
  | JInt (n : Z)
  | JStr (s : string)
  | JArr (items : list json)
  | JObj (members : list (string * json)).
Set Elimination Schemes.

Module Json.
Import Text.

(** *** [json.dump(data, f, indent=2)] *)

(** The replacement of one character by [py_encode_basestring_ascii]: the
    short escapes of [ESCAPE_DCT], [\uXXXX] for every other character outside
    the range from the space to the tilde, and the character itself otherwise. *)
Definition escape_char (c : ascii) : string :=
  if Ascii.eqb c "\" then "\\"
  else if Ascii.eqb c dquote then String "\" (String dquote "")
  else if Ascii.eqb c "008" then "\b"
  else if Ascii.eqb c "012" then "\f"
  else if Ascii.eqb c "010" then "\n"
  else if Ascii.eqb c "013" then "\r"
  else if Ascii.eqb c "009" then "\t"
  else if in_range " " "~" c then String c ""
  else "\u" +:+ hex 4 (code c).

Fixpoint escape (s : string) : string :=
  match s with
  | EmptyString => ""
  | String c r => escape_char c +:+ escape r
  end.

Definition encode_basestring_ascii (s : string) : string :=
  String dquote (escape s +:+ String dquote "").

Fixpoint string_of_uint (d : Decimal.uint) : string :=
  match d with
  | Decimal.Nil => ""
  | Decimal.D0 d => String "0" (string_of_uint d)
  | Decimal.D1 d => String "1" (string_of_uint d)
  | Decimal.D2 d => String "2" (string_of_uint d)
  | Decimal.D3 d => String "3" (string_of_uint d)
  | Decimal.D4 d => String "4" (string_of_uint d)
  | Decimal.D5 d => String "5" (string_of_uint d)
  | Decimal.D6 d => String "6" (string_of_uint d)
  | Decimal.D7 d => String "7" (string_of_uint d)
  | Decimal.D8 d => String "8" (string_of_uint d)
  | Decimal.D9 d => String "9" (string_of_uint d)
  end.

(** [int.__repr__]. *)
Definition int_repr (n : Z) : string :=
  match Z.to_int n with
  | Decimal.Pos d => string_of_uint d
  | Decimal.Neg d => String "-" (string_of_uint d)
  end.

Definition newline_indent (level : nat) : string :=
  String newline (spaces (2 * level)).

(** [_iterencode] with [indent=2], the separators [","] and [": "], and
    [ensure_ascii]; [level] is [_current_indent_level]. *)
Fixpoint iterencode (level : nat) (o : json) : string :=
  match o with
  | JStr s => encode_basestring_ascii s
  | JNull => "null"
  | JBool true => "true"
  | JBool false => "false"
  | JInt n => int_repr n
  | JArr [] => "[]"
  | JArr items =>
      "[" +:+ newline_indent (S level)
      +:+ join ("," +:+ newline_indent (S level))
               (List.map (iterencode (S level)) items)
      +:+ newline_indent level +:+ "]"
  | JObj [] => "{}"
  | JObj members =>
      "{" +:+ newline_indent (S level)
      +:+ join ("," +:+ newline_indent (S level))
               (List.map (fun kv => encode_basestring_ascii (fst kv) +:+ ": "
                                    +:+ iterencode (S level) (snd kv)) members)
      +:+ newline_indent level +:+ "}"
  end.

Definition dumps (o : json) : string := iterencode 0 o.

(** *** [json.load(f)] *)

Definition is_ws (c : ascii) : bool :=
  Ascii.eqb c " " || Ascii.eqb c "009" || Ascii.eqb c "010" || Ascii.eqb c "013".

Fixpoint skip_ws (s : string) : string :=
  match s with
  | String c r => if is_ws c then skip_ws r else s
  | EmptyString => EmptyString
  end.

(** The [BACKSLASH] table of the decoder. *)
Definition backslash (e : ascii) : option ascii :=
  if Ascii.eqb e dquote then Some dquote
  else if Ascii.eqb e "\" then Some "\"%char
  else if Ascii.eqb e "/" then Some "/"%char
  else if Ascii.eqb e "b" then Some "008"%char
  else if Ascii.eqb e "f" then Some "012"%char
  else if Ascii.eqb e "n" then Some "010"%char
  else if Ascii.eqb e "r" then Some "013"%char
  else if Ascii.eqb e "t" then Some "009"%char
  else None.

Definition decode_uXXXX (h1 h2 h3 h4 : ascii) : option N :=
  a ← hex_value h1; b ← hex_value h2; c ← hex_value h3; d ← hex_value h4;
  Some (((a * 16 + b) * 16 + c) * 16 + d)%N.

(** [chr] on the code points the model has a character for. *)
Definition chr (n : N) : option ascii :=
  if (n <? 256)%N then Some (ascii_of_N n) else None.

(** [scanstring] in strict mode, from just after the opening quote: the text
    of the literal and the input after its closing quote.  [None] is a
    [JSONDecodeError], or an escape above [00ff], which the model has no
    character for. *)
Fixpoint scanstring (s : string) : option (string * string) :=
  match s with
  | EmptyString => None
  | String c r =>
      if Ascii.eqb c dquote then Some ("", r)
      else if Ascii.eqb c "\" then
        match r with
        | String e r1 =>
            if Ascii.eqb e "u" then
              match r1 with
              | String h1 (String h2 (String h3 (String h4 r2))) =>
                  uni ← decode_uXXXX h1 h2 h3 h4;
                  ch ← chr uni;
                  '(t, r3) ← scanstring r2;
                  Some (String ch t, r3)
              | _ => None
              end
            else
              ch ← backslash e;
              '(t, r2) ← scanstring r1;
              Some (String ch t, r2)
        | EmptyString => None
        end
      else if (code c <? 32)%N then None
      else '(t, r1) ← scanstring r; Some (String c t, r1)
  end.

Definition digit_of_char (c : ascii) (d : Decimal.uint) : option Decimal.uint :=
  if Ascii.eqb c "0" then Some (Decimal.D0 d)
  else if Ascii.eqb c "1" then Some (Decimal.D1 d)
  else if Ascii.eqb c "2" then Some (Decimal.D2 d)
  else if Ascii.eqb c "3" then Some (Decimal.D3 d)
  else if Ascii.eqb c "4" then Some (Decimal.D4 d)
  else if Ascii.eqb c "5" then Some (Decimal.D5 d)
  else if Ascii.eqb c "6" then Some (Decimal.D6 d)
  else if Ascii.eqb c "7" then Some (Decimal.D7 d)
  else if Ascii.eqb c "8" then Some (Decimal.D8 d)
  else if Ascii.eqb c "9" then Some (Decimal.D9 d)
  else None.

(** The longest run of decimal digits at the head of the input. *)
Fixpoint scan_digits (s : string) : Decimal.uint * string :=
  match s with
  | String c r =>
      if is_digit c then
        let '(d, r') := scan_digits r in
        match digit_of_char c d with
        | Some d' => (d', r')
        | None => (Decimal.Nil, s)
        end
      else (Decimal.Nil, s)
  | EmptyString => (Decimal.Nil, EmptyString)
  end.

(** The integer part of [NUMBER_RE]: a single zero, or a digit from 1 to 9
    followed by any digits. *)
Definition scan_intpart (s : string) : option (Decimal.uint * string) :=
  match s with
  | String c r =>
      if Ascii.eqb c "0" then Some (Decimal.D0 Decimal.Nil, r)
      else if is_digit c then Some (scan_digits s)
      else None
  | EmptyString => None
  end.

Definition starts_float_tail (s : string) : bool :=
  match s with
  | String c _ => Ascii.eqb c "." || Ascii.eqb c "e" || Ascii.eqb c "E"
  | EmptyString => false
  end.

(** An integer literal.  A literal with a fraction or an exponent is a
    [float], which the model does not have: it is refused. *)
Definition scan_number (s : string) : option (json * string) :=
  match s with
  | String "-" r =>
      '(d, r') ← scan_intpart r;
      if starts_float_tail r' then None
      else Some (JInt (Z.of_int (Decimal.Neg d)), r')
  | _ =>
      '(d, r') ← scan_intpart s;
      if starts_float_tail r' then None
      else Some (JInt (Z.of_int (Decimal.Pos d)), r')
  end.

(** [dict(pairs)]: a later pair replaces the value of an earlier one with the
    same key, at the place of the earlier one. *)
Fixpoint dict_set (k : string) (v : json) (d : list (string * json))
  : list (string * json) :=
  match d with
  | [] => [(k, v)]
  | (k', v') :: d' =>
      if String.eqb k' k then (k', v) :: d' else (k', v') :: dict_set k v d'
  end.

Definition dict_of_pairs (pairs : list (string * json)) : list (string * json) :=
  fold_left (fun d kv => dict_set (fst kv) (snd kv) d) pairs [].

(** [scan_once], [JSONArray] and [JSONObject].  The first argument bounds the
    number of nested calls; [loads] supplies the length of the text, which is
    always enough. *)
Fixpoint scan_once (n : nat) (s : string) : option (json * string) :=
  match n with
  | O => None
  | S n =>
      match s with
      | EmptyString => None
      | String c r =>
          if Ascii.eqb c dquote then
            '(t, r') ← scanstring r; Some (JStr t, r')
          else if Ascii.eqb c "{" then
            match skip_ws r with
            | String c1 r1 =>
                if Ascii.eqb c1 "}" then Some (JObj [], r1)
                else if Ascii.eqb c1 dquote then
                  '(kvs, r2) ← object_items n r1;
                  Some (JObj (dict_of_pairs kvs), r2)
                else None
            | EmptyString => None
            end
          else if Ascii.eqb c "[" then
            match skip_ws r with
            | String c1 r1 =>
                if Ascii.eqb c1 "]" then Some (JArr [], r1)
                else '(vs, r2) ← array_items n (String c1 r1); Some (JArr vs, r2)
            | EmptyString => None
            end
          else
            match strip_prefix "null" s, strip_prefix "true" s, strip_prefix "false" s with
            | Some r', _, _ => Some (JNull, r')
            | _, Some r', _ => Some (JBool true, r')
            | _, _, Some r' => Some (JBool false, r')
            | _, _, _ => scan_number s
            end
      end
  end
with array_items (n : nat) (s : string) : option (list json * string) :=
  match n with
  | O => None
  | S n =>
      '(v, r) ← scan_once n s;
      match skip_ws r with
      | String c r1 =>
          if Ascii.eqb c "]" then Some ([v], r1)
          else if Ascii.eqb c "," then
            '(vs, r2) ← array_items n (skip_ws r1); Some (v :: vs, r2)
          else None
      | EmptyString => None
      end
  end
with object_items (n : nat) (s : string) : option (list (string * json) * string) :=
  match n with
  | O => None
  | S n =>
      '(k, r) ← scanstring s;
      match skip_ws r with
      | String c r1 =>
          if Ascii.eqb c ":" then
            '(v, r2) ← scan_once n (skip_ws r1);
            match skip_ws r2 with
            | String c3 r3 =>
                if Ascii.eqb c3 "}" then Some ([(k, v)], r3)
                else if Ascii.eqb c3 "," then
                  match skip_ws r3 with
                  | String c4 r4 =>
                      if Ascii.eqb c4 dquote then
                        '(kvs, r5) ← object_items n r4; Some ((k, v) :: kvs, r5)
                      else None
                  | EmptyString => None
                  end
                else None
            | EmptyString => None
            end
          else None
      | EmptyString => None
      end
  end.

(** [json.loads]: one value, white space allowed around it, nothing after. *)
Definition loads (s : string) : option json :=
  '(v, r) ← scan_once (String.length s) (skip_ws s);
  match skip_ws r with
  | EmptyString => Some v
  | _ => None
  end.

(** *** Values a Python [dict] can hold, and the measures of the proofs *)

Fixpoint distinct (keys : list string) : bool :=
  match keys with
  | [] => true
  | k :: rest => negb (existsb (String.eqb k) rest) && distinct rest
  end.

(** The keys of every object are distinct, as the keys of a [dict] are. *)
Fixpoint well_formed (j : json) : bool :=
  match j with
  | JArr items => List.forallb well_formed items
  | JObj members =>
      distinct (List.map fst members)
      && List.forallb (fun kv => well_formed (snd kv)) members
  | _ => true
  end.

(** A bound on the nested calls the decoder makes on an encoded value. *)
Fixpoint jsize (j : json) : nat :=
  match j with
  | JArr items => S (list_sum (List.map (fun x => S (jsize x)) items))
  | JObj members => S (list_sum (List.map (fun kv => S (jsize (snd kv))) members))
  | _ => 1
  end.

(** Input that ends a number: not a digit, not the start of a fraction or an
    exponent. *)
Definition delimited (rest : string) : bool :=
  match rest with
  | EmptyString => true
  | String c _ => negb (is_digit c || starts_float_tail rest)
  end.

(** A member of an object as [iterencode] writes it. *)
Definition encode_member (level : nat) (kv : string * json) : string :=
  encode_basestring_ascii (fst kv) +:+ ": " +:+ iterencode level (snd kv).

(** The first character of an encoded value is neither white space nor a
    closing bracket. *)
Definition opens_value (c : ascii) : Prop :=
  is_ws c = false /\ Ascii.eqb c "]" = false /\ Ascii.eqb c "}" = false.

(** The decoder returns an encoded value, and the input after it. *)
Definition reads_back (j : json) : Prop :=
  well_formed j = true ->
  forall level n rest, jsize j <= n -> delimited rest = true ->
  scan_once n (iterencode level j +:+ rest) = Some (j, rest).

End Json.

(** ** UUIDs: [uuid.uuid4()] and [str(uuid)] *)

Module Uuid.
Import Text.

(** [UUID(bytes=os.urandom(16), version=4)]: the sixteen random bytes read as
    a big-endian integer, with the variant and version bits overwritten. *)
Definition uuid4 (random : N) : N :=
  let int := (random mod 2 ^ 128)%N in
  let int := N.ldiff int (N.shiftl 0xc000 48) in
  let int := N.lor int (N.shiftl 0x8000 48) in
  let int := N.ldiff int (N.shiftl 0xf000 64) in
  N.lor int (N.shiftl 4 76).

(** [UUID.__str__]: the 32 hexadecimal digits in groups of 8, 4, 4, 4, 12. *)
Definition str (int : N) : string :=
  let h := hex 32 int in
  take 8 h +:+ "-" +:+ String.substring 8 4 h +:+ "-" +:+ String.substring 12 4 h
  +:+ "-" +:+ String.substring 16 4 h +:+ "-" +:+ String.substring 20 12 h.

(** [UUID.hex]: the 32 hexadecimal digits, without hyphens. *)
Definition hex (int : N) : string := Text.hex 32 int.

End Uuid.

(** ** Regular expressions

    The patterns the specification gives for card identifiers are matched
    against a whole identifier. *)

Module Regex.

Inductive regex : Type :=
  | Void
  | Eps
  | Class (p : ascii -> bool)
  | Cat (r1 r2 : regex)
  | Alt (r1 r2 : regex)
  | Star (r : regex).

(** The language of a pattern. *)
Inductive Matches : regex -> string -> Prop :=
  | MEps : Matches Eps ""
  | MClass p c : p c = true -> Matches (Class p) (String c "")
  | MCat r1 r2 s1 s2 : Matches r1 s1 -> Matches r2 s2 -> Matches (Cat r1 r2) (s1 +:+ s2)
  | MAltL r1 r2 s : Matches r1 s -> Matches (Alt r1 r2) s
  | MAltR r1 r2 s : Matches r2 s -> Matches (Alt r1 r2) s
  | MStarNil r : Matches (Star r) ""
  | MStarCons r s1 s2 : Matches r s1 -> Matches (Star r) s2 -> Matches (Star r) (s1 +:+ s2).

Fixpoint nullable (r : regex) : bool :=
  match r with
  | Void => false
  | Eps => true
  | Class _ => false
  | Cat r1 r2 => nullable r1 && nullable r2
  | Alt r1 r2 => nullable r1 || nullable r2
  | Star _ => true
  end.

(** Brzozowski derivative of a pattern by a character. *)
Fixpoint deriv (c : ascii) (r : regex) : regex :=
  match r with
  | Void => Void
  | Eps => Void
  | Class p => if p c then Eps else Void
  | Cat r1 r2 =>
      if nullable r1 then Alt (Cat (deriv c r1) r2) (deriv c r2)
      else Cat (deriv c r1) r2
  | Alt r1 r2 => Alt (deriv c r1) (deriv c r2)
  | Star r1 => Cat (deriv c r1) (Star r1)
  end.

(** The executable matcher: [re.fullmatch]. *)
Fixpoint fullmatch (r : regex) (s : string) : bool :=
  match s with
  | EmptyString => nullable r
  | String c s' => fullmatch (deriv c r) s'
  end.

Definition Lit (c : ascii) : regex := Class (Ascii.eqb c).

Fixpoint Str (s : string) : regex :=
  match s with
  | EmptyString => Eps
  | String c r => Cat (Lit c) (Str r)
  end.

Definition Plus (r : regex) : regex := Cat r (Star r).

Fixpoint Repeat (n : nat) (r : regex) : regex :=
  match n with
  | O => Eps
  | S n' => Cat r (Repeat n' r)
  end.

(** The class [a-z0-9] and the class [0-9a-f]. *)
Definition lower_alnum (c : ascii) : bool := Text.is_lower c || Text.is_digit c.
Definition hex_lower (c : ascii) : bool := Text.is_hex_lower c.

(** A number-card identifier: one or more of [a-z0-9], a hyphen, eight of
    [0-9a-f]. *)
Definition number_id_re : regex :=
  Cat (Plus (Class lower_alnum)) (Cat (Lit "-") (Repeat 8 (Class hex_lower))).

(** A face-card identifier: the same after the prefix [face-]. *)
Definition face_id_re : regex := Cat (Str "face-") number_id_re.

End Regex.

(** ** The Python run time: exceptions, the process state, dynamic values *)

(** An exception: the name of its class and [str(e)]. *)
Inductive exn : Type := Exn (class : string) (message : string).

Definition exn_str (e : exn) : string :=
  match e with Exn _ m => m end.

(** How a computation ends: with a value, with an exception of class
    [Exception], or with [SystemExit] raised by [sys.exit]. *)
Inductive outcome (A : Type) : Type :=
  | Return (a : A)
  | Raise (e : exn)
  | Exit (status : Z).
Arguments Return {A} a.
Arguments Raise {A} e.
Arguments Exit {A} status.

#[global] Instance outcome_ret : MRet outcome := fun A a => Return a.

#[global] Instance outcome_bind : MBind outcome := fun A B f o =>
  match o with
  | Return a => f a
  | Raise e => Raise e
  | Exit n => Exit n
  end.

(** A multipart upload request as [requests.post] sends it. *)
Record request : Type := Request {
  req_url : string;
  req_authorization : string;
  req_filename : string;
  req_file : string;
  req_content_type : string
}.

(** An HTTP response: [status_code], [text] and what [json()] returns
    ([None] when the body is not a JSON document). *)
Record response : Type := Response {
  status_code : Z;
  text : string;
  json_body : option json
}.

(** The state a run can read and change: the environment variables, the
    files (by path), the lines waiting on standard input, the requests sent
    so far and the number of random identifiers drawn so far. *)
Record world : Type := World {
  env : gmap string string;
  files : gmap string string;
  stdin : list string;
  sent : list request;
  drawn : nat
}.

Definition M (A : Type) : Type := world -> outcome A * world.

#[global] Instance M_ret : MRet M := fun A a w => (Return a, w).

#[global] Instance M_bind : MBind M := fun A B f m w =>
  match m w with
  | (Return a, w') => f a w'
  | (Raise e, w') => (Raise e, w')
  | (Exit n, w') => (Exit n, w')
  end.

Definition raise {A} (e : exn) : M A := fun w => (Raise e, w).

(** [sys.exit(status)]. *)
Definition sys_exit {A} (status : Z) : M A := fun w => (Exit status, w).

(** [try: body / except Exception as e: handler(e)]: [SystemExit] is not an
    [Exception] and passes through. *)
Definition try_except {A} (body : M A) (handler : exn -> M A) : M A := fun w =>
  match body w with
  | (Raise e, w') => handler e w'
  | other => other
  end.

Definition lift {A} (o : outcome A) : M A := fun w => (o, w).

(** [os.environ.get(name)]. *)
Definition environ_get (name : string) : M (option string) :=
  fun w => (Return (env w !! name), w).

(** [os.environ.get(name, default)]. *)
Definition environ_get_default (name fallback : string) : M string :=
  fun w => (Return (default fallback (env w !! name)), w).

(** [path.exists()]; a path names a file of the state or nothing. *)
Definition path_exists (path : string) : M bool :=
  fun w => (Return (bool_decide (is_Some (files w !! path))), w).

(** [open(path).read()]. *)
Definition read_file (path : string) : M string := fun w =>
  match files w !! path with
  | Some content => (Return content, w)
  | None => (Raise (Exn "FileNotFoundError" path), w)
  end.

(** [open(path, "w").write(content)]: the file is replaced as a whole. *)
Definition write_file (path content : string) : M unit := fun w =>
  (Return tt, World (env w) (<[path := content]> (files w)) (stdin w) (sent w) (drawn w)).

(** [path.unlink(missing_ok=True)]: the file is gone afterwards. *)
Definition unlink_missing_ok (path : string) : M unit := fun w =>
  (Return tt, World (env w) (delete path (files w)) (stdin w) (sent w) (drawn w)).

(** [input(prompt)]: the next line of standard input. *)
Definition input : M string := fun w =>
  match stdin w with
  | line :: rest => (Return line, World (env w) (files w) rest (sent w) (drawn w))
  | [] => (Raise (Exn "EOFError" "EOF when reading a line"), w)
  end.

(** ** What the toolchain takes from outside

    The libraries and services the three programs call without owning them:
    [repr] of the interpreter, [requests.post], [os.urandom], the image
    library, the background-removal model, [base64.b64encode], and the
    directory the repository is checked out in.  Every definition and every
    theorem below holds for any of them. *)

Class Platform : Type := {
  (** [repr(v)] *)
  repr : json -> string;
  (** [requests.post(url, headers=..., files=...)], given the requests sent
      before it *)
  requests_post : list request -> request -> outcome response;
  (** the integer of the sixteen bytes of the n-th [os.urandom(16)] *)
  urandom : nat -> N;
  image : Type;
  (** [Image.open] on the content of a file *)
  Image_open : string -> outcome image;
  (** [img.mode] *)
  image_mode : image -> string;
  (** [img.convert(mode)] *)
  image_convert : image -> string -> outcome image;
  (** [img.crop((left, upper, right, lower))] *)
  image_crop : image -> Z * Z * Z * Z -> outcome image;
  (** [rembg.remove(img)] *)
  rembg_remove : image -> outcome image;
  (** the bytes [img.save(..., format='PNG')] writes *)
  image_save_png : image -> outcome string;
  b64encode : string -> string;
  (** [sys.get_int_max_str_digits()], 0 where there is no limit *)
  int_max_str_digits : nat;
  (** the directory of [admin-server.py] *)
  root : string
}.

(** [requests.post]: the request goes out, then the answer comes back or an
    exception does. *)
Definition post `{Platform} (r : request) : M response := fun w =>
  (requests_post (sent w) r,
   World (env w) (files w) (stdin w) (sent w ++ [r]) (drawn w)).

(** [uuid.uuid4()]. *)
Definition uuid4 `{Platform} : M N := fun w =>
  (Return (Uuid.uuid4 (urandom (drawn w))),
   World (env w) (files w) (stdin w) (sent w) (S (drawn w))).

(** The state after one more random identifier was drawn. *)
Definition drew (w : world) : world :=
  World (env w) (files w) (stdin w) (sent w) (S (drawn w)).

(** [str(uuid.uuid4())[:8]] for the identifier drawn in state [w]. *)
Definition fragment `{Platform} (w : world) : string :=
  Text.take 8 (Uuid.str (Uuid.uuid4 (urandom (drawn w)))).

(** [Image.open(path)]. *)
Definition image_open_path `{Platform} (path : string) : M image :=
  content ← read_file path; lift (Image_open content).

(** [img.save(path)] to a path ending in [.png]. *)
Definition image_save_path `{Platform} (img : image) (path : string) : M unit :=
  png ← lift (image_save_png img); write_file path png.

(** [directory / name] of [pathlib]: an absolute [name] stands for itself.
    A path is the text the program built: empty, [.] and [..] segments are
    kept as they are, and two texts name two files. *)
Definition path_join (directory name : string) : string :=
  match name with
  | String "/" _ => name
  | _ => directory +:+ "/" +:+ name
  end.

(** ** Dynamic operations on JSON values *)

Module Py.
Import Text.

(** Truth value of an object. *)
Definition truthy (v : json) : bool :=
  match v with
  | JNull => false
  | JBool b => b
  | JInt n => negb (n =? 0)%Z
  | JStr s => negb (String.eqb s "")
  | JArr l => match l with [] => false | _ => true end
  | JObj l => match l with [] => false | _ => true end
  end.

(** Truth value of what [os.environ.get] returns. *)
Definition truthy_opt (v : option string) : bool :=
  match v with
  | Some s => negb (String.eqb s "")
  | None => false
  end.

(** First value stored under a key of a [dict]. *)
Fixpoint dict_get {A} (k : string) (d : list (string * A)) : option A :=
  match d with
  | [] => None
  | (k', v) :: d' => if String.eqb k' k then Some v else dict_get k d'
  end.

Definition type_name (v : json) : string :=
  match v with
  | JNull => "NoneType"
  | JBool _ => "bool"
  | JInt _ => "int"
  | JStr _ => "str"
  | JArr _ => "list"
  | JObj _ => "dict"
  end.

Definition type_error {A} (message : string) : outcome A :=
  Raise (Exn "TypeError" message).

Definition quoted_type (v : json) : string := "'" +:+ type_name v +:+ "'".

Definition is_str (v : json) (s : string) : bool :=
  match v with
  | JStr t => String.eqb t s
  | _ => false
  end.

Section Dynamic.
Context `{Platform}.

(** [str(v)], as an f-string formats [v]. *)
Definition str (v : json) : string :=
  match v with
  | JStr s => s
  | _ => repr v
  end.

(** [key in container] for a text key. *)
Definition contains_key (container : json) (key : string) : outcome bool :=
  match container with
  | JObj d => Return (bool_decide (is_Some (dict_get key d)))
  | JArr l => Return (existsb (fun x => is_str x key) l)
  | JStr s => Return (contains key s)
  | _ => type_error ("argument of type " +:+ quoted_type container +:+ " is not iterable")
  end.

(** [container[key]] for a text key. *)
Definition getitem (container : json) (key : string) : outcome json :=
  match container with
  | JObj d =>
      match dict_get key d with
      | Some v => Return v
      | None => Raise (Exn "KeyError" (repr (JStr key)))
      end
  | JArr _ => type_error "list indices must be integers or slices, not str"
  | JStr _ => type_error "string indices must be integers, not 'str'"
  | _ => type_error (quoted_type container +:+ " object is not subscriptable")
  end.

(** [container.get(key)]. *)
Definition get (container : json) (key : string) : outcome json :=
  match container with
  | JObj d => Return (default JNull (dict_get key d))
  | _ => Raise (Exn "AttributeError"
                  ("'" +:+ type_name container +:+ "' object has no attribute 'get'"))
  end.

(** [container[0]]. *)
Definition getitem0 (container : json) : outcome json :=
  match container with
  | JArr (x :: _) => Return x
  | JArr [] => Raise (Exn "IndexError" "list index out of range")
  | JStr (String c _) => Return (JStr (String c ""))
  | JStr EmptyString => Raise (Exn "IndexError" "string index out of range")
  | JObj _ => Raise (Exn "KeyError" "0")
  | _ => type_error (quoted_type container +:+ " object is not subscriptable")
  end.

(** [v.upper()]. *)
Definition upper_of (v : json) : outcome string :=
  match v with
  | JStr s => Return (upper s)
  | _ => Raise (Exn "AttributeError"
                  ("'" +:+ type_name v +:+ "' object has no attribute 'upper'"))
  end.

(** The digits of a decimal literal, where single underscores may separate
    digits. *)
Fixpoint digits_value (acc : Z) (after_digit : bool) (s : string) : option Z :=
  match s with
  | EmptyString => if after_digit then Some acc else None
  | String c r =>
      if is_digit c then digits_value (acc * 10 + (Z.of_N (code c) - 48)) true r
      else if Ascii.eqb c "_" && after_digit then
        match r with
        | String c' _ => if is_digit c' then digits_value acc false r else None
        | EmptyString => None
        end
      else None
  end.

(** The white space [int] skips around a literal: the ASCII white space,
    and the two code points above 127 that are white space. *)
Definition is_int_space (c : ascii) : bool :=
  in_range "009" "013" c || Ascii.eqb c " " || Ascii.eqb c "133" || Ascii.eqb c "160".

Fixpoint int_lstrip (s : string) : string :=
  match s with
  | String c r => if is_int_space c then int_lstrip r else s
  | EmptyString => EmptyString
  end.

Fixpoint int_rstrip (s : string) : string :=
  match s with
  | EmptyString => EmptyString
  | String c r =>
      match int_rstrip r with
      | EmptyString => if is_int_space c then EmptyString else String c EmptyString
      | r' => String c r'
      end
  end.

(** The longest run of digits and underscores at the head of a text, and
    the text after it. *)
Fixpoint literal_run (s : string) : string * string :=
  match s with
  | String c r =>
      if is_digit c || Ascii.eqb c "_" then
        let '(run, rest) := literal_run r in (String c run, rest)
      else (EmptyString, s)
  | EmptyString => (EmptyString, EmptyString)
  end.

Fixpoint count_digits (s : string) : nat :=
  match s with
  | String c r => if is_digit c then S (count_digits r) else count_digits r
  | EmptyString => O
  end.

(** The message of the [ValueError] for a literal with more digits than the
    limit. *)
Definition exceeds_limit (digits : nat) : string :=
  "Exceeds the limit (" +:+ Json.int_repr (Z.of_nat int_max_str_digits)
  +:+ " digits) for integer string conversion: value has "
  +:+ Json.int_repr (Z.of_nat digits)
  +:+ " digits; use sys.set_int_max_str_digits() to increase the limit".

(** [int(s)] for text: white space around, an optional sign, then digits,
    which single underscores may separate.  The digits are counted before
    what follows them is looked at: more than 640 of them, and more than the
    limit of the interpreter when it has one, are refused. *)
Definition int_of_text (s : string) : outcome Z :=
  let invalid :=
    Raise (Exn "ValueError"
             ("invalid literal for int() with base 10: " +:+ repr (JStr s))) in
  let t := int_rstrip (int_lstrip s) in
  let '(negative, body) :=
    match t with
    | String "-" r => (true, r)
    | String "+" r => (false, r)
    | _ => (false, t)
    end in
  let '(run, rest) := literal_run body in
  match digits_value 0 false run with
  | None => invalid
  | Some n =>
      if (640 <? count_digits run)%nat && (0 <? int_max_str_digits)%nat
         && (int_max_str_digits <? count_digits run)%nat
      then Raise (Exn "ValueError" (exceeds_limit (count_digits run)))
      else
        match rest with
        | EmptyString => Return (if negative : bool then - n else n)%Z
        | _ => invalid
        end
  end.

(** [int(v)]. *)
Definition int (v : json) : outcome Z :=
  match v with
  | JInt n => Return n
  | JBool b => Return (if b then 1 else 0)%Z
  | JStr s => int_of_text s
  | _ => Raise (Exn "TypeError"
                  ("int() argument must be a string, a bytes-like object or a real number, not '"
                   +:+ type_name v +:+ "'"))
  end.

(** [len(v)]. *)
Definition len (v : json) : outcome Z :=
  match v with
  | JArr l => Return (Z.of_nat (length l))
  | JObj d => Return (Z.of_nat (length d))
  | JStr s => Return (Z.of_nat (String.length s))
  | _ => type_error ("object of type " +:+ quoted_type v +:+ " has no len()")
  end.

Fixpoint chars (s : string) : list json :=
  match s with
  | EmptyString => []
  | String c r => JStr (String c "") :: chars r
  end.

(** The elements a [for] loop over [v] visits. *)
Definition iter (v : json) : outcome (list json) :=
  match v with
  | JArr l => Return l
  | JObj d => Return (List.map (fun kv => JStr (fst kv)) d)
  | JStr s => Return (chars s)
  | _ => type_error (quoted_type v +:+ " object is not iterable")
  end.

(** [container[key] = value]. *)
Definition setitem (container : json) (key : string) (value : json) : outcome json :=
  match container with
  | JObj d => Return (JObj (Json.dict_set key value d))
  | JArr _ => type_error "list indices must be integers or slices, not str"
  | _ => type_error (quoted_type container +:+ " object does not support item assignment")
  end.

(** [v.append(x)], the changed list. *)
Definition append (v x : json) : outcome json :=
  match v with
  | JArr l => Return (JArr (l ++ [x]))
  | _ => Raise (Exn "AttributeError"
                  ("'" +:+ type_name v +:+ "' object has no attribute 'append'"))
  end.

(** [container[key].append(x)]: the list stored under [key] grows in place,
    so [container] holds the longer list afterwards. *)
Definition append_at (container : json) (key : string) (x : json) : outcome json :=
  l ← getitem container key;
  l' ← append l x;
  setitem container key l'.

End Dynamic.
End Py.

(** ** [admin-server.py] *)

(** A response of the admin server: the JSON body and the status code. *)
Definition http_response : Type := (json * Z)%type.

Definition jsonify (body : list (string * json)) (status : Z) : http_response :=
  (JObj body, status).

Definition error_body (message : string) : list (string * json) :=
  [("error", JStr message)].

(** The card record of the catalog and the catalog document, as the publish
    paths build them. *)
Record card : Type := Card {
  card_id : string;
  card_word : string;
  card_image_url : string;
  card_type : string
}.

Definition card_json (c : card) : json :=
  JObj [("id", JStr (card_id c)); ("word", JStr (card_word c));
        ("imageUrl", JStr (card_image_url c)); ("type", JStr (card_type c))].

Definition catalog_json (cards : list card) : json :=
  JObj [("cards", JArr (List.map card_json cards))].

(** An uploaded file part of a multipart form. *)
Record upload : Type := Upload {
  filename : string;
  content : string
}.

Module AdminServer.
Import Text.

Section Server.
Context `{Platform}.

Definition DATA_FILE : string := path_join (path_join root "data") "cards.json".
Definition UPLOADS_DIR : string := path_join root "uploads".
Definition PROCESSED_DIR : string := path_join root "processed".

Definition load_cards : M json :=
  there ← path_exists DATA_FILE;
  if (there : bool) then
    f ← read_file DATA_FILE;
    match Json.loads f with
    | Some data => mret data
    | None => raise (Exn "JSONDecodeError" "Expecting value")
    end
  else mret (JObj [("cards", JArr [])]).

Definition save_cards (data : json) : M unit :=
  write_file DATA_FILE (Json.dumps data).

Definition upload_to_cloudflare (image_bytes filename : string) : M json :=
  account_id ← environ_get "CLOUDFLARE_ACCOUNT_ID";
  api_token ← environ_get "CLOUDFLARE_API_TOKEN";
  if negb (Py.truthy_opt account_id) || negb (Py.truthy_opt api_token) then
    raise (Exn "ValueError" "CLOUDFLARE_ACCOUNT_ID and CLOUDFLARE_API_TOKEN must be set")
  else
    let url := "https://api.cloudflare.com/client/v4/accounts/"
               +:+ default "" account_id +:+ "/images/v1" in
    let authorization := "Bearer " +:+ default "" api_token in
    response ← post (Request url authorization filename image_bytes "image/png");
    if negb (status_code response =? 200)%Z then
      raise (Exn "Exception" ("Cloudflare upload failed: " +:+ text response))
    else
      match json_body response with
      | None => raise (Exn "JSONDecodeError" "Expecting value")
      | Some result =>
          success ← lift (Py.get result "success");
          if negb (Py.truthy success) then
            errors ← lift (Py.get result "errors");
            raise (Exn "Exception" ("Cloudflare upload failed: " +:+ Py.str errors))
          else
            image_id ← lift (r ← Py.getitem result "result"; Py.getitem r "id");
            delivery_hash ← environ_get_default "CLOUDFLARE_DELIVERY_HASH"
                                                "3oZsG34qPq3SIXQhl47vqA";
            mret (JStr ("https://imagedelivery.net/" +:+ delivery_hash +:+ "/"
                        +:+ Py.str image_id +:+ "/medium"))
      end.

Definition generate_card_id (word card_type : string) : M string :=
  u ← uuid4;
  let short_uuid := take 8 (Uuid.str u) in
  let prefix := if String.eqb card_type "face" then "face-" else "" in
  mret (prefix +:+ lower word +:+ "-" +:+ short_uuid).

Definition required : list string :=
  ["filename"; "word"; "cropX"; "cropY"; "cropWidth"; "cropHeight"].

(** The loop [for field in required: if field not in data: return ...]: the
    first field that is missing, if one is. *)
Fixpoint first_missing (fields : list string) (data : json) : outcome (option string) :=
  match fields with
  | [] => Return None
  | field :: rest =>
      present ← Py.contains_key data field;
      if (present : bool) then first_missing rest data else Return (Some field)
  end.

(** [UPLOADS_DIR / data['filename']]. *)
Definition uploads_path (name : json) : outcome string :=
  match name with
  | JStr s => Return (path_join UPLOADS_DIR s)
  | _ => Raise (Exn "TypeError" ("unsupported operand type(s) for /: 'PosixPath' and '"
                                 +:+ Py.type_name name +:+ "'"))
  end.

(** [POST /api/process-number-card] with [request.json] equal to [data]. *)
Definition process_number_card (data : json) : M http_response :=
  missing ← lift (first_missing required data);
  match missing with
  | Some field => mret (jsonify (error_body ("Missing field: " +:+ field)) 400)
  | None =>
      temp_path ← lift (name ← Py.getitem data "filename"; uploads_path name);
      there ← path_exists temp_path;
      if negb there then mret (jsonify (error_body "Image not found") 404)
      else
        word ← lift (v ← Py.getitem data "word"; Py.upper_of v);
        crop_x ← lift (v ← Py.getitem data "cropX"; Py.int v);
        crop_y ← lift (v ← Py.getitem data "cropY"; Py.int v);
        crop_width ← lift (v ← Py.getitem data "cropWidth"; Py.int v);
        crop_height ← lift (v ← Py.getitem data "cropHeight"; Py.int v);
        try_except
          (img ← image_open_path temp_path;
           img ← (if String.eqb (image_mode img) "RGB" || String.eqb (image_mode img) "RGBA"
                  then mret img else lift (image_convert img "RGBA"));
           cropped ← lift (image_crop img
                             (crop_x, crop_y, crop_x + crop_width, crop_y + crop_height)%Z);
           processed ← lift (rembg_remove cropped);
           let preview_filename := lower word +:+ "_preview.png" in
           let preview_path := path_join PROCESSED_DIR preview_filename in
           _ ← image_save_path processed preview_path;
           img_bytes ← lift (image_save_png processed);
           let preview_base64 := b64encode img_bytes in
           mret (jsonify [("success", JBool true);
                          ("preview", JStr ("data:image/png;base64," +:+ preview_base64));
                          ("previewPath", JStr ("processed/" +:+ preview_filename));
                          ("word", JStr word)] 200))
          (fun e => mret (jsonify (error_body (exn_str e)) 500))
  end.

(** [POST /api/process-face-card] with the parts [request.files] and the
    fields [request.form]. *)
Definition process_face_card (request_files : list (string * upload))
    (request_form : list (string * string)) : M http_response :=
  match Py.dict_get "image" request_files with
  | None => mret (jsonify (error_body "No image provided") 400)
  | Some file =>
      match Py.dict_get "word" request_form with
      | None => mret (jsonify (error_body "No word provided") 400)
      | Some w =>
          let word := upper w in
          if String.eqb (filename file) "" then
            mret (jsonify (error_body "No file selected") 400)
          else
            try_except
              (let img_bytes := content file in
               card_id ← generate_card_id word "face";
               let filename := card_id +:+ ".png" in
               image_url ← upload_to_cloudflare img_bytes filename;
               cards_data ← load_cards;
               let new_card := JObj [("id", JStr card_id); ("word", JStr word);
                                     ("imageUrl", image_url); ("type", JStr "face")] in
               cards_data ← lift (Py.append_at cards_data "cards" new_card);
               _ ← save_cards cards_data;
               total ← lift (cards ← Py.getitem cards_data "cards"; Py.len cards);
               mret (jsonify [("success", JBool true); ("card", new_card);
                              ("totalCards", JInt total)] 200))
              (fun e => mret (jsonify (error_body (exn_str e)) 500))
      end
  end.

(** The comprehension [[c for c in cards if c["id"] != card_id]]. *)
Fixpoint without_id (card_id : string) (cards : list json) : outcome (list json) :=
  match cards with
  | [] => Return []
  | c :: rest =>
      id ← Py.getitem c "id";
      kept ← without_id card_id rest;
      Return (if Py.is_str id card_id then kept else c :: kept)
  end.

(** [DELETE /api/delete-card/<card_id>]. *)
Definition delete_card (card_id : string) : M http_response :=
  cards_data ← load_cards;
  original_count ← lift (cards ← Py.getitem cards_data "cards"; Py.len cards);
  kept ← lift (cards ← Py.getitem cards_data "cards";
               items ← Py.iter cards;
               without_id card_id items);
  cards_data ← lift (Py.setitem cards_data "cards" (JArr kept));
  count ← lift (cards ← Py.getitem cards_data "cards"; Py.len cards);
  if (count =? original_count)%Z then
    mret (jsonify (error_body "Card not found") 404)
  else
    _ ← save_cards cards_data;
    mret (jsonify [("success", JBool true); ("totalCards", JInt count)] 200).

(** [GET /api/cards]. *)
Definition get_cards : M http_response :=
  data ← load_cards;
  mret (data, 200%Z).

(** [POST /api/confirm-number-card] with [request.json] equal to [data]. *)
Definition confirm_number_card (data : json) : M http_response :=
  present ← lift (Py.contains_key data "word");
  if negb present then mret (jsonify (error_body "Missing word") 400)
  else
    word ← lift (v ← Py.getitem data "word"; Py.upper_of v);
    let preview_path := path_join PROCESSED_DIR (lower word +:+ "_preview.png") in
    there ← path_exists preview_path;
    if negb there then
      mret (jsonify (error_body "Preview not found. Process the card first.") 404)
    else
      try_except
        (img_bytes ← read_file preview_path;
         card_id ← generate_card_id word "number";
         let filename := card_id +:+ ".png" in
         image_url ← upload_to_cloudflare img_bytes filename;
         cards_data ← load_cards;
         let new_card := JObj [("id", JStr card_id); ("word", JStr word);
                               ("imageUrl", image_url); ("type", JStr "number")] in
         cards_data ← lift (Py.append_at cards_data "cards" new_card);
         _ ← save_cards cards_data;
         _ ← unlink_missing_ok preview_path;
         total ← lift (cards ← Py.getitem cards_data "cards"; Py.len cards);
         mret (jsonify [("success", JBool true); ("card", new_card);
                        ("totalCards", JInt total)] 200))
        (fun e => mret (jsonify (error_body (exn_str e)) 500)).

(** [Path(name).suffix] of [pathlib] and [img.size] of the image library,
    which [upload_temp] alone uses. *)
Variable path_suffix : string -> string.
Variable image_size : image -> Z * Z.

(** [POST /api/upload-temp] with the parts [request.files]. *)
Definition upload_temp (request_files : list (string * upload)) : M http_response :=
  match Py.dict_get "image" request_files with
  | None => mret (jsonify (error_body "No image provided") 400)
  | Some file =>
      if String.eqb (filename file) "" then
        mret (jsonify (error_body "No file selected") 400)
      else
        let ext := if String.eqb (path_suffix (filename file)) "" then ".png"
                   else path_suffix (filename file) in
        u ← uuid4;
        let temp_filename := "temp_" +:+ take 8 (Uuid.hex u) +:+ ext in
        let temp_path := path_join UPLOADS_DIR temp_filename in
        _ ← write_file temp_path (content file);
        img ← image_open_path temp_path;
        let '(width, height) := image_size img in
        mret (jsonify [("filename", JStr temp_filename);
                       ("path", JStr ("uploads/" +:+ temp_filename));
                       ("width", JInt width); ("height", JInt height)] 200)
  end.

End Server.
End AdminServer.

(** ** [scripts/process-face-card.py]

    Console output is not part of the model; [input] only reads the answer. *)

Module ProcessFaceCard.
Import Text.

Section Script.
Context `{Platform}.

Definition DATA_FILE : string := path_join (path_join root "data") "cards.json".

Definition load_cards : M json :=
  there ← path_exists DATA_FILE;
  if (there : bool) then
    f ← read_file DATA_FILE;
    match Json.loads f with
    | Some data => mret data
    | None => raise (Exn "JSONDecodeError" "Expecting value")
    end
  else mret (JObj [("cards", JArr [])]).

Definition save_cards (data : json) : M unit :=
  write_file DATA_FILE (Json.dumps data).

Definition upload_to_cloudflare (image_path filename : string) : M json :=
  account_id ← environ_get "CLOUDFLARE_ACCOUNT_ID";
  api_token ← environ_get "CLOUDFLARE_API_TOKEN";
  if negb (Py.truthy_opt account_id) || negb (Py.truthy_opt api_token) then
    raise (Exn "ValueError" "CLOUDFLARE_ACCOUNT_ID and CLOUDFLARE_API_TOKEN must be set")
  else
    let url := "https://api.cloudflare.com/client/v4/accounts/"
               +:+ default "" account_id +:+ "/images/v1" in
    let authorization := "Bearer " +:+ default "" api_token in
    f ← read_file image_path;
    response ← post (Request url authorization filename f "image/png");
    if negb (status_code response =? 200)%Z then
      raise (Exn "Exception" ("Cloudflare upload failed: " +:+ text response))
    else
      match json_body response with
      | None => raise (Exn "JSONDecodeError" "Expecting value")
      | Some result =>
          success ← lift (Py.get result "success");
          if negb (Py.truthy success) then
            errors ← lift (Py.get result "errors");
            raise (Exn "Exception" ("Cloudflare upload failed: " +:+ Py.str errors))
          else
            image_id ← lift (r ← Py.getitem result "result"; Py.getitem r "id");
            variants ← lift (r ← Py.getitem result "result"; Py.getitem r "variants");
            if Py.truthy variants then lift (Py.getitem0 variants)
            else mret (JStr ("https://imagedelivery.net/" +:+ default "" account_id +:+ "/"
                             +:+ Py.str image_id +:+ "/public"))
      end.

Definition generate_card_id (word : string) : M string :=
  u ← uuid4;
  let short_uuid := take 8 (Uuid.str u) in
  mret ("face-" +:+ lower word +:+ "-" +:+ short_uuid).

(** [main()] with [sys.argv] equal to [argv]. *)
Definition main (argv : list string) : M unit :=
  if (length argv <? 3)%nat then sys_exit 1
  else
    let image_path := nth 1 argv "" in
    let word := upper (nth 2 argv "") in
    there ← path_exists image_path;
    if negb there then sys_exit 1
    else
      img ← image_open_path image_path;
      answer ← input;
      let confirm := lower (strip answer) in
      if negb (String.eqb confirm "yes") then sys_exit 0
      else
        card_id ← generate_card_id word;
        let filename := card_id +:+ ".png" in
        image_url ← upload_to_cloudflare image_path filename;
        cards_data ← load_cards;
        let new_card := JObj [("id", JStr card_id); ("word", JStr word);
                              ("imageUrl", image_url); ("type", JStr "face")] in
        cards_data ← lift (Py.append_at cards_data "cards" new_card);
        _ ← save_cards cards_data;
        _ ← lift (cards ← Py.getitem cards_data "cards"; Py.len cards);
        mret tt.

End Script.
End ProcessFaceCard.

(** ** [scripts/process-number-card.py] *)

Module ProcessNumberCard.
Import Text.

Section Script.
Context `{Platform}.

Definition DATA_FILE : string := path_join (path_join root "data") "cards.json".
Definition PROCESSED_DIR : string := path_join root "processed".

Definition load_cards : M json :=
  there ← path_exists DATA_FILE;
  if (there : bool) then
    f ← read_file DATA_FILE;
    match Json.loads f with
    | Some data => mret data
    | None => raise (Exn "JSONDecodeError" "Expecting value")
    end
  else mret (JObj [("cards", JArr [])]).

Definition save_cards (data : json) : M unit :=
  write_file DATA_FILE (Json.dumps data).

Definition crop_image (image_path : string) (x y width height : Z) : M image :=
  img ← image_open_path image_path;
  img ← (if String.eqb (image_mode img) "RGB" || String.eqb (image_mode img) "RGBA"
         then mret img else lift (image_convert img "RGBA"));
  lift (image_crop img (x, y, x + width, y + height)%Z).

Definition remove_background (img : image) : M image :=
  lift (rembg_remove img).

Definition upload_to_cloudflare (img : image) (filename : string) : M json :=
  account_id ← environ_get "CLOUDFLARE_ACCOUNT_ID";
  api_token ← environ_get "CLOUDFLARE_API_TOKEN";
  if negb (Py.truthy_opt account_id) || negb (Py.truthy_opt api_token) then
    raise (Exn "ValueError" "CLOUDFLARE_ACCOUNT_ID and CLOUDFLARE_API_TOKEN must be set")
  else
    let url := "https://api.cloudflare.com/client/v4/accounts/"
               +:+ default "" account_id +:+ "/images/v1" in
    let authorization := "Bearer " +:+ default "" api_token in
    img_bytes ← lift (image_save_png img);
    response ← post (Request url authorization filename img_bytes "image/png");
    if negb (status_code response =? 200)%Z then
      raise (Exn "Exception" ("Cloudflare upload failed: " +:+ text response))
    else
      match json_body response with
      | None => raise (Exn "JSONDecodeError" "Expecting value")
      | Some result =>
          success ← lift (Py.get result "success");
          if negb (Py.truthy success) then
            errors ← lift (Py.get result "errors");
            raise (Exn "Exception" ("Cloudflare upload failed: " +:+ Py.str errors))
          else
            image_id ← lift (r ← Py.getitem result "result"; Py.getitem r "id");
            variants ← lift (r ← Py.getitem result "result"; Py.getitem r "variants");
            if Py.truthy variants then lift (Py.getitem0 variants)
            else mret (JStr ("https://imagedelivery.net/" +:+ default "" account_id +:+ "/"
                             +:+ Py.str image_id +:+ "/public"))
      end.

Definition generate_card_id (word : string) : M string :=
  u ← uuid4;
  let short_uuid := take 8 (Uuid.str u) in
  mret (lower word +:+ "-" +:+ short_uuid).

(** [int(sys.argv[i])]. *)
Definition int_arg (argv : list string) (i : nat) : M Z :=
  lift (Py.int (JStr (nth i argv ""))).

(** [main()] with [sys.argv] equal to [argv].  [PROCESSED_DIR.mkdir] has no
    effect on the files of the state, which are named by their full path. *)
Definition main (argv : list string) : M unit :=
  if (length argv <? 7)%nat then sys_exit 1
  else
    let image_path := nth 1 argv "" in
    let word := upper (nth 2 argv "") in
    crop_x ← int_arg argv 3;
    crop_y ← int_arg argv 4;
    crop_width ← int_arg argv 5;
    crop_height ← int_arg argv 6;
    there ← path_exists image_path;
    if negb there then sys_exit 1
    else
      cropped ← crop_image image_path crop_x crop_y crop_width crop_height;
      processed ← remove_background cropped;
      let preview_path := path_join PROCESSED_DIR (lower word +:+ "_preview.png") in
      _ ← image_save_path processed preview_path;
      answer ← input;
      let confirm := lower (strip answer) in
      if negb (String.eqb confirm "yes") then sys_exit 0
      else
        card_id ← generate_card_id word;
        let filename := card_id +:+ ".png" in
        image_url ← upload_to_cloudflare processed filename;
        cards_data ← load_cards;
        let new_card := JObj [("id", JStr card_id); ("word", JStr word);
                              ("imageUrl", image_url); ("type", JStr "number")] in
        cards_data ← lift (Py.append_at cards_data "cards" new_card);
        _ ← save_cards cards_data;
        _ ← lift (cards ← Py.getitem cards_data "cards"; Py.len cards);
        mret tt.

End Script.
End ProcessNumberCard.

(** ** Words of the statements *)

(** Both required environment variables are set and not empty. *)
Definition configured (w : world) (account_id api_token : string) : Prop :=
  env w !! "CLOUDFLARE_ACCOUNT_ID" = Some account_id /\ account_id <> ""
  /\ env w !! "CLOUDFLARE_API_TOKEN" = Some api_token /\ api_token <> "".

(** The upload request the three publishers build. *)
Definition upload_request (account_id api_token filename file : string) : request :=
  Request ("https://api.cloudflare.com/client/v4/accounts/" +:+ account_id +:+ "/images/v1")
          ("Bearer " +:+ api_token) filename file "image/png".

(** A successful upload response: status 200 and a JSON object whose
    [success] is true and whose [result] is the object [result]. *)
Definition successful_upload (r : response) (result : list (string * json)) : Prop :=
  status_code r = 200%Z
  /\ exists members success,
       json_body r = Some (JObj members)
       /\ Py.dict_get "success" members = Some success
       /\ Py.truthy success = true
       /\ Py.dict_get "result" members = Some (JObj result).

(** The state after a request went out. *)
Definition sending (r : request) (w : world) : world :=
  World (env w) (files w) (stdin w) (sent w ++ [r]) (drawn w).

(** The state after a file was written. *)
Definition writing (path content : string) (w : world) : world :=
  World (env w) (<[path := content]> (files w)) (stdin w) (sent w) (drawn w).

(** The message of the configuration error. *)
Definition MissingConfiguration : exn :=
  Exn "ValueError" "CLOUDFLARE_ACCOUNT_ID and CLOUDFLARE_API_TOKEN must be set".

(** A record of the catalog has the identifier [id]. *)
Definition listed (id : string) (cards : list card) : bool :=
  existsb (fun c => String.eqb (card_id c) id) cards.

(** The records of the catalog whose identifier is not [id]. *)
Definition remaining (id : string) (cards : list card) : list card :=
  List.filter (fun c => negb (String.eqb (card_id c) id)) cards.

(** The four crop fields of a process-number-card request. *)
Definition crop_fields : list string := ["cropX"; "cropY"; "cropWidth"; "cropHeight"].

(** What a run of a script that was given a declining answer must satisfy:
    no request went out, the catalog file is as it was, and, when the answer
    was read (the lines after it are what is left of standard input), the
    process ended with status 0. *)
Definition untouched `{Platform} (w : world) (rest : list string)
    (r : outcome unit * world) : Prop :=
  sent (snd r) = sent w
  /\ files (snd r) !! ProcessNumberCard.DATA_FILE = files w !! ProcessNumberCard.DATA_FILE
  /\ (stdin (snd r) = rest -> fst r = Exit 0).

(** A run from [w] that touched nothing but the list of requests, and sent
    at most one. *)
Definition sent_at_most_one {A} (w : world) (r : outcome A * world) : Prop :=
  env (snd r) = env w /\ files (snd r) = files w /\ stdin (snd r) = stdin w
  /\ drawn (snd r) = drawn w
  /\ (sent (snd r) = sent w \/ exists req, sent (snd r) = sent w ++ [req]).

(** The exception of a publisher whose upload was refused. *)
Definition UploadFailed (detail : string) : exn :=
  Exn "Exception" ("Cloudflare upload failed: " +:+ detail).

(** What a publisher reports of a response it does not accept: the text of
    a response whose status is not 200, the [errors] of a JSON object whose
    [success] is absent or false; nothing for the other responses. *)
Definition failure_detail `{Platform} (r : response) : option string :=
  if negb (status_code r =? 200)%Z then Some (text r)
  else match json_body r with
       | Some (JObj members) =>
           if Py.truthy (default JNull (Py.dict_get "success" members)) then None
           else Some (Py.str (default JNull (Py.dict_get "errors" members)))
       | _ => None
       end.

(** The preview file of a word: [PROCESSED_DIR / f"{word.lower()}_preview.png"]. *)
Definition preview_of `{Platform} (word : string) : string :=
  path_join AdminServer.PROCESSED_DIR (Text.lower word +:+ "_preview.png").

(** The state after a file was removed. *)
Definition removing (path : string) (w : world) : world :=
  World (env w) (delete path (files w)) (stdin w) (sent w) (drawn w).

(** The name [upload_temp] gives the file it stores in state [w], for the
    suffix [suffix] of the uploaded file name: [temp_], the fragment, and
    the suffix, or [.png] when there is none. *)
Definition temp_name `{Platform} (w : world) (suffix : string) : string :=
  "temp_" +:+ fragment w +:+ (if String.eqb suffix "" then ".png" else suffix).

(** The state after a line of standard input was read, [rest] being the
    lines left. *)
Definition reading (rest : list string) (w : world) : world :=
  World (env w) (files w) rest (sent w) (drawn w).

(** The URL the two scripts keep of an accepted upload: the first variant
    the service lists, or the public delivery URL under the account
    identifier when it lists none. *)
Definition script_url `{Platform} (account_id : string) (image_id : json)
    (variants : list json) : json :=
  match variants with
  | first :: _ => first
  | [] => JStr ("https://imagedelivery.net/" +:+ account_id +:+ "/"
                +:+ Py.str image_id +:+ "/public")
  end.

(** The image a number card is made of, from the bytes [file] of a
    photograph: opened, converted to RGBA unless its mode is RGB or RGBA,
    cropped to the box of corners [(x, y)] and [(x + width, y + height)],
    and cleared of its background. *)
Definition processed_image `{Platform} (file : string) (x y width height : Z)
    : outcome image :=
  img ← Image_open file;
  img ← (if String.eqb (image_mode img) "RGB" || String.eqb (image_mode img) "RGBA"
         then Return img else image_convert img "RGBA");
  cropped ← image_crop img (x, y, x + width, y + height)%Z;
  rembg_remove cropped.

(** A computation that leaves the file [path] as it was, however it ends. *)
Definition preserves_file {A} (path : string) (m : M A) : Prop :=
  forall w, files (snd (m w)) !! path = files w !! path.

(** A computation that changes the file [path] only in runs that end
    normally: after an exception or an exit the file is as it was. *)
Definition commits_file {A} (path : string) (m : M A) : Prop :=
  forall w, (forall a, fst (m w) <> Return a) ->
            files (snd (m w)) !! path = files w !! path.

(** The catalog file of the state [w] reads as the catalog [cards]; a
    state without a catalog file holds the empty catalog. *)
Definition holds_catalog `{Platform} (w : world) (cards : list card) : Prop :=
  AdminServer.load_cards w = (Return (catalog_json cards), w).

(** A text that holds no JSON value: after the white space it is at its
    end, or its first character opens no value.  A value opens with a quote,
    a brace, a bracket, a digit, a minus sign, or the first letter of [null],
    [true], [false], [NaN] or [Infinity]. *)
Definition holds_no_value (text : string) : bool :=
  match Json.skip_ws text with
  | EmptyString => true
  | String c _ =>
      negb (Text.is_digit c
            || existsb (Ascii.eqb c)
                 [Text.dquote; "{"; "["; "-"; "n"; "t"; "f"; "N"; "I"]%char)
  end.

(** ** A concrete platform, for the examples

    The service answers every upload with [answer]; every random draw is
    [random]; images are opaque tokens. *)

Definition demo_platform (answer : outcome response) (random : N) : Platform := {|
  repr := fun _ => "<repr>";
  requests_post := fun _ _ => answer;
  urandom := fun _ => random;
  image := unit;
  Image_open := fun _ => Return tt;
  image_mode := fun _ => "RGB";
  image_convert := fun _ _ => Return tt;
  image_crop := fun _ _ => Return tt;
  rembg_remove := fun _ => Return tt;
  image_save_png := fun _ => Return "PNG";
  b64encode := fun s => s;
  int_max_str_digits := 4300;
  root := "/srv/cards"
|}.

(** The answer of the service to a successful upload. *)
Definition upload_answer (image_id : string) (variants : list json) : response :=
  Response 200 ""
    (Some (JObj [("success", JBool true); ("errors", JArr []);
                 ("result", JObj [("id", JStr image_id); ("variants", JArr variants)])])).

Definition demo_env : gmap string string :=
  <["CLOUDFLARE_ACCOUNT_ID" := "acct"]> (<["CLOUDFLARE_API_TOKEN" := "token"]> ∅).

(** A state with the two credentials set, the files [fs], the lines [lines]
    waiting on standard input, and nothing sent or drawn yet. *)
Definition demo_world (fs : gmap string string) (lines : list string) : world :=
  World demo_env fs lines [] 0.

(** A platform whose service is never reached. *)
Definition offline : Platform :=
  demo_platform (Raise (Exn "ConnectionError" "unreachable")) 0.

(** Three cards, and the files of a checkout whose catalog holds [cards]. *)
Definition three_cards : list card :=
  [Card "dog-0a1b2c3d" "DOG" "https://imagedelivery.net/h/1/medium" "number";
   Card "face-king-4e5f6a7b" "KING" "https://imagedelivery.net/h/2/medium" "face";
   Card "cat-8c9d0e1f" "CAT" "https://imagedelivery.net/h/3/medium" "number"].

Definition catalog_on_disk (cards : list card) : gmap string string :=
  <[@AdminServer.DATA_FILE offline := Json.dumps (catalog_json cards)]> ∅.

(** A process-number-card request whose [cropX] is not a number. *)
Definition bad_crop_request : list (string * json) :=
  [("filename", JStr "temp_0a1b2c3d.png"); ("word", JStr "dog");
   ("cropX", JStr "abc"); ("cropY", JInt 50);
   ("cropWidth", JInt 250); ("cropHeight", JInt 350)].

(** Two words with letters above code point 127: [Stra], the sharp s and
    [e], whose upper case is [STRASSE]; and [E] with an acute accent followed
    by [cole], whose lower case has the small [e] with an acute accent. *)
Definition strasse : string := "Stra" +:+ String "223" "e".
Definition ecole : string := String "201" "cole".

(** A process-number-card request for the upload [name], with one crop
    field sent as text. *)
Definition crop_request (name : string) : list (string * json) :=
  [("filename", JStr name); ("word", JStr "dog");
   ("cropX", JInt 100); ("cropY", JStr "50");
   ("cropWidth", JInt 250); ("cropHeight", JInt 350)].

(** * Proofs *)

(** ** Text *)

Lemma app_assoc_s (a b c : string) : (a +:+ b) +:+ c = a +:+ (b +:+ c).
Proof. induction a as [|x a IH]; simpl; [reflexivity | now rewrite IH]. Qed.

Lemma app_nil_r_s (a : string) : a +:+ "" = a.
Proof. induction a as [|x a IH]; simpl; [reflexivity | now rewrite IH]. Qed.

Lemma length_app_s (a b : string) :
  String.length (a +:+ b) = String.length a + String.length b.
Proof. induction a as [|x a IH]; simpl; [reflexivity | now rewrite IH]. Qed.

Import Text Json.

(** ** JSON: what is written is read back *)

Lemma skip_ws_spaces n s : skip_ws (spaces n +:+ s) = skip_ws s.
Proof. induction n as [|n IH]; simpl; [reflexivity | exact IH]. Qed.

Lemma skip_ws_newline_indent level s :
  skip_ws (newline_indent level +:+ s) = skip_ws s.
Proof. unfold newline_indent. simpl. apply skip_ws_spaces. Qed.

Lemma scanstring_escape_char c r :
  scanstring (escape_char c +:+ r)
  = '(t, r') ← scanstring r; Some (String c t, r').
Proof.
  destruct c as [[] [] [] [] [] [] [] []]; reflexivity.
Qed.

Lemma scanstring_escape s rest :
  scanstring (escape s +:+ String dquote rest) = Some (s, rest).
Proof.
  induction s as [|c s IH]; simpl; [reflexivity |].
  rewrite app_assoc_s, scanstring_escape_char, IH. reflexivity.
Qed.



Lemma json_induction (P : json -> Prop) :
  P JNull -> (forall b, P (JBool b)) -> (forall n, P (JInt n)) ->
  (forall s, P (JStr s)) ->
  (forall items, Forall P items -> P (JArr items)) ->
  (forall members, Forall (fun kv => P (snd kv)) members -> P (JObj members)) ->
  forall j, P j.
Proof.
  intros Hnull Hbool Hint Hstr Harr Hobj.
  fix IH 1. intros [ | b | n | s | items | members ].
  - exact Hnull.
  - apply Hbool.
  - apply Hint.
  - apply Hstr.
  - apply Harr. induction items as [|x items IHl]; constructor; [apply IH | exact IHl].
  - apply Hobj. induction members as [|[k v] members IHl]; constructor;
      [apply IH | exact IHl].
Qed.

(** Decimal digits. *)

Lemma scan_digits_string_of_uint d rest :
  match rest with String c _ => is_digit c = false | EmptyString => True end ->
  scan_digits (string_of_uint d +:+ rest) = (d, rest).
Proof.
  intros Hrest. induction d; simpl;
    try (rewrite IHd; reflexivity).
  destruct rest as [|c r]; simpl; [reflexivity | now rewrite Hrest].
Qed.

Lemma nzhead_no_zero d d' : Decimal.nzhead d <> Decimal.D0 d'.
Proof. induction d; simpl; try discriminate. exact IHd. Qed.

Lemma to_uint_head p :
  match Pos.to_uint p with
  | Decimal.Nil | Decimal.D0 _ => False
  | _ => True
  end.
Proof.
  pose proof (Unsigned.to_of (Pos.to_uint p)) as Hn.
  rewrite Unsigned.of_to in Hn. simpl in Hn.
  pose proof (Unsigned.to_uint_nonnil p) as Hnil.
  pose proof (Unsigned.to_uint_nonzero p) as Hz.
  destruct (Pos.to_uint p) as [|d| | | | | | | | | ] eqn:E; try exact I; try congruence.
  unfold Decimal.unorm in Hn. simpl in Hn.
  destruct (Decimal.nzhead d) eqn:En; try (symmetry in Hn; discriminate Hn).
  - apply Hz. inversion Hn. reflexivity.
  - exfalso. eapply nzhead_no_zero. exact En.
Qed.

Lemma delimited_not_digit rest :
  delimited rest = true ->
  match rest with String c _ => is_digit c = false | EmptyString => True end.
Proof.
  destruct rest as [|c r]; [trivial |]. unfold delimited.
  intros Hd. apply negb_true_iff, orb_false_iff in Hd. tauto.
Qed.

Lemma delimited_not_float rest : delimited rest = true -> starts_float_tail rest = false.
Proof.
  destruct rest as [|c r]; [reflexivity |]. unfold delimited.
  intros Hd. apply negb_true_iff, orb_false_iff in Hd. tauto.
Qed.

Lemma scan_intpart_pos p rest :
  delimited rest = true ->
  scan_intpart (string_of_uint (Pos.to_uint p) +:+ rest) = Some (Pos.to_uint p, rest).
Proof.
  intros Hd. pose proof (to_uint_head p) as Hh.
  pose proof (scan_digits_string_of_uint (Pos.to_uint p) rest (delimited_not_digit _ Hd)) as Hs.
  destruct (Pos.to_uint p); try contradiction;
    unfold scan_intpart; simpl string_of_uint in *; cbn [String.append] in *;
    cbn [Ascii.eqb Bool.eqb is_digit in_range code N_of_ascii N_of_digits N.leb N.compare andb];
    simpl; simpl in Hs; rewrite Hs; reflexivity.
Qed.

Lemma string_of_uint_head d :
  d <> Decimal.Nil ->
  exists c r, string_of_uint d = String c r /\ is_digit c = true.
Proof. destruct d; intros Hd; try congruence; simpl; eauto. Qed.

Lemma scan_number_digit c r :
  is_digit c = true ->
  scan_number (String c r)
  = '(d, r') ← scan_intpart (String c r);
    if starts_float_tail r' then None
    else Some (JInt (Z.of_int (Decimal.Pos d)), r').
Proof. destruct c as [[] [] [] [] [] [] [] []]; try discriminate; reflexivity. Qed.

Lemma scan_number_int_repr n rest :
  delimited rest = true ->
  scan_number (int_repr n +:+ rest) = Some (JInt n, rest).
Proof.
  intros Hd. pose proof (delimited_not_float _ Hd) as Hf.
  destruct n as [|p|p]; unfold int_repr; simpl Z.to_int.
  - simpl. rewrite Hf. reflexivity.
  - pose proof (scan_intpart_pos p rest Hd) as Hs.
    assert (HZ : Z.of_int (Decimal.Pos (Pos.to_uint p)) = Z.pos p)
      by apply (DecimalZ.of_to (Z.pos p)).
    destruct (string_of_uint_head (Pos.to_uint p)) as (c & r & Hc & Hdig);
      [apply Unsigned.to_uint_nonnil |].
    rewrite Hc in *. cbn [String.append] in *.
    rewrite scan_number_digit by exact Hdig.
    rewrite Hs. cbn [mbind option_bind]. rewrite Hf, HZ. reflexivity.
  - pose proof (scan_intpart_pos p rest Hd) as Hs.
    assert (HZ : Z.of_int (Decimal.Neg (Pos.to_uint p)) = Z.neg p)
      by apply (DecimalZ.of_to (Z.neg p)).
    unfold scan_number. cbn [String.append].
    rewrite Hs. cbn [mbind option_bind]. rewrite Hf, HZ. reflexivity.
Qed.

Lemma int_repr_head n :
  exists c r, int_repr n = String c r
              /\ (is_digit c = true \/ c = "-"%char).
Proof.
  destruct n as [|p|p]; unfold int_repr; simpl Z.to_int.
  - simpl. eauto.
  - destruct (string_of_uint_head (Pos.to_uint p)) as (c & r & -> & Hc);
      [apply Unsigned.to_uint_nonnil | eauto].
  - eauto.
Qed.

Lemma is_digit_opens c : is_digit c = true -> opens_value c.
Proof. destruct c as [[] [] [] [] [] [] [] []]; try discriminate; repeat split. Qed.

Lemma iterencode_head level j :
  exists c r, iterencode level j = String c r /\ opens_value c.
Proof.
  destruct j as [ | [] | n | s | [|x items] | [|kv members] ]; simpl;
    try (eexists _, _; split; [reflexivity | repeat split]).
  destruct (int_repr_head n) as (c & r & -> & [Hc | ->]).
  - eauto using is_digit_opens.
  - eexists _, _; split; [reflexivity | repeat split].
Qed.

Lemma skip_ws_opens c r : opens_value c -> skip_ws (String c r) = String c r.
Proof. intros (Hc & _). simpl. now rewrite Hc. Qed.

(** [dict(pairs)] of pairs with distinct keys. *)

Lemma dict_set_fresh k v d :
  existsb (String.eqb k) (List.map fst d) = false -> dict_set k v d = d ++ [(k, v)].
Proof.
  induction d as [|[k' v'] d IH]; simpl; [reflexivity |].
  intros Hk. apply orb_false_iff in Hk as [Hk Hd].
  rewrite String.eqb_sym, Hk. now rewrite IH.
Qed.

Lemma existsb_app_false {A} (p : A -> bool) l1 l2 :
  existsb p (l1 ++ l2) = false <-> existsb p l1 = false /\ existsb p l2 = false.
Proof. rewrite existsb_app. apply orb_false_iff. Qed.

Lemma fold_dict_set acc pairs :
  distinct (List.map fst (acc ++ pairs)) = true ->
  fold_left (fun d kv => dict_set (fst kv) (snd kv) d) pairs acc = acc ++ pairs.
Proof.
  revert acc. induction pairs as [|[k v] pairs IH]; intros acc Hd; simpl.
  - now rewrite app_nil_r.
  - assert (Hfresh : existsb (String.eqb k) (List.map fst acc) = false).
    { clear IH. induction acc as [|[k' v'] acc IHa]; [reflexivity |].
      simpl in Hd. apply andb_true_iff in Hd as [Hk' Hd].
      simpl. rewrite IHa by exact Hd.
      apply negb_true_iff in Hk'. rewrite map_app, existsb_app in Hk'.
      apply orb_false_iff in Hk' as [_ Hk']. simpl in Hk'.
      apply orb_false_iff in Hk' as [Hk' _].
      rewrite String.eqb_sym, Hk'. reflexivity. }
    rewrite dict_set_fresh by exact Hfresh.
    rewrite IH; rewrite <- app_assoc; [reflexivity | exact Hd].
Qed.

Lemma dict_of_pairs_distinct pairs :
  distinct (List.map fst pairs) = true -> dict_of_pairs pairs = pairs.
Proof. intros Hd. unfold dict_of_pairs. now rewrite fold_dict_set. Qed.

Lemma join_map_single {A} sep (f : A -> string) x :
  join sep (List.map f [x]) = f x.
Proof. reflexivity. Qed.

Lemma join_map_cons2 {A} sep (f : A -> string) x y l :
  join sep (List.map f (x :: y :: l)) = f x +:+ sep +:+ join sep (List.map f (y :: l)).
Proof. reflexivity. Qed.

Lemma delimited_newline_indent level s : delimited (newline_indent level +:+ s) = true.
Proof. reflexivity. Qed.

#[local] Opaque newline_indent join.

(** The decoder on an encoded value. *)

Lemma skip_ws_value level j s :
  skip_ws (iterencode level j +:+ s) = iterencode level j +:+ s.
Proof.
  destruct (iterencode_head level j) as (c & r & -> & Hc).
  cbn [String.append]. now apply skip_ws_opens.
Qed.

Lemma value_head_app level j s :
  exists c r, iterencode level j +:+ s = String c r /\ opens_value c.
Proof.
  destruct (iterencode_head level j) as (c & r & -> & Hc).
  cbn [String.append]. eauto.
Qed.

Lemma join_map_head level sep items s :
  items <> [] ->
  exists c r, join sep (List.map (iterencode level) items) +:+ s = String c r
              /\ opens_value c.
Proof.
  destruct items as [|x [|y items]]; [congruence | |]; intros _.
  - rewrite join_map_single. apply value_head_app.
  - rewrite join_map_cons2, app_assoc_s. apply value_head_app.
Qed.

Lemma array_items_join items :
  Forall reads_back items ->
  List.forallb well_formed items = true ->
  items <> [] ->
  forall level n rest,
  list_sum (List.map (fun x => S (jsize x)) items) <= n ->
  array_items n (join ("," +:+ newline_indent (S level))
                      (List.map (iterencode (S level)) items)
                 +:+ newline_indent level +:+ "]" +:+ rest)
  = Some (items, rest).
Proof.
  induction 1 as [|x items Hx Hitems IH]; intros Hwf Hne level n rest Hn; [congruence |].
  simpl in Hwf. apply andb_true_iff in Hwf as [Hwx Hwf].
  simpl in Hn. destruct n as [|n]; [lia |].
  destruct items as [|y items].
  - rewrite join_map_single. cbn [array_items].
    rewrite (Hx Hwx) by (try apply delimited_newline_indent; lia).
    cbn [mbind option_bind]. rewrite skip_ws_newline_indent. reflexivity.
  - rewrite join_map_cons2, !app_assoc_s. cbn [array_items].
    rewrite (Hx Hwx) by (try reflexivity; lia).
    cbn [mbind option_bind]. cbn [String.append skip_ws is_ws Ascii.eqb Bool.eqb orb].
    rewrite skip_ws_newline_indent.
    destruct (join_map_head (S level) ("," +:+ newline_indent (S level)) (y :: items)
                (newline_indent level +:+ "]" +:+ rest)) as (c & r & Hcr & Hc);
      [discriminate |].
    cbn [String.append] in Hcr, IH |- *.
    rewrite Hcr, (skip_ws_opens _ _ Hc), <- Hcr.
    rewrite IH; [reflexivity | exact Hwf | discriminate | simpl in *; lia].
Qed.

Lemma join_members_head level sep members s :
  members <> [] ->
  exists tail, join sep (List.map (encode_member level) members) +:+ s
               = String dquote tail.
Proof.
  destruct members as [|x [|y members]]; [congruence | |]; intros _.
  - rewrite join_map_single. unfold encode_member, encode_basestring_ascii.
    cbn [String.append]. eauto.
  - rewrite join_map_cons2. unfold encode_member at 1, encode_basestring_ascii.
    cbn [String.append]. eauto.
Qed.

Lemma object_items_join members :
  Forall (fun kv => reads_back (snd kv)) members ->
  List.forallb (fun kv => well_formed (snd kv)) members = true ->
  members <> [] ->
  forall level n rest tail,
  list_sum (List.map (fun kv => S (jsize (snd kv))) members) <= n ->
  join ("," +:+ newline_indent (S level)) (List.map (encode_member (S level)) members)
    +:+ newline_indent level +:+ "}" +:+ rest = String dquote tail ->
  object_items n tail = Some (members, rest).
Proof.
  induction 1 as [|[k v] members Hx Hmembers IH];
    intros Hwf Hne level n rest tail Hn Htail; [congruence |].
  simpl in Hwf. apply andb_true_iff in Hwf as [Hwx Hwf].
  simpl in Hn, Hx. destruct n as [|n]; [lia |].
  destruct members as [|y members].
  - rewrite join_map_single in Htail. unfold encode_member, encode_basestring_ascii in Htail.
    cbn [fst snd] in Htail. rewrite !app_assoc_s in Htail.
    cbn [String.append] in Htail. injection Htail as <-.
    cbn [object_items]. rewrite !app_assoc_s. cbn [String.append].
    rewrite scanstring_escape.
    cbn [mbind option_bind String.append skip_ws is_ws Ascii.eqb Bool.eqb orb].
    rewrite skip_ws_value.
    rewrite (Hx Hwx) by (try apply delimited_newline_indent; lia).
    cbn [mbind option_bind]. rewrite skip_ws_newline_indent. reflexivity.
  - rewrite join_map_cons2 in Htail.
    unfold encode_member at 1, encode_basestring_ascii in Htail.
    cbn [fst snd] in Htail. rewrite !app_assoc_s in Htail.
    cbn [String.append] in Htail. injection Htail as <-.
    cbn [object_items]. rewrite !app_assoc_s. cbn [String.append].
    rewrite scanstring_escape.
    cbn [mbind option_bind String.append skip_ws is_ws Ascii.eqb Bool.eqb orb].
    rewrite skip_ws_value.
    rewrite (Hx Hwx) by (try reflexivity; lia).
    cbn [mbind option_bind String.append skip_ws is_ws Ascii.eqb Bool.eqb orb].
    rewrite skip_ws_newline_indent.
    destruct (join_members_head (S level) ("," +:+ newline_indent (S level)) (y :: members)
                (newline_indent level +:+ "}" +:+ rest)) as (tail & Htail);
      [discriminate |].
    pose proof (IH Hwf ltac:(discriminate) level n rest tail ltac:(simpl in *; lia) Htail)
      as Hrec.
    cbn [String.append] in Htail |- *.
    change (encode_member (S level) y :: List.map (encode_member (S level)) members)
      with (List.map (encode_member (S level)) (y :: members)).
    rewrite Htail.
    cbn [skip_ws is_ws Ascii.eqb Bool.eqb orb dquote].
    rewrite Hrec. reflexivity.
Qed.

Lemma scan_once_number n c r :
  is_digit c = true \/ c = "-"%char ->
  scan_once (S n) (String c r) = scan_number (String c r).
Proof.
  destruct c as [[] [] [] [] [] [] [] []]; intros [Hc | Hc]; try discriminate;
    reflexivity.
Qed.

Theorem scan_once_iterencode j : reads_back j.
Proof.
  induction j as [ | b | z | s | items IH | members IH ] using json_induction;
    intros Hwf level n rest Hn Hd; simpl in Hn; (destruct n as [|n]; [lia |]).
  - reflexivity.
  - destruct b; reflexivity.
  - cbn [iterencode]. destruct (int_repr_head z) as (c & r & Hcr & Hc).
    pose proof (scan_number_int_repr z rest Hd) as Hs.
    rewrite Hcr in *. cbn [String.append] in *.
    now rewrite scan_once_number.
  - cbn [iterencode]. unfold encode_basestring_ascii.
    cbn [String.append scan_once]. simpl Ascii.eqb. cbv iota.
    rewrite app_assoc_s. cbn [String.append].
    rewrite scanstring_escape. reflexivity.
  - destruct items as [|x items]; [reflexivity |].
    cbn [iterencode]. rewrite !app_assoc_s.
    destruct (join_map_head (S level) ("," +:+ newline_indent (S level)) (x :: items)
                (newline_indent level +:+ "]" +:+ rest)) as (c & r & Hcr & Hc);
      [discriminate |].
    pose proof (array_items_join (x :: items) IH Hwf ltac:(discriminate) level n rest
                  ltac:(lia)) as Hrec.
    cbn [String.append scan_once] in Hcr, Hrec |- *. simpl Ascii.eqb.
    cbv iota. rewrite skip_ws_newline_indent.
    rewrite Hcr, (skip_ws_opens _ _ Hc).
    destruct Hc as (_ & -> & _). rewrite <- Hcr, Hrec. reflexivity.
  - destruct members as [|kv members]; [reflexivity |].
    cbn [well_formed] in Hwf. apply andb_true_iff in Hwf as [Hkeys Hwf].
    cbn [iterencode]. rewrite !app_assoc_s.
    destruct (join_members_head (S level) ("," +:+ newline_indent (S level)) (kv :: members)
                (newline_indent level +:+ "}" +:+ rest)) as (tail & Htail);
      [discriminate |].
    pose proof (object_items_join (kv :: members) IH Hwf ltac:(discriminate) level n rest
                  tail ltac:(lia) Htail) as Hrec.
    fold (encode_member (S level)).
    cbn [String.append scan_once] in Htail |- *. simpl Ascii.eqb.
    cbv iota. rewrite skip_ws_newline_indent.
    rewrite Htail. cbn [skip_ws is_ws Ascii.eqb Bool.eqb orb dquote].
    rewrite Hrec. cbn [mbind option_bind].
    now rewrite dict_of_pairs_distinct.
Qed.

#[local] Transparent newline_indent join.

(** The text of a value is at least as long as the value is large, so the
    bound [loads] gives the decoder is enough. *)

Lemma length_join_map {A} (f : A -> string) (size : A -> nat) sep l :
  1 <= String.length sep ->
  Forall (fun x => size x <= String.length (f x)) l ->
  list_sum (List.map (fun x => S (size x)) l)
  <= S (String.length (join sep (List.map f l))).
Proof.
  intros Hsep. induction 1 as [|x l Hx Hl IH]; [simpl; lia |].
  destruct l as [|y l].
  - simpl. lia.
  - rewrite join_map_cons2, !length_app_s.
    change (list_sum (List.map (fun x => S (size x)) (x :: y :: l)))
      with (S (size x) + list_sum (List.map (fun x => S (size x)) (y :: l))).
    lia.
Qed.

Lemma int_repr_nonempty n : 1 <= String.length (int_repr n).
Proof. destruct (int_repr_head n) as (c & r & -> & _). simpl. lia. Qed.

Lemma iterencode_members level kv members :
  iterencode level (JObj (kv :: members))
  = "{" +:+ newline_indent (S level)
    +:+ join ("," +:+ newline_indent (S level))
             (List.map (encode_member (S level)) (kv :: members))
    +:+ newline_indent level +:+ "}".
Proof. reflexivity. Qed.

Lemma jsize_length j : forall level, jsize j <= String.length (iterencode level j).
Proof.
  induction j as [ | b | z | s | items IH | members IH ] using json_induction;
    intros level.
  - simpl. lia.
  - destruct b; simpl; lia.
  - simpl. apply int_repr_nonempty.
  - simpl. lia.
  - destruct items as [|x items]; [simpl; lia |].
    cbn [iterencode jsize]. rewrite !length_app_s.
    pose proof (length_join_map (iterencode (S level)) jsize
                  ("," +:+ newline_indent (S level)) (x :: items)) as Hlen.
    cbn [String.append String.length] in Hlen |- *.
    specialize (Hlen ltac:(lia)).
    assert (Hall : Forall (fun x => jsize x <= String.length (iterencode (S level) x))
                          (x :: items))
      by (eapply Forall_impl; [exact IH |]; intros a Ha; apply Ha).
    specialize (Hlen Hall). lia.
  - destruct members as [|kv members]; [simpl; lia |].
    rewrite iterencode_members. cbn [jsize]. rewrite !length_app_s.
    pose proof (length_join_map (encode_member (S level)) (fun kv => jsize (snd kv))
                  ("," +:+ newline_indent (S level)) (kv :: members)) as Hlen.
    cbn [String.append String.length] in Hlen |- *.
    specialize (Hlen ltac:(lia)).
    assert (Hall : Forall (fun kv => jsize (snd kv)
                                     <= String.length (encode_member (S level) kv))
                          (kv :: members)).
    { eapply Forall_impl; [exact IH |]. intros a Ha. unfold encode_member.
      rewrite !length_app_s. specialize (Ha (S level)). lia. }
    specialize (Hlen Hall). lia.
Qed.

(** [json.loads(json.dumps(j, indent=2))] is [j]. *)
Lemma loads_dumps j : well_formed j = true -> loads (dumps j) = Some j.
Proof.
  intros Hwf. unfold loads, dumps.
  pose proof (skip_ws_value 0 j "") as Hskip. rewrite app_nil_r_s in Hskip.
  rewrite Hskip.
  pose proof (scan_once_iterencode j Hwf 0 (String.length (iterencode 0 j)) ""
                (jsize_length j 0) eq_refl) as Hscan.
  rewrite app_nil_r_s in Hscan. rewrite Hscan. reflexivity.
Qed.

(** ** Regular expressions: the matcher accepts the language *)

Import Regex.

Lemma app_empty_s (a b : string) : a +:+ b = "" -> a = "" /\ b = "".
Proof. destruct a; [simpl; auto | discriminate]. Qed.

Lemma nullable_complete r s : Matches r s -> s = "" -> nullable r = true.
Proof.
  induction 1 as [ | p c Hp | r1 r2 s1 s2 H1 IH1 H2 IH2 | r1 r2 s H1 IH1
                 | r1 r2 s H2 IH2 | r | r s1 s2 H1 IH1 H2 IH2 ];
    intros Hs; simpl; try reflexivity; try discriminate.
  - apply app_empty_s in Hs as [-> ->]. now rewrite IH1, IH2.
  - now rewrite IH1.
  - rewrite IH2 by assumption. apply orb_true_r.
Qed.

Lemma deriv_complete r s0 :
  Matches r s0 -> forall c s, s0 = String c s -> Matches (deriv c r) s.
Proof.
  induction 1 as [ | p c' Hp | r1 r2 s1 s2 H1 IH1 H2 IH2 | r1 r2 s' H1 IH1
                 | r1 r2 s' H2 IH2 | r | r s1 s2 H1 IH1 H2 IH2 ];
    intros c s Hs; simpl; try discriminate.
  - injection Hs as -> <-. rewrite Hp. constructor.
  - destruct s1 as [|c1 s1].
    + simpl in Hs. rewrite (nullable_complete r1 "" H1 eq_refl).
      apply MAltR. now apply IH2.
    + simpl in Hs. injection Hs as -> <-.
      assert (Hcat : Matches (Cat (deriv c r1) r2) (s1 +:+ s2))
        by (constructor; [now apply IH1 | exact H2]).
      destruct (nullable r1); [now apply MAltL | exact Hcat].
  - apply MAltL. now apply IH1.
  - apply MAltR. now apply IH2.
  - destruct s1 as [|c1 s1].
    + simpl in Hs. now apply IH2.
    + simpl in Hs. injection Hs as -> <-.
      constructor; [now apply IH1 | exact H2].
Qed.

Lemma fullmatch_complete s : forall r, Matches r s -> fullmatch r s = true.
Proof.
  induction s as [|c s IH]; intros r Hm; simpl.
  - now apply (nullable_complete r "").
  - apply IH. now apply (deriv_complete r (String c s)).
Qed.

Lemma matches_star_class p s :
  Text.forallb p s = true -> Matches (Star (Class p)) s.
Proof.
  induction s as [|c s IH]; simpl; intros Hs; [constructor |].
  apply andb_true_iff in Hs as [Hc Hs].
  change (String c s) with (String c "" +:+ s).
  constructor; [now constructor | now apply IH].
Qed.

Lemma matches_plus_class p s :
  s <> "" -> Text.forallb p s = true -> Matches (Plus (Class p)) s.
Proof.
  destruct s as [|c s]; [congruence |]. simpl. intros _ Hs.
  apply andb_true_iff in Hs as [Hc Hs].
  change (String c s) with (String c "" +:+ s).
  constructor; [now constructor | now apply matches_star_class].
Qed.

Lemma matches_repeat_class p s :
  Text.forallb p s = true -> Matches (Repeat (String.length s) (Class p)) s.
Proof.
  induction s as [|c s IH]; simpl; intros Hs; [constructor |].
  apply andb_true_iff in Hs as [Hc Hs].
  change (String c s) with (String c "" +:+ s).
  constructor; [now constructor | now apply IH].
Qed.

Lemma matches_str s : Matches (Str s) s.
Proof.
  induction s as [|c s IH]; simpl; [constructor |].
  change (String c s) with (String c "" +:+ s).
  constructor; [| exact IH]. constructor. apply Ascii.eqb_refl.
Qed.

(** An identifier made of a word in [a-z0-9], a hyphen and eight hexadecimal
    digits matches the pattern of number cards, and the pattern of face cards
    after [face-]. *)
Lemma number_id_matches word frag :
  word <> "" -> Text.forallb lower_alnum word = true ->
  String.length frag = 8 -> Text.forallb hex_lower frag = true ->
  fullmatch number_id_re (word +:+ "-" +:+ frag) = true.
Proof.
  intros Hne Hword Hlen Hfrag. apply fullmatch_complete. unfold number_id_re.
  constructor; [now apply matches_plus_class |].
  constructor; [constructor; reflexivity |].
  rewrite <- Hlen. now apply matches_repeat_class.
Qed.

Lemma face_id_matches word frag :
  word <> "" -> Text.forallb lower_alnum word = true ->
  String.length frag = 8 -> Text.forallb hex_lower frag = true ->
  fullmatch face_id_re ("face-" +:+ word +:+ "-" +:+ frag) = true.
Proof.
  intros Hne Hword Hlen Hfrag. apply fullmatch_complete. unfold face_id_re.
  constructor; [apply matches_str |].
  unfold number_id_re.
  constructor; [now apply matches_plus_class |].
  constructor; [constructor; reflexivity |].
  rewrite <- Hlen. now apply matches_repeat_class.
Qed.

(** ** Hexadecimal text and the fragment of an identifier *)

Import Text.

Lemma forallb_app_s p a b :
  Text.forallb p (a +:+ b) = Text.forallb p a && Text.forallb p b.
Proof. induction a as [|c a IH]; simpl; [reflexivity | now rewrite IH, andb_assoc]. Qed.

Lemma hex_digit_lower n : (n < 16)%N -> is_hex_lower (hex_digit n) = true.
Proof.
  intros Hn.
  assert (Hcases : In n (List.map N.of_nat (seq 0 16))).
  { apply in_map_iff. exists (N.to_nat n). split; [lia |]. apply in_seq. lia. }
  simpl in Hcases. repeat (destruct Hcases as [<- | Hcases]; [reflexivity |]).
  contradiction.
Qed.

Lemma hex_length width : forall n, String.length (hex width n) = width.
Proof.
  induction width as [|w IH]; intros n; simpl; [reflexivity |].
  rewrite length_app_s, IH. simpl. lia.
Qed.

Lemma hex_lower_digits width : forall n, Text.forallb is_hex_lower (hex width n) = true.
Proof.
  induction width as [|w IH]; intros n; simpl; [reflexivity |].
  rewrite forallb_app_s, IH. simpl.
  rewrite hex_digit_lower; [reflexivity |]. apply N.mod_upper_bound. discriminate.
Qed.

Lemma take_length n : forall s, n <= String.length s -> String.length (take n s) = n.
Proof.
  induction n as [|n IH]; intros [|c s]; simpl; intros Hn; try lia.
  rewrite IH; lia.
Qed.

Lemma take_forallb p n : forall s, Text.forallb p s = true -> Text.forallb p (take n s) = true.
Proof.
  induction n as [|n IH]; intros [|c s]; simpl; intros Hs; try reflexivity.
  apply andb_true_iff in Hs as [-> Hs]. now apply IH.
Qed.

Lemma take_app_take n a b :
  String.length a = n -> take n (a +:+ b) = a.
Proof.
  revert a. induction n as [|n IH]; intros [|c a]; simpl; intros Ha; try lia.
  - now destruct b.
  - rewrite IH; [reflexivity | lia].
Qed.

(** The first eight characters of the text of a UUID are the first eight
    hexadecimal digits of its number. *)
Lemma take_uuid_str int : take 8 (Uuid.str int) = take 8 (hex 32 int).
Proof.
  unfold Uuid.str. apply take_app_take. apply take_length.
  rewrite hex_length. lia.
Qed.

Section Fragment.
Context `{Platform}.

Lemma fragment_length w : String.length (fragment w) = 8.
Proof.
  unfold fragment. rewrite take_uuid_str. apply take_length.
  rewrite hex_length. lia.
Qed.

Lemma fragment_hex w : Text.forallb is_hex_lower (fragment w) = true.
Proof.
  unfold fragment. rewrite take_uuid_str. apply take_forallb, hex_lower_digits.
Qed.

End Fragment.

Lemma lower_alnum_char c : is_alnum c = true -> lower_alnum (lower_char c) = true.
Proof. destruct c as [[] [] [] [] [] [] [] []]; intros Hc; try discriminate; reflexivity. Qed.

Lemma lower_alnum_word word :
  Text.forallb is_alnum word = true -> Text.forallb lower_alnum (lower word) = true.
Proof.
  unfold lower. induction word as [|c s IH]; simpl; [reflexivity |]. intros Hs.
  apply andb_true_iff in Hs as [Hc Hs]. now rewrite lower_alnum_char, IH.
Qed.

Lemma lower_nonempty word : word <> "" -> lower word <> "".
Proof. destruct word; [congruence | discriminate]. Qed.

(** ** Running the programs *)

Import Text Regex.

(** Unfolds the sequencing of the state monad and of [outcome]. *)
Ltac run :=
  repeat progress
    unfold mbind, M_bind, outcome_bind, mret, M_ret, outcome_ret, lift, raise,
      sys_exit, try_except, environ_get, environ_get_default, path_exists, read_file,
      write_file, input, post, uuid4, image_open_path, image_save_path in *.

Section Identifiers.
Context `{Platform}.

Lemma admin_generate_card_id word card_type w :
  AdminServer.generate_card_id word card_type w
  = (Return ((if String.eqb card_type "face" then "face-" else "")
             +:+ lower word +:+ "-" +:+ fragment w), drew w).
Proof. reflexivity. Qed.

Lemma number_generate_card_id word w :
  ProcessNumberCard.generate_card_id word w
  = (Return (lower word +:+ "-" +:+ fragment w), drew w).
Proof. reflexivity. Qed.

Lemma face_generate_card_id word w :
  ProcessFaceCard.generate_card_id word w
  = (Return ("face-" +:+ lower word +:+ "-" +:+ fragment w), drew w).
Proof. reflexivity. Qed.

(** C1, as amended.  [generate_card_id] returns the prefix [face-] exactly
    for the type [face], then the lower-cased word, a hyphen and the first
    eight characters of the text of a freshly drawn UUID, which are eight
    hexadecimal digits.  When the word is not empty and is made of ASCII letters
    and digits only, the identifier of a number card matches
    [[a-z0-9]+-[0-9a-f]{8}] and the identifier of a face card matches the same
    after [face-]. *)
Theorem generate_card_id_format (word : string) (w : world) :
  (forall card_type,
     AdminServer.generate_card_id word card_type w
     = (Return ((if String.eqb card_type "face" then "face-" else "")
                +:+ lower word +:+ "-" +:+ fragment w), drew w))
  /\ ProcessNumberCard.generate_card_id word w
     = (Return (lower word +:+ "-" +:+ fragment w), drew w)
  /\ ProcessFaceCard.generate_card_id word w
     = (Return ("face-" +:+ lower word +:+ "-" +:+ fragment w), drew w)
  /\ String.length (fragment w) = 8
  /\ Text.forallb is_hex_lower (fragment w) = true
  /\ (word <> "" -> Text.forallb is_alnum word = true ->
      fullmatch number_id_re (lower word +:+ "-" +:+ fragment w) = true
      /\ fullmatch face_id_re ("face-" +:+ lower word +:+ "-" +:+ fragment w) = true).
Proof.
  split; [intros card_type; apply admin_generate_card_id |].
  split; [apply number_generate_card_id |].
  split; [apply face_generate_card_id |].
  split; [apply fragment_length |].
  split; [apply fragment_hex |].
  intros Hne Hword. split.
  - apply number_id_matches;
      auto using lower_nonempty, lower_alnum_word, fragment_length, fragment_hex.
  - apply face_id_matches;
      auto using lower_nonempty, lower_alnum_word, fragment_length, fragment_hex.
Qed.

End Identifiers.

Lemma generate_card_id_format_witness :
  "Dog" <> "" /\ Text.forallb is_alnum "Dog" = true
  /\ fullmatch number_id_re
       (lower "Dog" +:+ "-" +:+ @fragment offline (demo_world ∅ [])) = true
  /\ fullmatch face_id_re
       ("face-" +:+ lower "Dog" +:+ "-" +:+ @fragment offline (demo_world ∅ [])) = true.
Proof.
  split; [discriminate |]. split; [reflexivity |].
  apply (@generate_card_id_format offline "Dog" (demo_world ∅ [])).
  - discriminate.
  - reflexivity.
Defined.

(** C1 as stated fails: the identifier of a number card generated for the
    empty word is a hyphen and the fragment, and the identifier of a face card
    generated for a word with a space keeps the space; neither matches its
    pattern. *)
Lemma generate_card_id_unmatched :
  @ProcessNumberCard.generate_card_id offline "" (demo_world ∅ [])
  = (Return "-00000000", drew (demo_world ∅ []))
  /\ fullmatch number_id_re "-00000000" = false
  /\ @AdminServer.generate_card_id offline "MY DOG" "face" (demo_world ∅ [])
     = (Return "face-my dog-00000000", drew (demo_world ∅ []))
  /\ fullmatch face_id_re "face-my dog-00000000" = false.
Proof. repeat split; vm_compute; reflexivity. Qed.

(** ** The catalog file *)

Lemma well_formed_catalog cards : Json.well_formed (catalog_json cards) = true.
Proof.
  unfold catalog_json. cbn [Json.well_formed List.map fst Json.distinct existsb negb andb
                             List.forallb snd].
  rewrite andb_true_r. induction cards as [|c cards IH]; [reflexivity |].
  cbn [List.map List.forallb]. rewrite IH. reflexivity.
Qed.

Section Catalog.
Context `{Platform}.

(** The three programs keep the catalog in the same file and read and write
    it with the same code. *)
Lemma face_load_cards : ProcessFaceCard.load_cards = AdminServer.load_cards.
Proof. reflexivity. Qed.

Lemma number_load_cards : ProcessNumberCard.load_cards = AdminServer.load_cards.
Proof. reflexivity. Qed.

Lemma face_save_cards : ProcessFaceCard.save_cards = AdminServer.save_cards.
Proof. reflexivity. Qed.

Lemma number_save_cards : ProcessNumberCard.save_cards = AdminServer.save_cards.
Proof. reflexivity. Qed.

Lemma save_cards_writes data w :
  AdminServer.save_cards data w
  = (Return tt, writing AdminServer.DATA_FILE (Json.dumps data) w).
Proof. reflexivity. Qed.

(** Reading back what [save_cards] wrote, for any value a [dict] can hold. *)
Lemma load_cards_after_save data w :
  Json.well_formed data = true ->
  AdminServer.load_cards (writing AdminServer.DATA_FILE (Json.dumps data) w)
  = (Return data, writing AdminServer.DATA_FILE (Json.dumps data) w).
Proof.
  intros Hwf. unfold AdminServer.load_cards, writing. run. cbn [files].
  rewrite lookup_insert_eq. rewrite bool_decide_eq_true_2 by eauto.
  cbn [files]. rewrite lookup_insert_eq. now rewrite loads_dumps.
Qed.

(** C8.  Saving a catalog of any number of card records with [save_cards] and
    reading it back with [load_cards] returns the same catalog: the same
    records, in the same order, with the same fields.  This holds for the
    admin server and for both scripts. *)
Theorem catalog_round_trip (cards : list card) (w : world) :
  let saved := writing AdminServer.DATA_FILE (Json.dumps (catalog_json cards)) w in
  AdminServer.save_cards (catalog_json cards) w = (Return tt, saved)
  /\ AdminServer.load_cards saved = (Return (catalog_json cards), saved)
  /\ ProcessFaceCard.save_cards (catalog_json cards) w = (Return tt, saved)
  /\ ProcessFaceCard.load_cards saved = (Return (catalog_json cards), saved)
  /\ ProcessNumberCard.save_cards (catalog_json cards) w = (Return tt, saved)
  /\ ProcessNumberCard.load_cards saved = (Return (catalog_json cards), saved).
Proof.
  intros saved. rewrite face_load_cards, number_load_cards.
  pose proof (load_cards_after_save (catalog_json cards) w (well_formed_catalog cards)).
  repeat split; assumption || reflexivity.
Qed.

End Catalog.

(** ** The cloud publisher *)

Section Publisher.
Context `{Platform}.

Lemma truthy_opt_false_iff v :
  Py.truthy_opt v = false <-> v = None \/ v = Some "".
Proof.
  destruct v as [s|]; simpl; [| tauto].
  rewrite negb_false_iff, String.eqb_eq. split; [intros ->; auto |].
  intros [Hn | Hs]; congruence.
Qed.

Lemma truthy_opt_some s : s <> "" -> Py.truthy_opt (Some s) = true.
Proof. intros Hs. simpl. apply negb_true_iff, String.eqb_neq, Hs. Qed.

(** C4.  When the account identifier or the API credential is absent from
    the environment, each of the three publishers fails with the
    configuration error and leaves the state as it was: in particular the
    list of requests sent is unchanged, no request went out. *)
Theorem missing_configuration (w : world) :
  env w !! "CLOUDFLARE_ACCOUNT_ID" = None \/ env w !! "CLOUDFLARE_API_TOKEN" = None ->
  (forall image_bytes filename,
     AdminServer.upload_to_cloudflare image_bytes filename w
     = (Raise MissingConfiguration, w))
  /\ (forall image_path filename,
        ProcessFaceCard.upload_to_cloudflare image_path filename w
        = (Raise MissingConfiguration, w))
  /\ (forall img filename,
        ProcessNumberCard.upload_to_cloudflare img filename w
        = (Raise MissingConfiguration, w)).
Proof.
  intros Habsent.
  assert (Hgate : negb (Py.truthy_opt (env w !! "CLOUDFLARE_ACCOUNT_ID"))
                  || negb (Py.truthy_opt (env w !! "CLOUDFLARE_API_TOKEN")) = true).
  { destruct Habsent as [-> | ->]; simpl; [reflexivity | apply orb_true_r]. }
  repeat split; intros;
    unfold AdminServer.upload_to_cloudflare, ProcessFaceCard.upload_to_cloudflare,
      ProcessNumberCard.upload_to_cloudflare; run; rewrite Hgate; reflexivity.
Qed.

(** What every publisher does up to the answer of the service, once the
    configuration is there: the gate is passed. *)
Lemma gate_passed w account_id api_token :
  configured w account_id api_token ->
  negb (Py.truthy_opt (env w !! "CLOUDFLARE_ACCOUNT_ID"))
  || negb (Py.truthy_opt (env w !! "CLOUDFLARE_API_TOKEN")) = false.
Proof.
  intros (-> & Ha & -> & Ht). now rewrite !truthy_opt_some.
Qed.

(** The part of a publisher after the status check, on a successful
    response: [result["result"]] is read. *)
Lemma successful_body r result :
  successful_upload r result ->
  negb (status_code r =? 200)%Z = false
  /\ exists members success,
       json_body r = Some (JObj members)
       /\ Py.get (JObj members) "success" = Return success
       /\ Py.truthy success = true
       /\ Py.getitem (JObj members) "result" = Return (JObj result).
Proof.
  intros (Hstatus & members & success & Hbody & Hs & Ht & Hr).
  split; [rewrite Hstatus; reflexivity |].
  exists members, success. repeat split; try assumption.
  - simpl. now rewrite Hs.
  - simpl. now rewrite Hr.
Qed.

(** The publisher of the admin server on a successful upload response: the
    request goes out, and the answer depends on the [id] of the result. *)
Lemma admin_upload_result (w : world) (image_bytes filename account_id api_token : string)
    (r : response) (result : list (string * json)) :
  configured w account_id api_token ->
  requests_post (sent w) (upload_request account_id api_token filename image_bytes)
  = Return r ->
  successful_upload r result ->
  AdminServer.upload_to_cloudflare image_bytes filename w
  = (match Py.dict_get "id" result with
     | Some image_id =>
         Return (JStr ("https://imagedelivery.net/"
                       +:+ default "3oZsG34qPq3SIXQhl47vqA"
                                   (env w !! "CLOUDFLARE_DELIVERY_HASH")
                       +:+ "/" +:+ Py.str image_id +:+ "/medium"))
     | None => Raise (Exn "KeyError" (repr (JStr "id")))
     end,
     sending (upload_request account_id api_token filename image_bytes) w).
Proof.
  intros Hconf Hpost Hok.
  pose proof (gate_passed _ _ _ Hconf) as Hgate.
  destruct (successful_body _ _ Hok) as (Hstatus & members & success & Hbody & Hs & Ht & Hr).
  destruct Hconf as (Ha & _ & Hk & _).
  unfold AdminServer.upload_to_cloudflare. run. rewrite Hgate.
  rewrite Ha, Hk. cbn [default from_option id]. unfold upload_request in Hpost.
  rewrite Hpost, Hstatus, Hbody, Hs, Ht. cbn [negb].
  rewrite Hr. cbn [Py.getitem].
  destruct (Py.dict_get "id" result); reflexivity.
Qed.

(** C7.  On a successful upload response the publisher of the admin server
    returns [https://imagedelivery.net/<delivery-hash>/<image-id>/medium],
    where the delivery hash is the environment variable
    [CLOUDFLARE_DELIVERY_HASH], or [3oZsG34qPq3SIXQhl47vqA] when it is not
    set; whatever [variants] the response carries plays no part. *)
Theorem variant_a_url (w : world) (image_bytes filename account_id api_token : string)
    (r : response) (result : list (string * json)) (image_id : json) :
  configured w account_id api_token ->
  requests_post (sent w) (upload_request account_id api_token filename image_bytes)
  = Return r ->
  successful_upload r result ->
  Py.dict_get "id" result = Some image_id ->
  AdminServer.upload_to_cloudflare image_bytes filename w
  = (Return (JStr ("https://imagedelivery.net/"
                   +:+ default "3oZsG34qPq3SIXQhl47vqA"
                               (env w !! "CLOUDFLARE_DELIVERY_HASH")
                   +:+ "/" +:+ Py.str image_id +:+ "/medium")),
     sending (upload_request account_id api_token filename image_bytes) w).
Proof.
  intros Hconf Hpost Hok Hid.
  rewrite (admin_upload_result w image_bytes filename account_id api_token r result)
    by assumption.
  now rewrite Hid.
Qed.

(** C2.  On a successful upload response both scripts return the first entry
    of the [variants] list of the response when that list is not empty, and
    [https://imagedelivery.net/<account_id>/<image_id>/public] when it is
    empty: the account identifier stands where a delivery hash would, and the
    variant name is [public]. *)
Theorem variant_b_url (w : world) (filename account_id api_token : string)
    (r : response) (result : list (string * json)) (image_id : json)
    (variants : list json) :
  configured w account_id api_token ->
  successful_upload r result ->
  Py.dict_get "id" result = Some image_id ->
  Py.dict_get "variants" result = Some (JArr variants) ->
  let url :=
    match variants with
    | first :: _ => first
    | [] => JStr ("https://imagedelivery.net/" +:+ account_id +:+ "/"
                  +:+ Py.str image_id +:+ "/public")
    end in
  (forall image_path file,
     files w !! image_path = Some file ->
     requests_post (sent w) (upload_request account_id api_token filename file)
     = Return r ->
     ProcessFaceCard.upload_to_cloudflare image_path filename w
     = (Return url, sending (upload_request account_id api_token filename file) w))
  /\ (forall img png,
        image_save_png img = Return png ->
        requests_post (sent w) (upload_request account_id api_token filename png)
        = Return r ->
        ProcessNumberCard.upload_to_cloudflare img filename w
        = (Return url, sending (upload_request account_id api_token filename png) w)).
Proof.
  intros Hconf Hok Hid Hvariants url.
  pose proof (gate_passed _ _ _ Hconf) as Hgate.
  destruct (successful_body _ _ Hok) as (Hstatus & members & success & Hbody & Hs & Ht & Hr).
  destruct Hconf as (Ha & _ & Hk & _).
  split.
  - intros image_path file Hfile Hpost.
    unfold ProcessFaceCard.upload_to_cloudflare. run. rewrite Hgate.
    rewrite Ha, Hk, Hfile. cbn [default from_option id]. unfold upload_request in Hpost.
    rewrite Hpost, Hstatus, Hbody, Hs, Ht. cbn [negb].
    rewrite Hr. cbn [Py.getitem]. rewrite Hid, Hvariants.
    subst url. destruct variants; reflexivity.
  - intros img png Hpng Hpost.
    unfold ProcessNumberCard.upload_to_cloudflare. run. rewrite Hgate.
    rewrite Ha, Hk, Hpng. cbn [default from_option id]. unfold upload_request in Hpost.
    rewrite Hpost, Hstatus, Hbody, Hs, Ht. cbn [negb].
    rewrite Hr. cbn [Py.getitem]. rewrite Hid, Hvariants.
    subst url. destruct variants; reflexivity.
Qed.

End Publisher.

(** The examples: a service that answers with one variant, and one that
    answers with none. *)

Lemma demo_configured fs lines : configured (demo_world fs lines) "acct" "token".
Proof. repeat split; try reflexivity; discriminate. Defined.

Lemma demo_successful image_id variants :
  successful_upload (upload_answer image_id variants)
    [("id", JStr image_id); ("variants", JArr variants)].
Proof.
  split; [reflexivity |]. eexists _, (JBool true). repeat split; reflexivity.
Defined.

Lemma missing_configuration_witness :
  env (World ∅ ∅ [] [] 0) !! "CLOUDFLARE_ACCOUNT_ID" = None
  /\ @AdminServer.upload_to_cloudflare offline "bytes" "dog-12345678.png" (World ∅ ∅ [] [] 0)
     = (Raise MissingConfiguration, World ∅ ∅ [] [] 0).
Proof.
  split; [reflexivity |].
  apply (@missing_configuration offline (World ∅ ∅ [] [] 0)).
  left. reflexivity.
Defined.

Lemma variant_a_url_witness :
  @AdminServer.upload_to_cloudflare
    (demo_platform (Return (upload_answer "abc" [JStr "https://img.example/abc/public"])) 0)
    "bytes" "dog-12345678.png" (demo_world ∅ [])
  = (Return (JStr "https://imagedelivery.net/3oZsG34qPq3SIXQhl47vqA/abc/medium"),
     sending (upload_request "acct" "token" "dog-12345678.png" "bytes") (demo_world ∅ [])).
Proof.
  apply (@variant_a_url
           (demo_platform (Return (upload_answer "abc" [JStr "https://img.example/abc/public"])) 0)
           (demo_world ∅ []) "bytes" "dog-12345678.png" "acct" "token"
           (upload_answer "abc" [JStr "https://img.example/abc/public"])
           [("id", JStr "abc"); ("variants", JArr [JStr "https://img.example/abc/public"])]
           (JStr "abc")).
  - apply demo_configured.
  - reflexivity.
  - apply demo_successful.
  - reflexivity.
Defined.

Lemma variant_b_url_witness :
  @ProcessFaceCard.upload_to_cloudflare
    (demo_platform (Return (upload_answer "abc" [JStr "https://img.example/abc/public"])) 0)
    "queen.png" "face-stella-12345678.png" (demo_world (<["queen.png" := "bytes"]> ∅) [])
  = (Return (JStr "https://img.example/abc/public"),
     sending (upload_request "acct" "token" "face-stella-12345678.png" "bytes")
       (demo_world (<["queen.png" := "bytes"]> ∅) []))
  /\ @ProcessNumberCard.upload_to_cloudflare
       (demo_platform (Return (upload_answer "abc" [])) 0)
       tt "dog-12345678.png" (demo_world ∅ [])
     = (Return (JStr "https://imagedelivery.net/acct/abc/public"),
        sending (upload_request "acct" "token" "dog-12345678.png" "PNG") (demo_world ∅ [])).
Proof.
  split.
  - apply (@variant_b_url
             (demo_platform (Return (upload_answer "abc" [JStr "https://img.example/abc/public"])) 0)
             (demo_world (<["queen.png" := "bytes"]> ∅) []) "face-stella-12345678.png"
             "acct" "token"
             (upload_answer "abc" [JStr "https://img.example/abc/public"])
             [("id", JStr "abc"); ("variants", JArr [JStr "https://img.example/abc/public"])]
             (JStr "abc") [JStr "https://img.example/abc/public"]
             (demo_configured _ _) (demo_successful _ _) eq_refl eq_refl).
    + reflexivity.
    + reflexivity.
  - apply (@variant_b_url
             (demo_platform (Return (upload_answer "abc" [])) 0)
             (demo_world ∅ []) "dog-12345678.png" "acct" "token"
             (upload_answer "abc" [])
             [("id", JStr "abc"); ("variants", JArr [])]
             (JStr "abc") []
             (demo_configured _ _) (demo_successful _ _) eq_refl eq_refl).
    + reflexivity.
    + reflexivity.
Defined.

(** ** The delete endpoint *)

Section Delete.
Context `{Platform}.

Lemma without_id_cards id cards :
  AdminServer.without_id id (List.map card_json cards)
  = Return (List.map card_json (remaining id cards)).
Proof.
  induction cards as [|c cards IH]; [reflexivity |].
  cbn [List.map AdminServer.without_id remaining List.filter].
  unfold mbind, outcome_bind. cbn [card_json Py.getitem Py.dict_get String.eqb Ascii.eqb Bool.eqb].
  rewrite IH. cbn [Py.is_str]. fold (remaining id cards).
  destruct (String.eqb (card_id c) id); reflexivity.
Qed.

Lemma remaining_length id cards : length (remaining id cards) <= length cards.
Proof.
  induction cards as [|c cards IH]; simpl; [lia |].
  destruct (String.eqb (card_id c) id); simpl; lia.
Qed.

Lemma remaining_all id cards :
  listed id cards = false -> remaining id cards = cards.
Proof.
  induction cards as [|c cards IH]; simpl; [reflexivity |]. intros Hl.
  apply orb_false_iff in Hl as [-> Hl]. simpl. now rewrite IH.
Qed.

Lemma remaining_fewer id cards :
  listed id cards = true -> length (remaining id cards) < length cards.
Proof.
  induction cards as [|c cards IH]; simpl; [discriminate |]. intros Hl.
  pose proof (remaining_length id cards) as Hle.
  destruct (String.eqb (card_id c) id); simpl in *; [lia |].
  specialize (IH Hl). lia.
Qed.

Lemma remaining_unlisted id cards : listed id (remaining id cards) = false.
Proof.
  induction cards as [|c cards IH]; simpl; [reflexivity |].
  destruct (String.eqb (card_id c) id) eqn:E; simpl; [exact IH |].
  now rewrite E.
Qed.

Lemma remaining_In id cards c :
  In c (remaining id cards) <-> In c cards /\ card_id c <> id.
Proof.
  unfold remaining. rewrite filter_In, negb_true_iff, String.eqb_neq. tauto.
Qed.

(** C3.  With the catalog [cards] on disk: when a record has the given
    identifier, [DELETE /api/delete-card/<id>] removes every record with that
    identifier and no other, writes the reduced catalog to the catalog file
    (from which it is read back), and answers success with [totalCards] equal
    to the new length; when no record has it, the answer is 404 and nothing
    is written: the state, catalog included, is as before. *)
Theorem delete_card_semantics (cards : list card) (id : string) (w : world) :
  AdminServer.load_cards w = (Return (catalog_json cards), w) ->
  (listed id cards = true ->
   let kept := remaining id cards in
   let w' := writing AdminServer.DATA_FILE (Json.dumps (catalog_json kept)) w in
   AdminServer.delete_card id w
   = (Return (jsonify [("success", JBool true);
                       ("totalCards", JInt (Z.of_nat (length kept)))] 200), w')
   /\ AdminServer.load_cards w' = (Return (catalog_json kept), w')
   /\ length kept < length cards
   /\ (forall c, In c kept <-> In c cards /\ card_id c <> id))
  /\ (listed id cards = false ->
      AdminServer.delete_card id w
      = (Return (jsonify (error_body "Card not found") 404), w)).
Proof.
  intros Hload.
  assert (Hrun : AdminServer.delete_card id w
    = if (Z.of_nat (length (remaining id cards)) =? Z.of_nat (length cards))%Z
      then (Return (jsonify (error_body "Card not found") 404), w)
      else (Return (jsonify [("success", JBool true);
                             ("totalCards", JInt (Z.of_nat (length (remaining id cards))))]
                            200),
            writing AdminServer.DATA_FILE
              (Json.dumps (catalog_json (remaining id cards))) w)).
  { unfold AdminServer.delete_card. unfold mbind at 1, M_bind at 1. rewrite Hload.
    run. cbn [catalog_json Py.getitem Py.dict_get String.eqb Ascii.eqb Bool.eqb
                Py.len Py.iter Py.setitem Json.dict_set].
    rewrite without_id_cards. cbn [Py.getitem Py.dict_get String.eqb Ascii.eqb Bool.eqb Py.len].
    rewrite !length_map.
    destruct (Z.of_nat (length (remaining id cards)) =? Z.of_nat (length cards))%Z;
      reflexivity. }
  split.
  - intros Hlisted kept w'. pose proof (remaining_fewer id cards Hlisted) as Hlt.
    rewrite Hrun. destruct (Z.eqb_spec (Z.of_nat (length (remaining id cards)))
                                       (Z.of_nat (length cards))) as [Heq | _]; [lia |].
    split; [reflexivity |].
    split; [apply load_cards_after_save, well_formed_catalog |].
    split; [exact Hlt |].
    intros c. apply remaining_In.
  - intros Hunlisted. rewrite Hrun, remaining_all by exact Hunlisted.
    now rewrite Z.eqb_refl.
Qed.

End Delete.

Lemma delete_card_semantics_witness :
  let w := demo_world (catalog_on_disk three_cards) [] in
  @AdminServer.load_cards offline w = (Return (catalog_json three_cards), w)
  /\ listed "face-king-4e5f6a7b" three_cards = true
  /\ @AdminServer.delete_card offline "face-king-4e5f6a7b" w
     = (Return (jsonify [("success", JBool true); ("totalCards", JInt 2)] 200),
        writing (@AdminServer.DATA_FILE offline)
          (Json.dumps (catalog_json (remaining "face-king-4e5f6a7b" three_cards))) w)
  /\ listed "bird-00000000" three_cards = false
  /\ @AdminServer.delete_card offline "bird-00000000" w
     = (Return (jsonify (error_body "Card not found") 404), w).
Proof.
  intros w.
  assert (Hload : @AdminServer.load_cards offline w = (Return (catalog_json three_cards), w))
    by (vm_compute; reflexivity).
  split; [exact Hload |].
  split; [reflexivity |].
  split; [apply (@delete_card_semantics offline three_cards "face-king-4e5f6a7b" w Hload);
          reflexivity |].
  split; [reflexivity |].
  apply (@delete_card_semantics offline three_cards "bird-00000000" w Hload). reflexivity.
Defined.

(** ** The process-number-card endpoint *)

Section ProcessNumberCardEndpoint.
Context `{Platform}.

Lemma contains_key_absent members field :
  Py.dict_get field members = None ->
  Py.contains_key (JObj members) field = Return false.
Proof.
  intros Hf. simpl. rewrite Hf. rewrite bool_decide_eq_false_2; [reflexivity |].
  intros [x Hx]. discriminate.
Qed.

Lemma contains_key_present members field :
  is_Some (Py.dict_get field members) ->
  Py.contains_key (JObj members) field = Return true.
Proof. intros Hf. simpl. now rewrite bool_decide_eq_true_2. Qed.

(** The loop over the required fields stops at the first one that is absent. *)
Lemma first_missing_absent members fields :
  (exists field, In field fields /\ Py.dict_get field members = None) ->
  exists before named after,
    fields = before ++ named :: after
    /\ Forall (fun f => is_Some (Py.dict_get f members)) before
    /\ Py.dict_get named members = None
    /\ AdminServer.first_missing fields (JObj members) = Return (Some named).
Proof.
  induction fields as [|f fields IH]; intros (field & Hin & Habsent); [destruct Hin |].
  destruct (Py.dict_get f members) as [v|] eqn:Hf.
  - destruct IH as (before & named & after & -> & Hbefore & Hnamed & Hrun).
    { destruct Hin as [-> | Hin]; [congruence | eauto]. }
    exists (f :: before), named, after. repeat split; try assumption.
    + constructor; [rewrite Hf; eauto | exact Hbefore].
    + cbn [AdminServer.first_missing]. rewrite contains_key_present by (rewrite Hf; eauto).
      exact Hrun.
  - exists [], f, fields. repeat split; try assumption; [constructor |].
    cbn [AdminServer.first_missing]. now rewrite contains_key_absent.
Qed.

Lemma first_missing_none members fields :
  Forall (fun f => is_Some (Py.dict_get f members)) fields ->
  AdminServer.first_missing fields (JObj members) = Return None.
Proof.
  induction 1 as [|f fields Hf _ IH]; [reflexivity |].
  cbn [AdminServer.first_missing]. now rewrite contains_key_present.
Qed.

(** C6.  When one of the six required fields is absent from the body of a
    process-number-card request, the answer is 400 with the error
    [Missing field: <name>], where [<name>] is a required field that is
    absent, the first such in the order of the check, hence the absent field
    itself when it is the only one; the state is left as it was, so neither
    the catalog file nor the processed directory is touched. *)
Theorem missing_field_rejected (members : list (string * json)) (field : string)
    (w : world) :
  In field AdminServer.required ->
  Py.dict_get field members = None ->
  exists before named after,
    AdminServer.required = before ++ named :: after
    /\ Forall (fun f => is_Some (Py.dict_get f members)) before
    /\ Py.dict_get named members = None
    /\ AdminServer.process_number_card (JObj members) w
       = (Return (jsonify (error_body ("Missing field: " +:+ named)) 400), w)
    /\ ((forall f, In f AdminServer.required -> f <> field ->
                   is_Some (Py.dict_get f members)) -> named = field).
Proof.
  intros Hin Habsent.
  destruct (first_missing_absent members AdminServer.required)
    as (before & named & after & Hsplit & Hbefore & Hnamed & Hrun); [eauto |].
  exists before, named, after. repeat split; try assumption.
  - unfold AdminServer.process_number_card. run. now rewrite Hrun.
  - intros Honly. destruct (String.eqb_spec named field) as [-> | Hne]; [reflexivity |].
    assert (Hn : In named AdminServer.required)
      by (rewrite Hsplit; apply in_or_app; right; left; reflexivity).
    destruct (Honly named Hn Hne) as [v Hv]. congruence.
Qed.

(** [int] never ends the process. *)
Lemma int_of_text_not_exit s n : Py.int_of_text s <> Exit n.
Proof.
  unfold Py.int_of_text.
  destruct (match Py.int_rstrip (Py.int_lstrip s) with
            | String "-" r => (true, r)
            | String "+" r => (false, r)
            | _ => (false, Py.int_rstrip (Py.int_lstrip s))
            end) as [negative body].
  destruct (Py.literal_run body) as [run rest].
  destruct (Py.digits_value 0 false run); [| discriminate].
  destruct (_ && _); [discriminate |].
  destruct rest; discriminate.
Qed.

Lemma int_not_exit v n : Py.int v <> Exit n.
Proof.
  destruct v as [ | [] | z | s | l | l ]; simpl; try discriminate.
  apply int_of_text_not_exit.
Qed.

Lemma upper_of_not_exit v n : Py.upper_of v <> Exit n.
Proof. destruct v; discriminate. Qed.

(** C9, as amended.  When the six required fields are present, the named
    temporary file is there, and the value of some crop field cannot be
    converted by [int], the handler ends with an exception that nothing
    catches: no JSON error body is returned, and the state, catalog included,
    is as it was. *)
Theorem unconvertible_crop_field_raises (members : list (string * json))
    (field : string) (value : json) (e : exn) (w : world) :
  Forall (fun f => is_Some (Py.dict_get f members)) AdminServer.required ->
  (forall name, Py.dict_get "filename" members = Some (JStr name) ->
                is_Some (files w !! path_join AdminServer.UPLOADS_DIR name)) ->
  In field crop_fields ->
  Py.dict_get field members = Some value ->
  Py.int value = Raise e ->
  exists e', AdminServer.process_number_card (JObj members) w = (Raise e', w).
Proof.
  intros Hall Hfile Hfield Hvalue Hint.
  pose proof (first_missing_none _ _ Hall) as Hnone.
  unfold AdminServer.required in Hall.
  apply Forall_cons_1 in Hall as [[vname Hname] Hall].
  apply Forall_cons_1 in Hall as [[vword Hword] Hall].
  apply Forall_cons_1 in Hall as [[vx Hx] Hall].
  apply Forall_cons_1 in Hall as [[vy Hy] Hall].
  apply Forall_cons_1 in Hall as [[vw Hw] Hall].
  apply Forall_cons_1 in Hall as [[vh Hh] _].
  unfold AdminServer.process_number_card. run. rewrite Hnone.
  cbn [Py.getitem]. rewrite Hname.
  destruct vname as [ | b | z | name | l | l ];
    try (cbn [AdminServer.uploads_path]; eauto; fail).
  cbn [AdminServer.uploads_path]. rewrite bool_decide_eq_true_2 by eauto.
  cbn [negb]. rewrite Hword.
  destruct (Py.upper_of vword) as [word | e0 | n] eqn:Hupper;
    [| eauto | exfalso; eapply upper_of_not_exit; eauto].
  rewrite Hx, Hy, Hw, Hh.
  assert (Hbad : Py.int vx = Raise e \/ Py.int vy = Raise e
                 \/ Py.int vw = Raise e \/ Py.int vh = Raise e).
  { unfold crop_fields in Hfield. simpl in Hfield.
    destruct Hfield as [<- | [<- | [<- | [<- | []]]]]; rewrite Hvalue in *;
      match goal with Heq : Some _ = Some _ |- _ => injection Heq as <- end; auto. }
  destruct (Py.int vx) as [cx | ex | n] eqn:Hix;
    [| eauto | exfalso; eapply int_not_exit; eauto].
  destruct (Py.int vy) as [cy | ey | n] eqn:Hiy;
    [| eauto | exfalso; eapply int_not_exit; eauto].
  destruct (Py.int vw) as [cw | ew | n] eqn:Hiw;
    [| eauto | exfalso; eapply int_not_exit; eauto].
  destruct (Py.int vh) as [ch | eh | n] eqn:Hih;
    [| eauto | exfalso; eapply int_not_exit; eauto].
  destruct Hbad as [Hb | [Hb | [Hb | Hb]]]; discriminate.
Qed.

End ProcessNumberCardEndpoint.

(** The examples: a request without [cropY], and a request whose [cropX] is
    the text [abc], with and without its temporary upload. *)

Lemma missing_field_rejected_witness :
  let members := [("filename", JStr "temp_0a1b2c3d.png"); ("word", JStr "dog");
                  ("cropX", JInt 100); ("cropWidth", JInt 250);
                  ("cropHeight", JInt 350)] in
  let w := demo_world (catalog_on_disk three_cards) [] in
  In "cropY" (@AdminServer.required)
  /\ Py.dict_get "cropY" members = None
  /\ @AdminServer.process_number_card offline (JObj members) w
     = (Return (jsonify (error_body "Missing field: cropY") 400), w).
Proof.
  intros members w.
  assert (Hin : In "cropY" (@AdminServer.required)) by (simpl; tauto).
  split; [exact Hin |]. split; [reflexivity |].
  destruct (@missing_field_rejected offline members "cropY" w Hin eq_refl)
    as (before & named & after & _ & _ & _ & Hrun & Honly).
  rewrite Hrun, Honly; [reflexivity |].
  intros f Hf Hne. simpl in Hf.
  destruct Hf as [<- | [<- | [<- | [<- | [<- | [<- | []]]]]]];
    solve [eexists; reflexivity | congruence].
Defined.

Lemma unconvertible_crop_field_raises_witness :
  let w := demo_world (<["/srv/cards/uploads/temp_0a1b2c3d.png" := "bytes"]> ∅) [] in
  exists e', @AdminServer.process_number_card offline (JObj bad_crop_request) w
             = (Raise e', w).
Proof.
  intros w.
  apply (@unconvertible_crop_field_raises offline bad_crop_request "cropX" (JStr "abc")
           (Exn "ValueError" "invalid literal for int() with base 10: <repr>") w).
  - repeat constructor; eexists; reflexivity.
  - intros name Hname. injection Hname as <-. eexists. reflexivity.
  - simpl. tauto.
  - reflexivity.
  - reflexivity.
Defined.

(** C9 as stated fails: with the six fields present and [cropX] not
    convertible, but no temporary upload of the given name, the handler
    returns the JSON error body [Image not found] with status 404 and raises
    nothing. *)
Lemma unconvertible_crop_field_not_found :
  Forall (fun f => is_Some (Py.dict_get f bad_crop_request)) (@AdminServer.required)
  /\ @Py.int offline (JStr "abc")
     = Raise (Exn "ValueError" "invalid literal for int() with base 10: <repr>")
  /\ @AdminServer.process_number_card offline (JObj bad_crop_request) (demo_world ∅ [])
     = (Return (jsonify (error_body "Image not found") 404), demo_world ∅ []).
Proof.
  split; [repeat constructor; eexists; reflexivity |].
  split; reflexivity.
Qed.

(** ** The two scripts: declining the confirmation *)

Import Text.

Lemma last_char_app a b : b <> "" -> last_char (a +:+ b) = last_char b.
Proof.
  intros Hb. induction a as [|c a IH]; [reflexivity |].
  cbn [String.append]. cbn [last_char]. rewrite IH.
  destruct (a +:+ b) eqn:E; [| reflexivity].
  apply app_empty_s in E as [_ ->]. congruence.
Qed.

Lemma last_char_path_join directory name :
  name <> "" -> last_char (path_join directory name) = last_char name.
Proof.
  intros Hn. unfold path_join.
  destruct name as [|c name]; [congruence |].
  destruct (Ascii.eqb_spec c "/") as [-> | Hc].
  - reflexivity.
  - assert (Hj : match String c name with
                 | String "/" _ => String c name
                 | _ => directory +:+ "/" +:+ String c name
                 end = directory +:+ "/" +:+ String c name).
    { destruct c as [[] [] [] [] [] [] [] []]; try reflexivity. congruence. }
    rewrite Hj. rewrite last_char_app by discriminate.
    rewrite (last_char_app "/") by discriminate. reflexivity.
Qed.

Lemma cons_not_tail {A} (x : A) (l : list A) : x :: l <> l.
Proof.
  intros Heq. apply (f_equal (@length A)) in Heq. simpl in Heq. lia.
Qed.

Section Cancellation.
Context `{Platform}.

(** The preview of a word is not the catalog file. *)
Lemma preview_is_not_catalog word :
  path_join ProcessNumberCard.PROCESSED_DIR (lower word +:+ "_preview.png")
  <> ProcessNumberCard.DATA_FILE.
Proof.
  intros Heq. apply (f_equal last_char) in Heq.
  unfold ProcessNumberCard.DATA_FILE in Heq.
  rewrite !last_char_path_join in Heq;
    try discriminate; try (destruct (lower word); discriminate).
  rewrite last_char_app in Heq by discriminate. discriminate.
Qed.

Lemma untouched_same w answer rest (o : outcome unit) :
  stdin w = answer :: rest -> untouched w rest (o, w).
Proof.
  intros Hin. repeat split. cbn [snd fst]. rewrite Hin. intros Heq.
  now apply cons_not_tail in Heq.
Qed.

Lemma face_main_declined argv w answer rest :
  stdin w = answer :: rest -> lower (strip answer) <> "yes" ->
  untouched w rest (ProcessFaceCard.main argv w).
Proof.
  intros Hin Hno. apply String.eqb_neq in Hno.
  unfold ProcessFaceCard.main.
  destruct (length argv <? 3)%nat; [now apply (untouched_same w answer) |].
  run.
  destruct (files w !! nth 1 argv "") as [content|] eqn:Hfile.
  2:{ rewrite bool_decide_eq_false_2 by (intros [? ?]; discriminate).
      now apply (untouched_same w answer). }
  rewrite bool_decide_eq_true_2 by eauto. cbn [negb]. rewrite Hfile.
  destruct (Image_open content) as [img | e | n];
    try (now apply (untouched_same w answer)).
  rewrite Hin, Hno. cbn [negb]. repeat split.
Qed.

Lemma number_main_declined argv w answer rest :
  stdin w = answer :: rest -> lower (strip answer) <> "yes" ->
  untouched w rest (ProcessNumberCard.main argv w).
Proof.
  intros Hin Hno. apply String.eqb_neq in Hno.
  pose proof (untouched_same w answer rest) as Hstop.
  unfold ProcessNumberCard.main.
  destruct (length argv <? 7)%nat; [now apply Hstop |].
  unfold ProcessNumberCard.int_arg, ProcessNumberCard.crop_image,
    ProcessNumberCard.remove_background.
  run.
  destruct (Py.int (JStr (nth 3 argv ""))) as [crop_x | e | n]; try (now apply Hstop).
  destruct (Py.int (JStr (nth 4 argv ""))) as [crop_y | e | n]; try (now apply Hstop).
  destruct (Py.int (JStr (nth 5 argv ""))) as [crop_width | e | n]; try (now apply Hstop).
  destruct (Py.int (JStr (nth 6 argv ""))) as [crop_height | e | n]; try (now apply Hstop).
  destruct (files w !! nth 1 argv "") as [content|] eqn:Hfile.
  2:{ rewrite bool_decide_eq_false_2 by (intros [? ?]; discriminate). now apply Hstop. }
  rewrite bool_decide_eq_true_2 by eauto. cbn [negb].
  rewrite Hfile.
  destruct (Image_open content) as [img | e | n]; try (now apply Hstop).
  assert (Hfinish : forall img' : image,
    untouched w rest
      (match image_crop img' (crop_x, crop_y, (crop_x + crop_width)%Z,
                              (crop_y + crop_height)%Z) with
       | Return cropped =>
           match rembg_remove cropped with
           | Return processed =>
               match image_save_png processed with
               | Return png =>
                   (Exit 0,
                    World (env w)
                      (<[path_join ProcessNumberCard.PROCESSED_DIR
                           (lower (upper (nth 2 argv "")) +:+ "_preview.png")
                         := png]> (files w))
                      rest (sent w) (drawn w))
               | Raise e => (Raise e, w)
               | Exit n => (Exit n, w)
               end
           | Raise e => (Raise e, w)
           | Exit n => (Exit n, w)
           end
       | Raise e => (Raise e, w)
       | Exit n => (Exit n, w)
       end)).
  { intros img'.
    destruct (image_crop img' _) as [cropped | e | n]; try (now apply Hstop).
    destruct (rembg_remove cropped) as [processed | e | n]; try (now apply Hstop).
    destruct (image_save_png processed) as [png | e | n]; try (now apply Hstop).
    split; [reflexivity |]. split; [| reflexivity].
    cbn [snd files]. apply lookup_insert_ne, preview_is_not_catalog. }
  destruct (String.eqb (image_mode img) "RGB" || String.eqb (image_mode img) "RGBA").
  - specialize (Hfinish img). revert Hfinish.
    destruct (image_crop img _) as [cropped | e | n]; try (now intros _; apply Hstop).
    destruct (rembg_remove cropped) as [processed | e | n]; try (now intros _; apply Hstop).
    destruct (image_save_png processed) as [png | e | n]; try (now intros _; apply Hstop).
    cbn [stdin]. rewrite Hin, Hno. cbn [negb]. exact (fun x => x).
  - destruct (image_convert img "RGBA") as [img' | e | n]; try (now apply Hstop).
    specialize (Hfinish img'). revert Hfinish.
    destruct (image_crop img' _) as [cropped | e | n]; try (now intros _; apply Hstop).
    destruct (rembg_remove cropped) as [processed | e | n]; try (now intros _; apply Hstop).
    destruct (image_save_png processed) as [png | e | n]; try (now intros _; apply Hstop).
    cbn [stdin]. rewrite Hin, Hno. cbn [negb]. exact (fun x => x).
Qed.

(** C5.  In both scripts, when the answer waiting at the confirmation prompt
    is not [yes] once trimmed and lower-cased, a run sends no request and
    leaves the catalog file as it was, however it ends; and when the run
    reads the answer, that is when it reaches the prompt, it ends with exit
    status 0. *)
Theorem cancellation_is_noop (argv : list string) (w : world) (answer : string)
    (rest : list string) :
  stdin w = answer :: rest ->
  lower (strip answer) <> "yes" ->
  (sent (snd (ProcessFaceCard.main argv w)) = sent w
   /\ files (snd (ProcessFaceCard.main argv w)) !! ProcessFaceCard.DATA_FILE
      = files w !! ProcessFaceCard.DATA_FILE
   /\ (stdin (snd (ProcessFaceCard.main argv w)) = rest ->
       fst (ProcessFaceCard.main argv w) = Exit 0))
  /\ (sent (snd (ProcessNumberCard.main argv w)) = sent w
      /\ files (snd (ProcessNumberCard.main argv w)) !! ProcessNumberCard.DATA_FILE
         = files w !! ProcessNumberCard.DATA_FILE
      /\ (stdin (snd (ProcessNumberCard.main argv w)) = rest ->
          fst (ProcessNumberCard.main argv w) = Exit 0)).
Proof.
  intros Hin Hno. split.
  - exact (face_main_declined argv w answer rest Hin Hno).
  - exact (number_main_declined argv w answer rest Hin Hno).
Qed.

End Cancellation.

(** The examples: both scripts reach the prompt and are answered [ No ]. *)

Lemma cancellation_is_noop_witness :
  let w := demo_world (<["queen.png" := "bytes"]> (catalog_on_disk three_cards)) [" No "] in
  let face_argv := ["process-face-card.py"; "queen.png"; "stella"] in
  let number_argv := ["process-number-card.py"; "queen.png"; "dog"; "100"; "50"; "250"; "350"] in
  stdin w = [" No "]
  /\ lower (strip " No ") <> "yes"
  /\ fst (@ProcessFaceCard.main offline face_argv w) = Exit 0
  /\ sent (snd (@ProcessFaceCard.main offline face_argv w)) = []
  /\ fst (@ProcessNumberCard.main offline number_argv w) = Exit 0
  /\ files (snd (@ProcessNumberCard.main offline number_argv w))
       !! @ProcessNumberCard.DATA_FILE offline
     = Some (Json.dumps (catalog_json three_cards)).
Proof.
  intros w face_argv number_argv.
  assert (Hin : stdin w = [" No "]) by reflexivity.
  assert (Hno : lower (strip " No ") <> "yes") by discriminate.
  destruct (@cancellation_is_noop offline face_argv w " No " [] Hin Hno)
    as [(Hsent & _ & Hexit) _].
  destruct (@cancellation_is_noop offline number_argv w " No " [] Hin Hno)
    as [_ (_ & Hfiles & Hexit')].
  split; [exact Hin |]. split; [exact Hno |].
  split; [apply Hexit; vm_compute; reflexivity |].
  split; [rewrite Hsent; reflexivity |].
  split; [apply Hexit'; vm_compute; reflexivity |].
  rewrite Hfiles. vm_compute. reflexivity.
Defined.

(** ** The process-face-card endpoint and the content of the word *)

Import Text.

Section FaceCardEndpoint.
Context `{Platform}.

(** [load_cards] reads the files and nothing else. *)
Lemma load_cards_same_files w w' data :
  AdminServer.load_cards w = (Return data, w) ->
  files w' = files w ->
  AdminServer.load_cards w' = (Return data, w').
Proof.
  unfold AdminServer.load_cards. run. intros Hload Hfiles. rewrite !Hfiles.
  destruct (bool_decide (is_Some (files w !! AdminServer.DATA_FILE))).
  - rewrite ?Hfiles.
    destruct (files w !! AdminServer.DATA_FILE) as [f|]; [| discriminate].
    destruct (Json.loads f) as [v|]; [| discriminate].
    injection Hload as ->. reflexivity.
  - injection Hload as <-. reflexivity.
Qed.

Lemma append_at_catalog cards c :
  Py.append_at (catalog_json cards) "cards" (card_json c)
  = Return (catalog_json (cards ++ [c])).
Proof.
  unfold Py.append_at, catalog_json. run.
  cbn [Py.getitem Py.dict_get String.eqb Ascii.eqb Bool.eqb Py.append Py.setitem
       Json.dict_set].
  now rewrite map_app.
Qed.

(** C10.  No publish path looks at the content of the word.  For every
    word, [generate_card_id] puts the lower-cased word as it is between the
    prefix and the hyphen before the fragment.  The process-face-card endpoint
    takes an empty [word] field: with an image part whose file name is not
    empty and a publisher that succeeds, it answers 200 and appends to the
    catalog a record whose word is empty and whose identifier is [face--]
    followed by the fragment. *)
Theorem word_is_not_validated :
  (forall (word card_type : string) (w : world),
     AdminServer.generate_card_id word card_type w
     = (Return ((if String.eqb card_type "face" then "face-" else "")
                +:+ lower word +:+ "-" +:+ fragment w), drew w))
  /\ (forall (request_files : list (string * upload))
        (request_form : list (string * string)) (file : upload) (w : world)
        (account_id api_token : string) (r : response)
        (result : list (string * json)) (image_id : json) (cards : list card),
      Py.dict_get "image" request_files = Some file ->
      filename file <> "" ->
      Py.dict_get "word" request_form = Some "" ->
      configured w account_id api_token ->
      requests_post (sent w)
        (upload_request account_id api_token ("face--" +:+ fragment w +:+ ".png")
           (content file))
      = Return r ->
      successful_upload r result ->
      Py.dict_get "id" result = Some image_id ->
      AdminServer.load_cards w = (Return (catalog_json cards), w) ->
      let new_card :=
        Card ("face--" +:+ fragment w) ""
          ("https://imagedelivery.net/"
           +:+ default "3oZsG34qPq3SIXQhl47vqA" (env w !! "CLOUDFLARE_DELIVERY_HASH")
           +:+ "/" +:+ Py.str image_id +:+ "/medium") "face" in
      AdminServer.process_face_card request_files request_form w
      = (Return (jsonify [("success", JBool true); ("card", card_json new_card);
                          ("totalCards", JInt (Z.of_nat (length cards + 1)))] 200),
         writing AdminServer.DATA_FILE (Json.dumps (catalog_json (cards ++ [new_card])))
           (sending (upload_request account_id api_token
                       ("face--" +:+ fragment w +:+ ".png") (content file))
              (drew w)))).
Proof.
  split; [intros; apply admin_generate_card_id |].
  intros request_files request_form file w account_id api_token r result image_id cards
    Himage Hname Hword Hconf Hpost Hok Hid Hload new_card.
  unfold AdminServer.process_face_card. rewrite Himage, Hword.
  apply String.eqb_neq in Hname. rewrite Hname.
  unfold try_except. unfold mbind at 1, M_bind at 1.
  rewrite admin_generate_card_id. cbn [String.eqb Ascii.eqb Bool.eqb upper lower map].
  change ("face-" +:+ "" +:+ "-" +:+ fragment w) with ("face--" +:+ fragment w).
  unfold mbind at 1, M_bind at 1.
  rewrite (admin_upload_result (drew w) (content file) (("face--" +:+ fragment w) +:+ ".png")
             account_id api_token r result Hconf);
    [| rewrite app_assoc_s; exact Hpost | exact Hok].
  rewrite Hid.
  unfold mbind at 1, M_bind at 1.
  rewrite (load_cards_same_files w _ (catalog_json cards) Hload) by reflexivity.
  unfold mbind at 1, M_bind at 1. unfold lift at 1.
  change (JObj [("id", JStr ("face--" +:+ fragment w)); ("word", JStr "");
                ("imageUrl", JStr ("https://imagedelivery.net/"
                   +:+ default "3oZsG34qPq3SIXQhl47vqA"
                         (env (drew w) !! "CLOUDFLARE_DELIVERY_HASH")
                   +:+ "/" +:+ Py.str image_id +:+ "/medium"));
                ("type", JStr "face")])
    with (card_json new_card).
  rewrite append_at_catalog.
  unfold mbind at 1, M_bind at 1. rewrite save_cards_writes.
  run. cbn [catalog_json Py.getitem Py.dict_get String.eqb Ascii.eqb Bool.eqb Py.len].
  rewrite length_map, length_app. cbn [length].
  rewrite app_assoc_s. reflexivity.
Qed.

End FaceCardEndpoint.

(** The example: a face card posted with an empty word to a catalog of three
    cards. *)
Lemma word_is_not_validated_witness :
  let P := demo_platform (Return (upload_answer "abc" [])) 0 in
  let w := demo_world (catalog_on_disk three_cards) [] in
  let new_card :=
    Card "face--00000000" "" "https://imagedelivery.net/3oZsG34qPq3SIXQhl47vqA/abc/medium"
      "face" in
  @AdminServer.process_face_card P [("image", Upload "king.png" "bytes")] [("word", "")] w
  = (Return (jsonify [("success", JBool true); ("card", card_json new_card);
                      ("totalCards", JInt 4)] 200),
     writing (@AdminServer.DATA_FILE P)
       (Json.dumps (catalog_json (three_cards ++ [new_card])))
       (sending (upload_request "acct" "token" "face--00000000.png" "bytes") (drew w))).
Proof.
  intros P w new_card.
  apply (proj2 (@word_is_not_validated P)
           [("image", Upload "king.png" "bytes")] [("word", "")]
           (Upload "king.png" "bytes") w "acct" "token"
           (upload_answer "abc" [])
           [("id", JStr "abc"); ("variants", JArr [])] (JStr "abc") three_cards).
  - reflexivity.
  - discriminate.
  - reflexivity.
  - apply demo_configured.
  - reflexivity.
  - apply demo_successful.
  - reflexivity.
  - vm_compute. reflexivity.
Defined.

(** * Further properties of the three programs *)

(** ** What a publisher leaves alone *)

Import Text.

(** Unfolds the sequencing of the state monad, file removal included. *)
Ltac run_all := run; unfold unlink_missing_ok in *.

(** Case analysis on the next test or match of the goal. *)
Ltac next_case :=
  match goal with
  | |- context [match ?x with _ => _ end] =>
      lazymatch x with
      | context [match _ with _ => _ end] => fail
      | _ => destruct x eqn:?
      end
  end.

Section PublisherFrame.
Context `{Platform}.

Lemma admin_upload_frame image_bytes filename w :
  sent_at_most_one w (AdminServer.upload_to_cloudflare image_bytes filename w).
Proof.
  unfold sent_at_most_one, AdminServer.upload_to_cloudflare. run.
  repeat next_case; cbn [snd env files stdin sent drawn]; eauto 10.
Qed.

Lemma face_upload_frame image_path filename w :
  sent_at_most_one w (ProcessFaceCard.upload_to_cloudflare image_path filename w).
Proof.
  unfold sent_at_most_one, ProcessFaceCard.upload_to_cloudflare. run.
  repeat next_case; cbn [snd env files stdin sent drawn]; eauto 10.
Qed.

Lemma number_upload_frame img filename w :
  sent_at_most_one w (ProcessNumberCard.upload_to_cloudflare img filename w).
Proof.
  unfold sent_at_most_one, ProcessNumberCard.upload_to_cloudflare. run.
  repeat next_case; cbn [snd env files stdin sent drawn]; eauto 10.
Qed.

(** X1.  Whatever the environment, the files and the answer of the service,
    a publisher makes a single attempt: it sends no request or exactly one,
    and changes nothing else, neither the files nor the environment. *)
Theorem publisher_single_attempt (w : world) (filename : string) :
  (forall image_bytes,
     sent_at_most_one w (AdminServer.upload_to_cloudflare image_bytes filename w))
  /\ (forall image_path,
        sent_at_most_one w (ProcessFaceCard.upload_to_cloudflare image_path filename w))
  /\ (forall img,
        sent_at_most_one w (ProcessNumberCard.upload_to_cloudflare img filename w)).
Proof.
  split; [| split]; intros.
  - apply admin_upload_frame.
  - apply face_upload_frame.
  - apply number_upload_frame.
Qed.

(** X2.  When the configuration is there and the service answers with a
    status other than 200, each publisher raises [Cloudflare upload failed:]
    followed by the text of the response; when the status is 200 and the body
    is an object whose [success] is absent or false, it raises the same
    followed by the [errors] of the body.  In both cases one request went
    out. *)
Theorem upload_failure_reported (w : world) (filename account_id api_token : string)
    (r : response) :
  configured w account_id api_token ->
  forall message, failure_detail r = Some message ->
  (forall image_bytes,
     requests_post (sent w) (upload_request account_id api_token filename image_bytes)
     = Return r ->
     AdminServer.upload_to_cloudflare image_bytes filename w
     = (Raise (UploadFailed message),
        sending (upload_request account_id api_token filename image_bytes) w))
  /\ (forall image_path file,
        files w !! image_path = Some file ->
        requests_post (sent w) (upload_request account_id api_token filename file)
        = Return r ->
        ProcessFaceCard.upload_to_cloudflare image_path filename w
        = (Raise (UploadFailed message),
           sending (upload_request account_id api_token filename file) w))
  /\ (forall img png,
        image_save_png img = Return png ->
        requests_post (sent w) (upload_request account_id api_token filename png)
        = Return r ->
        ProcessNumberCard.upload_to_cloudflare img filename w
        = (Raise (UploadFailed message),
           sending (upload_request account_id api_token filename png) w)).
Proof.
  intros Hconf message Hdetail. unfold failure_detail in Hdetail.
  pose proof (gate_passed _ _ _ Hconf) as Hgate.
  destruct Hconf as (Ha & _ & Hk & _).
  split; [| split].
  - intros image_bytes Hpost.
    unfold AdminServer.upload_to_cloudflare. run. rewrite Hgate, Ha, Hk.
    cbn [default from_option id]. unfold upload_request in Hpost. rewrite Hpost.
    destruct (negb (status_code r =? 200)%Z); [now injection Hdetail as <- |].
    destruct (json_body r) as [[ | | | | | members]|]; try discriminate.
    cbn [Py.get]. destruct (Py.truthy _); [discriminate |].
    injection Hdetail as <-. reflexivity.
  - intros image_path file Hfile Hpost.
    unfold ProcessFaceCard.upload_to_cloudflare. run. rewrite Hgate, Ha, Hk, Hfile.
    cbn [default from_option id]. unfold upload_request in Hpost. rewrite Hpost.
    destruct (negb (status_code r =? 200)%Z); [now injection Hdetail as <- |].
    destruct (json_body r) as [[ | | | | | members]|]; try discriminate.
    cbn [Py.get]. destruct (Py.truthy _); [discriminate |].
    injection Hdetail as <-. reflexivity.
  - intros img png Hpng Hpost.
    unfold ProcessNumberCard.upload_to_cloudflare. run. rewrite Hgate, Ha, Hk, Hpng.
    cbn [default from_option id]. unfold upload_request in Hpost. rewrite Hpost.
    destruct (negb (status_code r =? 200)%Z); [now injection Hdetail as <- |].
    destruct (json_body r) as [[ | | | | | members]|]; try discriminate.
    cbn [Py.get]. destruct (Py.truthy _); [discriminate |].
    injection Hdetail as <-. reflexivity.
Qed.

End PublisherFrame.

(** The example: the service refuses the token. *)

Lemma upload_failure_reported_witness :
  let P := demo_platform (Return (Response 403 "forbidden" None)) 0 in
  let w := demo_world (<["queen.png" := "bytes"]> ∅) [] in
  @AdminServer.upload_to_cloudflare P "bytes" "dog-12345678.png" w
  = (Raise (UploadFailed "forbidden"),
     sending (upload_request "acct" "token" "dog-12345678.png" "bytes") w)
  /\ @ProcessFaceCard.upload_to_cloudflare P "queen.png" "dog-12345678.png" w
     = (Raise (UploadFailed "forbidden"),
        sending (upload_request "acct" "token" "dog-12345678.png" "bytes") w)
  /\ @ProcessNumberCard.upload_to_cloudflare P tt "dog-12345678.png" w
     = (Raise (UploadFailed "forbidden"),
        sending (upload_request "acct" "token" "dog-12345678.png" "PNG") w).
Proof.
  intros P w.
  pose proof (@upload_failure_reported P w "dog-12345678.png" "acct" "token"
                (Response 403 "forbidden" None) (demo_configured _ _)
                "forbidden" eq_refl) as (Hadmin & Hface & Hnumber).
  split; [apply Hadmin; reflexivity |].
  split; [apply (Hface "queen.png" "bytes"); reflexivity |].
  apply (Hnumber tt "PNG"); reflexivity.
Defined.

(** ** The face-card endpoint on every word *)

Import Text.

(** The case mapping on the two words of the examples: an accented
    capital has its small letter, and the sharp s has two capitals. *)
Lemma lower_ecole : lower ecole = String "233" "cole".
Proof. reflexivity. Qed.

Lemma upper_ecole : upper ecole = String "201" "COLE".
Proof. reflexivity. Qed.

Lemma upper_strasse : upper strasse = "STRASSE" /\ lower (upper strasse) = "strasse".
Proof. split; reflexivity. Qed.

(** Where a word has no sharp s, lower-casing its upper case is lower-casing
    the word. *)
Lemma lower_upper_char c :
  Ascii.eqb c "223" = false -> lower (upper_char c) = String (lower_char c) "".
Proof. destruct c as [[] [] [] [] [] [] [] []]; intros Hc; try discriminate Hc; reflexivity. Qed.

Lemma lower_append s t : lower (s +:+ t) = lower s +:+ lower t.
Proof.
  unfold lower. induction s as [|c s IH]; [reflexivity |].
  cbn [String.append map]. now rewrite IH.
Qed.

Lemma lower_upper s :
  forallb (fun c => negb (Ascii.eqb c "223")) s = true -> lower (upper s) = lower s.
Proof.
  induction s as [|c s IH]; [reflexivity |].
  cbn [forallb upper]. intros Hs. apply andb_true_iff in Hs as [Hc Hs].
  apply negb_true_iff in Hc.
  rewrite lower_append, lower_upper_char, IH by assumption. reflexivity.
Qed.

Section FaceCardPublish.
Context `{Platform}.

(** X3.  A face card posted with an image part, a word and a publisher that
    succeeds, on a server whose catalog file is there and reads as a
    catalog: the bytes of the part go to the service as they are, under the
    name of the new identifier; the answer is 200; the catalog on disk is the
    old one followed by one record of type [face] whose word is the given
    word in upper case and whose identifier is [face-], the stored word in
    lower case, a hyphen and the fragment; [totalCards] counts the new
    record.  The word is one whose upper case is made of code points up to
    255. *)
Theorem face_card_published (request_files : list (string * upload))
    (request_form : list (string * string)) (file : upload) (word : string) (w : world)
    (account_id api_token : string) (r : response) (result : list (string * json))
    (image_id : json) (text : string) (cards : list card) :
  Py.dict_get "image" request_files = Some file ->
  filename file <> "" ->
  Py.dict_get "word" request_form = Some word ->
  capitals_fit word = true ->
  configured w account_id api_token ->
  let id := "face-" +:+ lower (upper word) +:+ "-" +:+ fragment w in
  let req := upload_request account_id api_token (id +:+ ".png") (content file) in
  requests_post (sent w) req = Return r ->
  successful_upload r result ->
  Py.dict_get "id" result = Some image_id ->
  files w !! AdminServer.DATA_FILE = Some text ->
  AdminServer.load_cards w = (Return (catalog_json cards), w) ->
  let new_card :=
    Card id (upper word)
      ("https://imagedelivery.net/"
       +:+ default "3oZsG34qPq3SIXQhl47vqA" (env w !! "CLOUDFLARE_DELIVERY_HASH")
       +:+ "/" +:+ Py.str image_id +:+ "/medium") "face" in
  AdminServer.process_face_card request_files request_form w
  = (Return (jsonify [("success", JBool true); ("card", card_json new_card);
                      ("totalCards", JInt (Z.of_nat (length cards + 1)))] 200),
     writing AdminServer.DATA_FILE (Json.dumps (catalog_json (cards ++ [new_card])))
       (sending req (drew w))).
Proof.
  intros Himage Hname Hword _ Hconf id req Hpost Hok Hid _ Hload new_card.
  unfold AdminServer.process_face_card. rewrite Himage, Hword.
  apply String.eqb_neq in Hname. rewrite Hname.
  unfold try_except. unfold mbind at 1, M_bind at 1.
  rewrite admin_generate_card_id. cbn [String.eqb Ascii.eqb Bool.eqb].
  fold id.
  unfold mbind at 1, M_bind at 1.
  rewrite (admin_upload_result (drew w) (content file) (id +:+ ".png")
             account_id api_token r result Hconf Hpost Hok).
  rewrite Hid.
  unfold mbind at 1, M_bind at 1.
  rewrite (load_cards_same_files w _ (catalog_json cards) Hload) by reflexivity.
  unfold mbind at 1, M_bind at 1. unfold lift at 1.
  change (JObj [("id", JStr id); ("word", JStr (upper word));
                ("imageUrl", JStr ("https://imagedelivery.net/"
                   +:+ default "3oZsG34qPq3SIXQhl47vqA"
                         (env (drew w) !! "CLOUDFLARE_DELIVERY_HASH")
                   +:+ "/" +:+ Py.str image_id +:+ "/medium"));
                ("type", JStr "face")])
    with (card_json new_card).
  rewrite append_at_catalog.
  unfold mbind at 1, M_bind at 1. rewrite save_cards_writes.
  run. cbn [catalog_json Py.getitem Py.dict_get String.eqb Ascii.eqb Bool.eqb Py.len].
  rewrite length_map, length_app. cbn [length]. reflexivity.
Qed.

(** X4.  The face-card endpoint checks the image part, then the word, then
    the file name of the part, and answers 400 at the first that fails,
    before anything is drawn, sent or written. *)
Theorem face_card_rejected (request_files : list (string * upload))
    (request_form : list (string * string)) (w : world) :
  (Py.dict_get "image" request_files = None ->
   AdminServer.process_face_card request_files request_form w
   = (Return (jsonify (error_body "No image provided") 400), w))
  /\ (forall file,
        Py.dict_get "image" request_files = Some file ->
        Py.dict_get "word" request_form = None ->
        AdminServer.process_face_card request_files request_form w
        = (Return (jsonify (error_body "No word provided") 400), w))
  /\ (forall file word,
        Py.dict_get "image" request_files = Some file ->
        Py.dict_get "word" request_form = Some word ->
        filename file = "" ->
        AdminServer.process_face_card request_files request_form w
        = (Return (jsonify (error_body "No file selected") 400), w)).
Proof.
  unfold AdminServer.process_face_card. split; [| split].
  - intros ->. reflexivity.
  - intros file -> ->. reflexivity.
  - intros file word -> -> ->. reflexivity.
Qed.

(** X5.  When the publisher raises on the bytes of the part and the name
    of the new identifier, the face-card endpoint answers 500 with the
    message of the exception, and no file changed: the catalog is the one
    before the request.  The word is one whose upper case is made of code
    points up to 255. *)
Theorem face_card_publish_failed (request_files : list (string * upload))
    (request_form : list (string * string)) (file : upload) (word : string) (w w' : world)
    (e : exn) :
  Py.dict_get "image" request_files = Some file ->
  filename file <> "" ->
  Py.dict_get "word" request_form = Some word ->
  capitals_fit word = true ->
  AdminServer.upload_to_cloudflare (content file)
    (("face-" +:+ lower (upper word) +:+ "-" +:+ fragment w) +:+ ".png") (drew w)
  = (Raise e, w') ->
  AdminServer.process_face_card request_files request_form w
  = (Return (jsonify (error_body (exn_str e)) 500), w')
  /\ files w' = files w.
Proof.
  intros Himage Hname Hword _ Hupload.
  pose proof (admin_upload_frame (content file)
                (("face-" +:+ lower (upper word) +:+ "-" +:+ fragment w) +:+ ".png")
                (drew w))
    as (_ & Hfiles & _).
  rewrite Hupload in Hfiles. cbn [snd] in Hfiles. split; [| exact Hfiles].
  unfold AdminServer.process_face_card. rewrite Himage, Hword.
  apply String.eqb_neq in Hname. rewrite Hname.
  unfold try_except. unfold mbind at 1, M_bind at 1.
  rewrite admin_generate_card_id. cbn [String.eqb Ascii.eqb Bool.eqb].
  unfold mbind at 1, M_bind at 1. rewrite Hupload. reflexivity.
Qed.

End FaceCardPublish.

(** The examples: a street, [Stra] and the sharp s and [e], is posted to a
    service that accepts it; three requests that are turned away; a server
    without credentials. *)

Lemma face_card_published_witness :
  let P := demo_platform (Return (upload_answer "abc" [])) 0 in
  let w := demo_world (catalog_on_disk three_cards) [] in
  let new_card :=
    Card "face-strasse-00000000" "STRASSE"
      "https://imagedelivery.net/3oZsG34qPq3SIXQhl47vqA/abc/medium" "face" in
  @AdminServer.process_face_card P [("image", Upload "street.png" "bytes")]
    [("word", strasse)] w
  = (Return (jsonify [("success", JBool true); ("card", card_json new_card);
                      ("totalCards", JInt 4)] 200),
     writing (@AdminServer.DATA_FILE P)
       (Json.dumps (catalog_json (three_cards ++ [new_card])))
       (sending (upload_request "acct" "token" "face-strasse-00000000.png" "bytes")
          (drew w))).
Proof.
  intros P w new_card.
  apply (@face_card_published P
           [("image", Upload "street.png" "bytes")] [("word", strasse)]
           (Upload "street.png" "bytes") strasse w "acct" "token"
           (upload_answer "abc" [])
           [("id", JStr "abc"); ("variants", JArr [])] (JStr "abc")
           (Json.dumps (catalog_json three_cards)) three_cards).
  - reflexivity.
  - discriminate.
  - reflexivity.
  - reflexivity.
  - apply demo_configured.
  - reflexivity.
  - apply demo_successful.
  - reflexivity.
  - reflexivity.
  - vm_compute. reflexivity.
Defined.

Lemma face_card_rejected_witness :
  let w := demo_world (catalog_on_disk three_cards) [] in
  @AdminServer.process_face_card offline [] [("word", "King")] w
  = (Return (jsonify (error_body "No image provided") 400), w)
  /\ @AdminServer.process_face_card offline [("image", Upload "king.png" "bytes")] [] w
     = (Return (jsonify (error_body "No word provided") 400), w)
  /\ @AdminServer.process_face_card offline [("image", Upload "" "")] [("word", "King")] w
     = (Return (jsonify (error_body "No file selected") 400), w).
Proof.
  intros w. split; [| split].
  - apply (proj1 (@face_card_rejected offline [] [("word", "King")] w)). reflexivity.
  - apply (proj1 (proj2 (@face_card_rejected offline
                           [("image", Upload "king.png" "bytes")] [] w))
             (Upload "king.png" "bytes")); reflexivity.
  - apply (proj2 (proj2 (@face_card_rejected offline
                           [("image", Upload "" "")] [("word", "King")] w))
             (Upload "" "") "King"); reflexivity.
Defined.

Lemma face_card_publish_failed_witness :
  let w := World ∅ (catalog_on_disk three_cards) [] [] 0 in
  @AdminServer.process_face_card offline [("image", Upload "king.png" "bytes")]
    [("word", "King")] w
  = (Return (jsonify (error_body
               "CLOUDFLARE_ACCOUNT_ID and CLOUDFLARE_API_TOKEN must be set") 500),
     drew w)
  /\ files (drew w) = files w.
Proof.
  intros w.
  apply (@face_card_publish_failed offline
           [("image", Upload "king.png" "bytes")] [("word", "King")]
           (Upload "king.png" "bytes") "King" w (drew w) MissingConfiguration).
  - reflexivity.
  - discriminate.
  - reflexivity.
  - reflexivity.
  - reflexivity.
Defined.

(** ** Confirming a number card *)

Import Text.

Section ConfirmNumberCard.
Context `{Platform}.

Lemma preview_of_not_catalog word : preview_of word <> AdminServer.DATA_FILE.
Proof. apply (preview_is_not_catalog word). Qed.

(** [load_cards] on a state whose catalog file holds the text of [data]. *)
Lemma load_cards_of_file data w :
  Json.well_formed data = true ->
  files w !! AdminServer.DATA_FILE = Some (Json.dumps data) ->
  AdminServer.load_cards w = (Return data, w).
Proof.
  intros Hwf Hfile. unfold AdminServer.load_cards. run. rewrite Hfile.
  rewrite bool_decide_eq_true_2 by eauto. rewrite Hfile.
  now rewrite loads_dumps.
Qed.

(** X6.  The confirm endpoint answers 400 when the body has no [word], and
    404 when nothing in the processed directory has the name the handler
    looks for, the upper-cased word in lower case and [_preview.png]; in both
    cases nothing is drawn, sent or written.  The word is one whose upper
    case is made of code points up to 255, and the name of its preview is a
    file name. *)
Theorem confirm_rejected (members : list (string * json)) (w : world) :
  (Py.dict_get "word" members = None ->
   AdminServer.confirm_number_card (JObj members) w
   = (Return (jsonify (error_body "Missing word") 400), w))
  /\ (forall word,
        Py.dict_get "word" members = Some (JStr word) ->
        capitals_fit word = true ->
        is_file_name (lower (upper word)) = true ->
        files w !! preview_of (upper word) = None ->
        AdminServer.confirm_number_card (JObj members) w
        = (Return (jsonify (error_body "Preview not found. Process the card first.") 404),
           w)).
Proof.
  split.
  - intros Hword. unfold AdminServer.confirm_number_card. run.
    rewrite contains_key_absent by exact Hword. reflexivity.
  - intros word Hword _ _ Hnone. unfold AdminServer.confirm_number_card. run.
    rewrite contains_key_present by (rewrite Hword; eauto).
    cbn [negb Py.getitem]. rewrite Hword. cbn [Py.upper_of].
    fold (preview_of (upper word)). rewrite Hnone.
    rewrite bool_decide_eq_false_2 by (intros [? ?]; discriminate). reflexivity.
Qed.

(** X7.  Confirming a word whose preview is there, under the name of the
    upper-cased word in lower case, with a publisher that succeeds, on a
    server whose catalog file is there and reads as a catalog: the bytes of
    the preview go to the service; the answer is 200; the catalog on disk
    is the old one followed by one record of type [number] whose word is the
    given word in upper case and whose identifier is the stored word in lower
    case, a hyphen and the fragment; the preview file is removed; the catalog
    then reads back with the new record.  The word is one whose upper case is
    made of code points up to 255, and the name of its preview is a file
    name. *)
Theorem confirm_published (members : list (string * json)) (word preview : string)
    (w : world) (account_id api_token : string) (r : response)
    (result : list (string * json)) (image_id : json) (text : string)
    (cards : list card) :
  Py.dict_get "word" members = Some (JStr word) ->
  capitals_fit word = true ->
  is_file_name (lower (upper word)) = true ->
  files w !! preview_of (upper word) = Some preview ->
  configured w account_id api_token ->
  let id := lower (upper word) +:+ "-" +:+ fragment w in
  let req := upload_request account_id api_token (id +:+ ".png") preview in
  requests_post (sent w) req = Return r ->
  successful_upload r result ->
  Py.dict_get "id" result = Some image_id ->
  files w !! AdminServer.DATA_FILE = Some text ->
  AdminServer.load_cards w = (Return (catalog_json cards), w) ->
  let new_card :=
    Card id (upper word)
      ("https://imagedelivery.net/"
       +:+ default "3oZsG34qPq3SIXQhl47vqA" (env w !! "CLOUDFLARE_DELIVERY_HASH")
       +:+ "/" +:+ Py.str image_id +:+ "/medium") "number" in
  let w' :=
    removing (preview_of (upper word))
      (writing AdminServer.DATA_FILE (Json.dumps (catalog_json (cards ++ [new_card])))
         (sending req (drew w))) in
  AdminServer.confirm_number_card (JObj members) w
  = (Return (jsonify [("success", JBool true); ("card", card_json new_card);
                      ("totalCards", JInt (Z.of_nat (length cards + 1)))] 200), w')
  /\ files w' !! preview_of (upper word) = None
  /\ AdminServer.load_cards w' = (Return (catalog_json (cards ++ [new_card])), w').
Proof.
  intros Hword _ _ Hpreview Hconf id req Hpost Hok Hid _ Hload new_card w'.
  split; [| split].
  - unfold AdminServer.confirm_number_card.
    unfold mbind at 1, M_bind at 1. unfold lift at 1.
    rewrite contains_key_present by (rewrite Hword; eauto). cbn [negb].
    unfold mbind at 1, M_bind at 1. unfold lift at 1.
    unfold mbind at 1, outcome_bind at 1. cbn [Py.getitem]. rewrite Hword.
    cbn [Py.upper_of]. fold (preview_of (upper word)).
    unfold mbind at 1, M_bind at 1. unfold path_exists at 1.
    rewrite Hpreview. rewrite bool_decide_eq_true_2 by eauto. cbn [negb].
    unfold try_except. unfold mbind at 1, M_bind at 1. unfold read_file at 1.
    rewrite Hpreview.
    unfold mbind at 1, M_bind at 1.
    rewrite admin_generate_card_id. cbn [String.eqb Ascii.eqb Bool.eqb].
    change ("" +:+ lower (upper word) +:+ "-" +:+ fragment w) with id.
    unfold mbind at 1, M_bind at 1.
    rewrite (admin_upload_result (drew w) preview (id +:+ ".png")
               account_id api_token r result Hconf Hpost Hok).
    rewrite Hid.
    unfold mbind at 1, M_bind at 1.
    rewrite (load_cards_same_files w _ (catalog_json cards) Hload) by reflexivity.
    unfold mbind at 1, M_bind at 1. unfold lift at 1.
    change (JObj [("id", JStr id); ("word", JStr (upper word));
                  ("imageUrl", JStr ("https://imagedelivery.net/"
                     +:+ default "3oZsG34qPq3SIXQhl47vqA"
                           (env (drew w) !! "CLOUDFLARE_DELIVERY_HASH")
                     +:+ "/" +:+ Py.str image_id +:+ "/medium"));
                  ("type", JStr "number")])
      with (card_json new_card).
    rewrite append_at_catalog.
    unfold mbind at 1, M_bind at 1. rewrite save_cards_writes.
    run_all. cbn [catalog_json Py.getitem Py.dict_get String.eqb Ascii.eqb Bool.eqb Py.len].
    rewrite length_map, length_app. cbn [length]. reflexivity.
  - subst w'. cbn [removing files]. apply lookup_delete_eq.
  - assert (Hfiles : files w' !! AdminServer.DATA_FILE
                     = Some (Json.dumps (catalog_json (cards ++ [new_card])))).
    { subst w'. cbn [removing writing files].
      rewrite lookup_delete_ne by apply preview_of_not_catalog.
      apply lookup_insert_eq. }
    apply load_cards_of_file; [apply well_formed_catalog | exact Hfiles].
Qed.

(** X8.  When the publisher raises on the bytes of the preview and the
    name of the new identifier, the confirm endpoint answers 500 with the
    message of the exception and no file changed: the preview is still there
    and the catalog is the one before the request, so the confirmation can be
    sent again.  The word is one whose upper case is made of code points up
    to 255, and the name of its preview is a file name. *)
Theorem confirm_publish_failed (members : list (string * json)) (word preview : string)
    (w w' : world) (e : exn) :
  Py.dict_get "word" members = Some (JStr word) ->
  capitals_fit word = true ->
  is_file_name (lower (upper word)) = true ->
  files w !! preview_of (upper word) = Some preview ->
  AdminServer.upload_to_cloudflare preview
    ((lower (upper word) +:+ "-" +:+ fragment w) +:+ ".png") (drew w)
  = (Raise e, w') ->
  AdminServer.confirm_number_card (JObj members) w
  = (Return (jsonify (error_body (exn_str e)) 500), w')
  /\ files w' = files w.
Proof.
  intros Hword _ _ Hpreview Hupload.
  pose proof (admin_upload_frame preview
                ((lower (upper word) +:+ "-" +:+ fragment w) +:+ ".png") (drew w))
    as (_ & Hfiles & _).
  rewrite Hupload in Hfiles. cbn [snd] in Hfiles. split; [| exact Hfiles].
  unfold AdminServer.confirm_number_card.
  unfold mbind at 1, M_bind at 1. unfold lift at 1.
  rewrite contains_key_present by (rewrite Hword; eauto). cbn [negb].
  unfold mbind at 1, M_bind at 1. unfold lift at 1.
  unfold mbind at 1, outcome_bind at 1. cbn [Py.getitem]. rewrite Hword.
  cbn [Py.upper_of]. fold (preview_of (upper word)).
  unfold mbind at 1, M_bind at 1. unfold path_exists at 1.
  rewrite Hpreview. rewrite bool_decide_eq_true_2 by eauto. cbn [negb].
  unfold try_except. unfold mbind at 1, M_bind at 1. unfold read_file at 1.
  rewrite Hpreview.
  unfold mbind at 1, M_bind at 1.
  rewrite admin_generate_card_id. cbn [String.eqb Ascii.eqb Bool.eqb].
  change ("" +:+ lower (upper word) +:+ "-" +:+ fragment w)
    with (lower (upper word) +:+ "-" +:+ fragment w).
  unfold mbind at 1, M_bind at 1. rewrite Hupload. reflexivity.
Qed.

End ConfirmNumberCard.

(** The examples: a word without a preview; the preview of [ecole], whose
    name begins with the small accented letter, is confirmed for the word
    written with the capital one; the preview of [dog] and a service out of
    reach. *)

Lemma confirm_rejected_witness :
  let w := demo_world (catalog_on_disk three_cards) [] in
  @AdminServer.confirm_number_card offline (JObj [("name", JStr "dog")]) w
  = (Return (jsonify (error_body "Missing word") 400), w)
  /\ @AdminServer.confirm_number_card offline (JObj [("word", JStr "dog")]) w
     = (Return (jsonify (error_body "Preview not found. Process the card first.") 404), w).
Proof.
  intros w. split.
  - apply (proj1 (@confirm_rejected offline [("name", JStr "dog")] w)). reflexivity.
  - apply (proj2 (@confirm_rejected offline [("word", JStr "dog")] w) "dog"); reflexivity.
Defined.

Lemma confirm_published_witness :
  let P := demo_platform (Return (upload_answer "abc" [])) 0 in
  let small := String "233" "cole" in
  let capital := String "201" "COLE" in
  let preview := @AdminServer.PROCESSED_DIR P +:+ "/" +:+ small +:+ "_preview.png" in
  let w := demo_world (<[preview := "PNG"]> (catalog_on_disk three_cards)) [] in
  let new_card :=
    Card (small +:+ "-00000000") capital
      "https://imagedelivery.net/3oZsG34qPq3SIXQhl47vqA/abc/medium" "number" in
  let w' :=
    removing preview
      (writing (@AdminServer.DATA_FILE P)
         (Json.dumps (catalog_json (three_cards ++ [new_card])))
         (sending (upload_request "acct" "token" (small +:+ "-00000000.png") "PNG")
            (drew w))) in
  @AdminServer.confirm_number_card P (JObj [("word", JStr ecole)]) w
  = (Return (jsonify [("success", JBool true); ("card", card_json new_card);
                      ("totalCards", JInt 4)] 200), w')
  /\ files w' !! preview = None
  /\ @AdminServer.load_cards P w' = (Return (catalog_json (three_cards ++ [new_card])), w').
Proof.
  intros P small capital preview w new_card w'.
  apply (@confirm_published P [("word", JStr ecole)] ecole "PNG" w "acct" "token"
           (upload_answer "abc" [])
           [("id", JStr "abc"); ("variants", JArr [])] (JStr "abc")
           (Json.dumps (catalog_json three_cards)) three_cards).
  - reflexivity.
  - reflexivity.
  - reflexivity.
  - reflexivity.
  - apply demo_configured.
  - reflexivity.
  - apply demo_successful.
  - reflexivity.
  - reflexivity.
  - vm_compute. reflexivity.
Defined.

Lemma confirm_publish_failed_witness :
  let w := demo_world (<[@preview_of offline "dog" := "PNG"]> (catalog_on_disk three_cards)) [] in
  let w' := sending (upload_request "acct" "token" "dog-00000000.png" "PNG") (drew w) in
  @AdminServer.confirm_number_card offline (JObj [("word", JStr "dog")]) w
  = (Return (jsonify (error_body "unreachable") 500), w')
  /\ files w' = files w.
Proof.
  intros w w'.
  apply (@confirm_publish_failed offline [("word", JStr "dog")] "dog" "PNG" w w'
           (Exn "ConnectionError" "unreachable")).
  - reflexivity.
  - reflexivity.
  - reflexivity.
  - reflexivity.
  - reflexivity.
Defined.

(** ** From the temporary upload to the preview and to the confirmation *)

Import Text.

Section NumberCardWorkflow.
Context `{Platform}.

(** X9.  Processing a number card never publishes: whatever the request and
    however it ends, no request is sent, no identifier is drawn, and the
    catalog file is as it was. *)
Theorem process_number_card_is_local (data : json) (w : world) :
  let r := AdminServer.process_number_card data w in
  sent (snd r) = sent w
  /\ drawn (snd r) = drawn w
  /\ env (snd r) = env w
  /\ files (snd r) !! AdminServer.DATA_FILE = files w !! AdminServer.DATA_FILE.
Proof.
  unfold AdminServer.process_number_card. run.
  repeat next_case; cbn [snd sent drawn env files]; repeat split;
    apply lookup_insert_ne, (preview_is_not_catalog _).
Qed.

Lemma process_ok_preview members w word :
  Py.dict_get "word" members = Some (JStr word) ->
  forall body,
    fst (AdminServer.process_number_card (JObj members) w) = Return (body, 200%Z) ->
    is_Some (files (snd (AdminServer.process_number_card (JObj members) w))
               !! preview_of (upper word)).
Proof.
  intros Hword body. unfold AdminServer.process_number_card. run.
  cbn [Py.getitem]. rewrite Hword. cbn [Py.upper_of].
  repeat next_case; cbn [fst snd files]; intros Hret;
    try discriminate; try (injection Hret; intros; discriminate).
  all: fold (preview_of (upper word)); rewrite lookup_insert_eq; eauto.
Qed.

Lemma confirm_not_404 members w word :
  Py.dict_get "word" members = Some (JStr word) ->
  is_Some (files w !! preview_of (upper word)) ->
  forall body,
    fst (AdminServer.confirm_number_card (JObj members) w) <> Return (body, 404%Z).
Proof.
  intros Hword Hpreview body. unfold AdminServer.confirm_number_card. run.
  rewrite contains_key_present by (rewrite Hword; eauto).
  cbn [negb Py.getitem]. rewrite Hword. cbn [Py.upper_of].
  fold (preview_of (upper word)).
  rewrite bool_decide_eq_true_2 by exact Hpreview. cbn [negb].
  repeat next_case; cbn [fst]; intros Hret;
    try discriminate; try (injection Hret; intros; discriminate).
Qed.

(** X10.  After a process-number-card request answered 200 for a word, the
    preview is in the processed directory under the name of the upper-cased
    word in lower case, and a confirmation for a word with the same upper
    case, so for the same word in any letter case, is not answered [404].
    The words are ones whose upper case is made of code points up to 255,
    and the name of the preview is a file name. *)
Theorem confirm_finds_processed_preview (members : list (string * json))
    (word : string) (w w1 : world) (body : json) :
  Py.dict_get "word" members = Some (JStr word) ->
  capitals_fit word = true ->
  is_file_name (lower (upper word)) = true ->
  AdminServer.process_number_card (JObj members) w = (Return (body, 200%Z), w1) ->
  is_Some (files w1 !! preview_of (upper word))
  /\ (forall (confirmation : list (string * json)) (word' : string) (body' : json),
        Py.dict_get "word" confirmation = Some (JStr word') ->
        capitals_fit word' = true ->
        upper word' = upper word ->
        fst (AdminServer.confirm_number_card (JObj confirmation) w1)
        <> Return (body', 404%Z)).
Proof.
  intros Hword _ _ Hrun.
  pose proof (process_ok_preview members w word Hword body) as Hpreview.
  rewrite Hrun in Hpreview. cbn [fst snd] in Hpreview. specialize (Hpreview eq_refl).
  split; [exact Hpreview |].
  intros confirmation word' body' Hword' _ Hsame.
  apply (confirm_not_404 confirmation w1 word' Hword').
  rewrite Hsame. exact Hpreview.
Qed.

End NumberCardWorkflow.

Section TemporaryUpload.
Context `{Platform}.
Variable path_suffix : string -> string.
Variable image_size : image -> Z * Z.

Lemma temp_path_joined w suffix :
  path_join AdminServer.UPLOADS_DIR (temp_name w suffix)
  = AdminServer.UPLOADS_DIR +:+ "/" +:+ temp_name w suffix.
Proof. reflexivity. Qed.





End TemporaryUpload.

(** The examples: a photograph of a dog is uploaded, processed and
    confirmed. *)

Lemma confirm_finds_processed_preview_witness :
  let P := demo_platform (Return (upload_answer "abc" [])) 0 in
  let w := demo_world (<[@AdminServer.UPLOADS_DIR P +:+ "/temp_00000000.jpg" := "JPEG"]>
                         (catalog_on_disk three_cards)) [] in
  let w1 := snd (@AdminServer.process_number_card P
                   (JObj (crop_request "temp_00000000.jpg")) w) in
  is_Some (files w1 !! @preview_of P "dog")
  /\ fst (@AdminServer.confirm_number_card P (JObj [("word", JStr "DOG")]) w1)
     <> Return (JObj (error_body "Preview not found. Process the card first."), 404%Z).
Proof.
  intros P w w1.
  pose proof (@confirm_finds_processed_preview P (crop_request "temp_00000000.jpg") "dog"
                w w1
                (JObj [("success", JBool true);
                       ("preview", JStr "data:image/png;base64,PNG");
                       ("previewPath", JStr "processed/dog_preview.png");
                       ("word", JStr "DOG")])
                eq_refl eq_refl eq_refl eq_refl) as [Hpreview Hconfirm].
  split; [exact Hpreview |].
  apply (Hconfirm [("word", JStr "DOG")] "DOG"); reflexivity.
Defined.




(** ** The catalog under every request *)

Import Text.

Lemma app_inv_head_s a b c : a +:+ b = a +:+ c -> b = c.
Proof.
  induction a as [|x a IH]; cbn [String.append]; [exact (fun e => e) |].
  intros Heq. injection Heq as Heq. exact (IH Heq).
Qed.

Section CatalogInvariant.
Context `{Platform}.

Lemma load_cards_same_catalog w w' data :
  AdminServer.load_cards w = (Return data, w) ->
  files w' !! AdminServer.DATA_FILE = files w !! AdminServer.DATA_FILE ->
  AdminServer.load_cards w' = (Return data, w').
Proof.
  unfold AdminServer.load_cards. run. intros Hload Hfile.
  rewrite !Hfile.
  destruct (bool_decide (is_Some (files w !! AdminServer.DATA_FILE))).
  - rewrite ?Hfile.
    destruct (files w !! AdminServer.DATA_FILE) as [f|]; [| discriminate].
    destruct (Json.loads f) as [v|]; [| discriminate].
    injection Hload as ->. reflexivity.
  - injection Hload as <-. reflexivity.
Qed.

Lemma holds_catalog_same_file w w' cards :
  holds_catalog w cards ->
  files w' !! AdminServer.DATA_FILE = files w !! AdminServer.DATA_FILE ->
  holds_catalog w' cards.
Proof. apply load_cards_same_catalog. Qed.

Lemma holds_catalog_written w cards :
  holds_catalog (writing AdminServer.DATA_FILE (Json.dumps (catalog_json cards)) w) cards.
Proof. apply load_cards_after_save, well_formed_catalog. Qed.

(** The publisher of the server returns a text. *)
Lemma admin_upload_text image_bytes filename w url w' :
  AdminServer.upload_to_cloudflare image_bytes filename w = (Return url, w') ->
  exists s, url = JStr s.
Proof.
  unfold AdminServer.upload_to_cloudflare. run.
  repeat next_case; intros Heq; try discriminate; injection Heq as <- _; eauto.
Qed.

(** What [delete_card] does to a catalog that loads. *)
Lemma delete_card_run cards id w :
  holds_catalog w cards ->
  AdminServer.delete_card id w
  = if (Z.of_nat (length (remaining id cards)) =? Z.of_nat (length cards))%Z
    then (Return (jsonify (error_body "Card not found") 404), w)
    else (Return (jsonify [("success", JBool true);
                           ("totalCards", JInt (Z.of_nat (length (remaining id cards))))]
                          200),
          writing AdminServer.DATA_FILE
            (Json.dumps (catalog_json (remaining id cards))) w).
Proof.
  intros Hload.
  unfold AdminServer.delete_card. unfold mbind at 1, M_bind at 1. rewrite Hload.
  run. cbn [catalog_json Py.getitem Py.dict_get String.eqb Ascii.eqb Bool.eqb
              Py.len Py.iter Py.setitem Json.dict_set].
  rewrite without_id_cards. cbn [Py.getitem Py.dict_get String.eqb Ascii.eqb Bool.eqb Py.len].
  rewrite !length_map.
  destruct (Z.of_nat (length (remaining id cards)) =? Z.of_nat (length cards))%Z;
    reflexivity.
Qed.

Lemma delete_card_unlisted cards id w :
  holds_catalog w cards -> listed id cards = false ->
  AdminServer.delete_card id w = (Return (jsonify (error_body "Card not found") 404), w).
Proof.
  intros Hload Hunlisted.
  rewrite (delete_card_run cards id w Hload), remaining_all by exact Hunlisted.
  now rewrite Z.eqb_refl.
Qed.

Lemma delete_card_listed cards id w :
  holds_catalog w cards -> listed id cards = true ->
  AdminServer.delete_card id w
  = (Return (jsonify [("success", JBool true);
                      ("totalCards", JInt (Z.of_nat (length (remaining id cards))))] 200),
     writing AdminServer.DATA_FILE (Json.dumps (catalog_json (remaining id cards))) w).
Proof.
  intros Hload Hlisted. pose proof (remaining_fewer id cards Hlisted) as Hlt.
  rewrite (delete_card_run cards id w Hload).
  destruct (Z.eqb_spec (Z.of_nat (length (remaining id cards)))
                       (Z.of_nat (length cards))) as [Heq | _]; [lia | reflexivity].
Qed.

Lemma listed_remaining id id' cards :
  id' <> id -> listed id' (remaining id cards) = listed id' cards.
Proof.
  intros Hne. induction cards as [|c cards IH]; [reflexivity |].
  cbn [remaining List.filter listed existsb]. fold (remaining id cards).
  fold (listed id' cards). fold (listed id' (remaining id cards)).
  destruct (String.eqb (card_id c) id) eqn:E; cbn [negb].
  - apply String.eqb_eq in E.
    assert (String.eqb (card_id c) id' = false) as ->
      by (apply String.eqb_neq; congruence).
    exact IH.
  - cbn [listed existsb]. fold (listed id' (remaining id cards)). now rewrite IH.
Qed.

Lemma remaining_comm id id' cards :
  remaining id' (remaining id cards) = remaining id (remaining id' cards).
Proof.
  unfold remaining. induction cards as [|c cards IH]; [reflexivity |].
  cbn [List.filter].
  destruct (String.eqb (card_id c) id) eqn:E, (String.eqb (card_id c) id') eqn:E';
    cbn [negb List.filter]; rewrite ?E, ?E'; cbn [negb]; now rewrite IH.
Qed.

(** The state after [delete_card], and the catalog it holds. *)
Lemma delete_card_state cards id w :
  holds_catalog w cards ->
  snd (AdminServer.delete_card id w)
  = (if listed id cards
     then writing AdminServer.DATA_FILE (Json.dumps (catalog_json (remaining id cards))) w
     else w)
  /\ holds_catalog (snd (AdminServer.delete_card id w)) (remaining id cards).
Proof.
  intros Hload. destruct (listed id cards) eqn:Hlisted.
  - rewrite (delete_card_listed cards id w Hload Hlisted). cbn [snd].
    split; [reflexivity | apply holds_catalog_written].
  - rewrite (delete_card_unlisted cards id w Hload Hlisted). cbn [snd].
    split; [reflexivity |]. now rewrite remaining_all.
Qed.

Lemma writing_twice path a b w : writing path a (writing path b w) = writing path a w.
Proof. unfold writing. cbn [env files stdin sent drawn]. now rewrite insert_insert_eq. Qed.

(** X13.  Deleting is final: after a request to delete an identifier,
    whether it was listed or not, the list the server gives has no record of
    that identifier and is the old list without them; a second request for
    the same identifier is answered 404 and changes nothing; and two
    deletions leave the same state in either order. *)
Theorem deleted_card_stays_deleted (cards : list card) (id : string) (w : world) :
  holds_catalog w cards ->
  let w1 := snd (AdminServer.delete_card id w) in
  AdminServer.get_cards w1 = (Return (catalog_json (remaining id cards), 200%Z), w1)
  /\ listed id (remaining id cards) = false
  /\ AdminServer.delete_card id w1
     = (Return (jsonify (error_body "Card not found") 404), w1)
  /\ (forall id',
        snd (AdminServer.delete_card id' w1)
        = snd (AdminServer.delete_card id (snd (AdminServer.delete_card id' w)))).
Proof.
  intros Hload w1.
  destruct (delete_card_state cards id w Hload) as [Hstate Hheld]. fold w1 in Hstate, Hheld.
  split; [| split; [| split]].
  - unfold AdminServer.get_cards. unfold mbind, M_bind. rewrite Hheld. reflexivity.
  - apply remaining_unlisted.
  - apply (delete_card_unlisted (remaining id cards) id w1 Hheld), remaining_unlisted.
  - intros id'.
    destruct (delete_card_state cards id' w Hload) as [Hstate' Hheld'].
    destruct (delete_card_state (remaining id cards) id' w1 Hheld) as [Hfirst _].
    destruct (delete_card_state (remaining id' cards) id _ Hheld') as [Hsecond _].
    rewrite Hfirst, Hsecond, Hstate', Hstate.
    destruct (String.eqb_spec id' id) as [-> | Hne].
    + rewrite remaining_unlisted. destruct (listed id cards); reflexivity.
    + rewrite (listed_remaining id id' cards Hne).
      rewrite (listed_remaining id' id cards) by congruence.
      destruct (listed id cards) eqn:Hid, (listed id' cards) eqn:Hid';
        rewrite ?writing_twice, ?(remaining_all id' cards Hid'),
          ?(remaining_all id cards Hid);
        first [reflexivity | now rewrite (remaining_comm id id' cards)].
Qed.

End CatalogInvariant.

(** The example: the king is deleted from a catalog of three cards. *)

Lemma deleted_card_stays_deleted_witness :
  let w := demo_world (catalog_on_disk three_cards) [] in
  let w1 := snd (@AdminServer.delete_card offline "face-king-4e5f6a7b" w) in
  @AdminServer.get_cards offline w1
  = (Return (catalog_json (remaining "face-king-4e5f6a7b" three_cards), 200%Z), w1)
  /\ @AdminServer.delete_card offline "face-king-4e5f6a7b" w1
     = (Return (jsonify (error_body "Card not found") 404), w1).
Proof.
  intros w w1.
  assert (Hload : @holds_catalog offline w three_cards) by (vm_compute; reflexivity).
  pose proof (@deleted_card_stays_deleted offline three_cards "face-king-4e5f6a7b" w Hload)
    as (Hget & _ & Hagain & _).
  split; [exact Hget | exact Hagain].
Defined.

(** ** The catalog stays a catalog *)

Import Text.

Section CatalogPreserved.
Context `{Platform}.
Variable path_suffix : string -> string.
Variable image_size : image -> Z * Z.

(** A temporary upload is not the catalog file. *)
Lemma temp_is_not_catalog name :
  path_join AdminServer.UPLOADS_DIR ("temp_" +:+ name) <> AdminServer.DATA_FILE.
Proof.
  unfold AdminServer.UPLOADS_DIR, AdminServer.DATA_FILE.
  cbn [path_join String.append]. rewrite !app_assoc_s.
  intros Heq. apply app_inv_head_s in Heq. cbn [String.append] in Heq. discriminate.
Qed.

Lemma face_card_catalog request_files request_form w cards :
  holds_catalog w cards ->
  forall w', w' = snd (AdminServer.process_face_card request_files request_form w) ->
  holds_catalog w' cards
  \/ exists c, card_type c = "face" /\ holds_catalog w' (cards ++ [c]).
Proof.
  intros Hload w'. unfold AdminServer.process_face_card.
  destruct (Py.dict_get "image" request_files) as [file|];
    [| intros ->; left; exact Hload].
  destruct (Py.dict_get "word" request_form) as [word|];
    [| intros ->; left; exact Hload].
  destruct (String.eqb (filename file) ""); [intros ->; left; exact Hload |].
  unfold try_except. unfold mbind at 1, M_bind at 1.
  rewrite admin_generate_card_id. cbn [String.eqb Ascii.eqb Bool.eqb].
  unfold mbind at 1, M_bind at 1.
  pose proof (admin_upload_frame (content file)
                (("face-" +:+ lower (upper word) +:+ "-" +:+ fragment w) +:+ ".png") (drew w))
    as (_ & Hfiles & _).
  destruct (AdminServer.upload_to_cloudflare (content file)
              (("face-" +:+ lower (upper word) +:+ "-" +:+ fragment w) +:+ ".png") (drew w))
    as [[url | e | n] w1] eqn:Hupload; cbn [snd] in Hfiles.
  - destruct (admin_upload_text _ _ _ _ _ Hupload) as [s ->].
    assert (Hload1 : holds_catalog w1 cards)
      by (apply (holds_catalog_same_file w); [exact Hload | now rewrite Hfiles]).
    unfold mbind at 1, M_bind at 1. unfold holds_catalog in Hload1. rewrite Hload1.
    unfold mbind at 1, M_bind at 1. unfold lift at 1.
    change (JObj [("id", JStr ("face-" +:+ lower (upper word) +:+ "-" +:+ fragment w));
                  ("word", JStr (upper word)); ("imageUrl", JStr s);
                  ("type", JStr "face")])
      with (card_json (Card ("face-" +:+ lower (upper word) +:+ "-" +:+ fragment w)
                         (upper word) s "face")).
    rewrite append_at_catalog.
    unfold mbind at 1, M_bind at 1. rewrite save_cards_writes.
    run. cbn [catalog_json Py.getitem Py.dict_get String.eqb Ascii.eqb Bool.eqb Py.len].
    cbn [snd]. intros ->. right. eexists. split; [| apply holds_catalog_written].
    reflexivity.
  - intros ->. left. apply (holds_catalog_same_file w); [exact Hload |].
    change (files w1 !! AdminServer.DATA_FILE = files w !! AdminServer.DATA_FILE).
    now rewrite Hfiles.
  - intros ->. left. apply (holds_catalog_same_file w); [exact Hload |].
    change (files w1 !! AdminServer.DATA_FILE = files w !! AdminServer.DATA_FILE).
    now rewrite Hfiles.
Qed.

Lemma confirm_catalog data w cards :
  holds_catalog w cards ->
  forall w', w' = snd (AdminServer.confirm_number_card data w) ->
  holds_catalog w' cards
  \/ exists c, card_type c = "number" /\ holds_catalog w' (cards ++ [c]).
Proof.
  intros Hload w'. unfold AdminServer.confirm_number_card.
  unfold mbind at 1, M_bind at 1. unfold lift at 1.
  destruct (Py.contains_key data "word") as [[|] | e | n]; cbn [negb];
    try (intros ->; left; exact Hload).
  unfold mbind at 1, M_bind at 1. unfold lift at 1.
  destruct (v ← Py.getitem data "word"; Py.upper_of v) as [word | e | n];
    try (intros ->; left; exact Hload).
  unfold mbind at 1, M_bind at 1. unfold path_exists at 1.
  fold (preview_of word).
  destruct (files w !! preview_of word) as [preview|] eqn:Hpreview.
  2:{ rewrite bool_decide_eq_false_2 by (intros [? ?]; discriminate).
      intros ->; left; exact Hload. }
  rewrite bool_decide_eq_true_2 by eauto. cbn [negb].
  unfold try_except. unfold mbind at 1, M_bind at 1. unfold read_file at 1.
  rewrite Hpreview.
  unfold mbind at 1, M_bind at 1.
  rewrite admin_generate_card_id. cbn [String.eqb Ascii.eqb Bool.eqb].
  unfold mbind at 1, M_bind at 1.
  pose proof (admin_upload_frame preview
                (("" +:+ lower word +:+ "-" +:+ fragment w) +:+ ".png") (drew w))
    as (_ & Hfiles & _).
  destruct (AdminServer.upload_to_cloudflare preview
              (("" +:+ lower word +:+ "-" +:+ fragment w) +:+ ".png") (drew w))
    as [[url | e | n] w1] eqn:Hupload; cbn [snd] in Hfiles.
  - destruct (admin_upload_text _ _ _ _ _ Hupload) as [s ->].
    assert (Hload1 : holds_catalog w1 cards)
      by (apply (holds_catalog_same_file w); [exact Hload | now rewrite Hfiles]).
    unfold mbind at 1, M_bind at 1. unfold holds_catalog in Hload1. rewrite Hload1.
    unfold mbind at 1, M_bind at 1. unfold lift at 1.
    change (JObj [("id", JStr ("" +:+ lower word +:+ "-" +:+ fragment w));
                  ("word", JStr word); ("imageUrl", JStr s);
                  ("type", JStr "number")])
      with (card_json (Card ("" +:+ lower word +:+ "-" +:+ fragment w) word s "number")).
    rewrite append_at_catalog.
    unfold mbind at 1, M_bind at 1. rewrite save_cards_writes.
    run_all. cbn [catalog_json Py.getitem Py.dict_get String.eqb Ascii.eqb Bool.eqb Py.len].
    cbn [snd]. intros ->. right.
    exists (Card ("" +:+ lower word +:+ "-" +:+ fragment w) word s "number").
    split; [reflexivity |].
    eapply holds_catalog_same_file; [apply holds_catalog_written |].
    cbn [files writing]. apply lookup_delete_ne, preview_of_not_catalog.
  - intros ->. left. apply (holds_catalog_same_file w); [exact Hload |].
    change (files w1 !! AdminServer.DATA_FILE = files w !! AdminServer.DATA_FILE).
    now rewrite Hfiles.
  - intros ->. left. apply (holds_catalog_same_file w); [exact Hload |].
    change (files w1 !! AdminServer.DATA_FILE = files w !! AdminServer.DATA_FILE).
    now rewrite Hfiles.
Qed.

Lemma process_keeps_catalog_file data w :
  files (snd (AdminServer.process_number_card data w)) !! AdminServer.DATA_FILE
  = files w !! AdminServer.DATA_FILE.
Proof.
  unfold AdminServer.process_number_card. run.
  repeat next_case; cbn [snd files]; try reflexivity;
    apply lookup_insert_ne, (preview_is_not_catalog _).
Qed.

Lemma upload_temp_keeps_catalog_file request_files w :
  files (snd (AdminServer.upload_temp path_suffix image_size request_files w))
    !! AdminServer.DATA_FILE
  = files w !! AdminServer.DATA_FILE.
Proof.
  unfold AdminServer.upload_temp.
  destruct (Py.dict_get "image" request_files) as [file|]; [| reflexivity].
  destruct (String.eqb (filename file) ""); [reflexivity |].
  run. cbn [files drawn env stdin sent].
  repeat next_case; cbn [snd files];
    apply lookup_insert_ne, temp_is_not_catalog.
Qed.

(** X14.  A catalog file that reads as a catalog still does after any
    request to the server, whatever the request holds and however the image
    library and the service behave: the face-card and the confirm endpoints
    leave the catalog as it was or add one record at its end, of type [face]
    and [number]; the delete endpoint leaves the records with another
    identifier; the process, upload and list endpoints leave it as it was. *)
Theorem catalog_stays_readable (cards : list card) (w : world) :
  holds_catalog w cards ->
  (forall request_files request_form,
     let w' := snd (AdminServer.process_face_card request_files request_form w) in
     holds_catalog w' cards
     \/ exists c, card_type c = "face" /\ holds_catalog w' (cards ++ [c]))
  /\ (forall data,
        let w' := snd (AdminServer.confirm_number_card data w) in
        holds_catalog w' cards
        \/ exists c, card_type c = "number" /\ holds_catalog w' (cards ++ [c]))
  /\ (forall id,
        holds_catalog (snd (AdminServer.delete_card id w)) (remaining id cards))
  /\ (forall data,
        holds_catalog (snd (AdminServer.process_number_card data w)) cards)
  /\ (forall request_files,
        holds_catalog
          (snd (AdminServer.upload_temp path_suffix image_size request_files w)) cards)
  /\ holds_catalog (snd (AdminServer.get_cards w)) cards.
Proof.
  intros Hload.
  split; [intros; now apply (face_card_catalog request_files request_form w) |].
  split; [intros; now apply (confirm_catalog data w) |].
  split; [intros id; apply (delete_card_state cards id w Hload) |].
  split; [intros data; apply (holds_catalog_same_file w _ _ Hload),
                         process_keeps_catalog_file |].
  split; [intros request_files; apply (holds_catalog_same_file w _ _ Hload),
                                  upload_temp_keeps_catalog_file |].
  unfold AdminServer.get_cards. unfold mbind, M_bind.
  unfold holds_catalog in Hload. rewrite Hload. exact Hload.
Qed.

End CatalogPreserved.

(** The example: a catalog of three cards, and a service that is not reached. *)

Lemma catalog_stays_readable_witness :
  let w := demo_world (catalog_on_disk three_cards) [] in
  @holds_catalog offline
    (snd (@AdminServer.process_number_card offline (JObj bad_crop_request) w)) three_cards
  /\ @holds_catalog offline
       (snd (@AdminServer.delete_card offline "cat-8c9d0e1f" w))
       (remaining "cat-8c9d0e1f" three_cards).
Proof.
  intros w.
  assert (Hload : @holds_catalog offline w three_cards) by (vm_compute; reflexivity).
  pose proof (@catalog_stays_readable offline (fun _ => ".png") (fun _ => (1, 1)%Z)
                three_cards w Hload) as (_ & _ & Hdelete & Hprocess & _).
  split; [apply Hprocess | apply Hdelete].
Defined.

(** ** The two scripts from the command line to the catalog *)

Import Text.

(** The face-card script up to the prompt, answered [yes]. *)
Ltac face_to_prompt Hfile Hopen Hin Hyes :=
  unfold ProcessFaceCard.main;
  cbn [length Nat.ltb Nat.leb nth];
  unfold mbind at 1, M_bind at 1; unfold path_exists at 1;
  rewrite bool_decide_eq_true_2 by (rewrite Hfile; eauto); cbn [negb];
  unfold mbind at 1, M_bind at 1; unfold image_open_path at 1;
  unfold mbind at 1, M_bind at 1; unfold read_file at 1; rewrite Hfile;
  unfold lift at 1; rewrite Hopen;
  unfold mbind at 1, M_bind at 1; unfold input at 1; rewrite Hin;
  rewrite Hyes; cbn [String.eqb Ascii.eqb Bool.eqb negb].

(** The number-card script up to the prompt, answered [yes]. *)
Ltac number_to_prompt Hx Hy Hwidth Hheight Hfile Hcrop Hremove Hpng Hin Hyes :=
  unfold ProcessNumberCard.main, ProcessNumberCard.int_arg;
  cbn [length Nat.ltb Nat.leb nth];
  unfold mbind at 1, M_bind at 1; unfold lift at 1; rewrite Hx;
  unfold mbind at 1, M_bind at 1; unfold lift at 1; rewrite Hy;
  unfold mbind at 1, M_bind at 1; unfold lift at 1; rewrite Hwidth;
  unfold mbind at 1, M_bind at 1; unfold lift at 1; rewrite Hheight;
  unfold mbind at 1, M_bind at 1; unfold path_exists at 1;
  rewrite bool_decide_eq_true_2 by (rewrite Hfile; eauto); cbn [negb];
  unfold mbind at 1, M_bind at 1; rewrite Hcrop;
  unfold mbind at 1, M_bind at 1; rewrite Hremove;
  unfold mbind at 1, M_bind at 1; unfold image_save_path at 1;
  unfold mbind at 1, M_bind at 1; unfold lift at 1; rewrite Hpng;
  unfold write_file at 1;
  unfold mbind at 1, M_bind at 1; unfold input at 1; cbn [stdin]; rewrite Hin;
  rewrite Hyes; cbn [String.eqb Ascii.eqb Bool.eqb negb].

Section Scripts.
Context `{Platform}.

(** The two steps of the number-card script before the preview. *)
Lemma crop_then_remove image_path file x y width height processed w :
  files w !! image_path = Some file ->
  processed_image file x y width height = Return processed ->
  exists cropped,
    ProcessNumberCard.crop_image image_path x y width height w = (Return cropped, w)
    /\ ProcessNumberCard.remove_background cropped w = (Return processed, w).
Proof.
  intros Hfile. unfold processed_image, ProcessNumberCard.crop_image,
    ProcessNumberCard.remove_background. run. rewrite Hfile.
  destruct (Image_open file) as [img | e | n]; try discriminate.
  destruct (String.eqb (image_mode img) "RGB" || String.eqb (image_mode img) "RGBA").
  - destruct (image_crop img _) as [cropped | e | n]; try discriminate.
    intros Hremove. exists cropped. now rewrite Hremove.
  - destruct (image_convert img "RGBA") as [img' | e | n]; try discriminate.
    destruct (image_crop img' _) as [cropped | e | n]; try discriminate.
    intros Hremove. exists cropped. now rewrite Hremove.
Qed.

Lemma face_upload_result w image_path filename account_id api_token file r result
    image_id variants :
  configured w account_id api_token ->
  files w !! image_path = Some file ->
  requests_post (sent w) (upload_request account_id api_token filename file) = Return r ->
  successful_upload r result ->
  Py.dict_get "id" result = Some image_id ->
  Py.dict_get "variants" result = Some (JArr variants) ->
  ProcessFaceCard.upload_to_cloudflare image_path filename w
  = (Return (script_url account_id image_id variants),
     sending (upload_request account_id api_token filename file) w).
Proof.
  intros Hconf Hfile Hpost Hok Hid Hvariants.
  pose proof (gate_passed _ _ _ Hconf) as Hgate.
  destruct (successful_body _ _ Hok) as (Hstatus & members & success & Hbody & Hs & Ht & Hr).
  destruct Hconf as (Ha & _ & Hk & _).
  unfold ProcessFaceCard.upload_to_cloudflare. run. rewrite Hgate.
  rewrite Ha, Hk, Hfile. cbn [default from_option id]. unfold upload_request in Hpost.
  rewrite Hpost, Hstatus, Hbody, Hs, Ht. cbn [negb].
  rewrite Hr. cbn [Py.getitem]. rewrite Hid, Hvariants.
  destruct variants; reflexivity.
Qed.

Lemma number_upload_result w img filename account_id api_token png r result
    image_id variants :
  configured w account_id api_token ->
  image_save_png img = Return png ->
  requests_post (sent w) (upload_request account_id api_token filename png) = Return r ->
  successful_upload r result ->
  Py.dict_get "id" result = Some image_id ->
  Py.dict_get "variants" result = Some (JArr variants) ->
  ProcessNumberCard.upload_to_cloudflare img filename w
  = (Return (script_url account_id image_id variants),
     sending (upload_request account_id api_token filename png) w).
Proof.
  intros Hconf Hpng Hpost Hok Hid Hvariants.
  pose proof (gate_passed _ _ _ Hconf) as Hgate.
  destruct (successful_body _ _ Hok) as (Hstatus & members & success & Hbody & Hs & Ht & Hr).
  destruct Hconf as (Ha & _ & Hk & _).
  unfold ProcessNumberCard.upload_to_cloudflare. run. rewrite Hgate.
  rewrite Ha, Hk, Hpng. cbn [default from_option id]. unfold upload_request in Hpost.
  rewrite Hpost, Hstatus, Hbody, Hs, Ht. cbn [negb].
  rewrite Hr. cbn [Py.getitem]. rewrite Hid, Hvariants.
  destruct variants; reflexivity.
Qed.

(** X15.  A run of the face-card script on an image that exists and opens,
    answered [yes] at the prompt in any letter case and with spaces around,
    with a service that accepts the upload and a catalog file that is there
    and reads as a catalog: the bytes of the file go out as
    they are under the name of the new identifier; the run ends normally;
    the catalog gains one record of type [face], whose word is the argument
    in upper case, whose identifier is made of the stored word in lower case
    and whose URL is the one the script keeps, the first variant or the
    public URL.  The word is one whose upper case is made of code points up
    to 255. *)
Theorem face_script_published (prog image_path word : string) (more : list string)
    (w : world) (file : string) (img : image) (answer : string) (rest : list string)
    (account_id api_token : string) (r : response) (result : list (string * json))
    (image_id : json) (variants : list json) (url : string) (text : string)
    (cards : list card) :
  files w !! image_path = Some file ->
  Image_open file = Return img ->
  stdin w = answer :: rest ->
  lower (strip answer) = "yes" ->
  capitals_fit word = true ->
  configured w account_id api_token ->
  let id := "face-" +:+ lower (upper word) +:+ "-" +:+ fragment w in
  let req := upload_request account_id api_token (id +:+ ".png") file in
  requests_post (sent w) req = Return r ->
  successful_upload r result ->
  Py.dict_get "id" result = Some image_id ->
  Py.dict_get "variants" result = Some (JArr variants) ->
  script_url account_id image_id variants = JStr url ->
  files w !! ProcessFaceCard.DATA_FILE = Some text ->
  holds_catalog w cards ->
  ProcessFaceCard.main (prog :: image_path :: word :: more) w
  = (Return tt,
     writing ProcessFaceCard.DATA_FILE
       (Json.dumps (catalog_json (cards ++ [Card id (upper word) url "face"])))
       (sending req (drew (reading rest w)))).
Proof.
  intros Hfile Hopen Hin Hyes _ Hconf id req Hpost Hok Hid Hvariants Hurl _ Hload.
  face_to_prompt Hfile Hopen Hin Hyes.
  fold (reading rest w).
  unfold mbind at 1, M_bind at 1. rewrite face_generate_card_id.
  change (fragment (reading rest w)) with (fragment w). fold id.
  unfold mbind at 1, M_bind at 1.
  rewrite (face_upload_result (drew (reading rest w)) image_path (id +:+ ".png")
             account_id api_token file r result image_id variants
             Hconf Hfile Hpost Hok Hid Hvariants).
  rewrite Hurl.
  unfold mbind at 1, M_bind at 1. rewrite face_load_cards.
  rewrite (load_cards_same_files w _ (catalog_json cards) Hload) by reflexivity.
  unfold mbind at 1, M_bind at 1. unfold lift at 1.
  change (JObj [("id", JStr id); ("word", JStr (upper word));
                ("imageUrl", JStr url); ("type", JStr "face")])
    with (card_json (Card id (upper word) url "face")).
  rewrite append_at_catalog.
  unfold mbind at 1, M_bind at 1. rewrite face_save_cards, save_cards_writes.
  run. cbn [catalog_json Py.getitem Py.dict_get String.eqb Ascii.eqb Bool.eqb Py.len].
  reflexivity.
Qed.

(** X16.  A run of the number-card script with four crop arguments that
    [int] converts, on an image that exists, opens, crops and clears,
    answered [yes], with a service that accepts the upload and a catalog
    file that is there and reads as a catalog: the preview is written
    first, under the name of the upper-cased word in lower case, and
    is still there at the end; what goes out is the PNG of the processed
    image, the same bytes as the preview; the run ends normally and the
    catalog gains one record of type [number], whose word is the argument in
    upper case.  The word is one whose upper case is made of code points up
    to 255, and the name of its preview is a file name. *)
Theorem number_script_published (prog image_path word sx sy sw sh : string)
    (more : list string) (w : world) (file : string) (x y width height : Z)
    (processed : image) (png answer : string) (rest : list string)
    (account_id api_token : string) (r : response) (result : list (string * json))
    (image_id : json) (variants : list json) (url : string) (text : string)
    (cards : list card) :
  Py.int (JStr sx) = Return x -> Py.int (JStr sy) = Return y ->
  Py.int (JStr sw) = Return width -> Py.int (JStr sh) = Return height ->
  files w !! image_path = Some file ->
  processed_image file x y width height = Return processed ->
  image_save_png processed = Return png ->
  stdin w = answer :: rest ->
  lower (strip answer) = "yes" ->
  capitals_fit word = true ->
  is_file_name (lower (upper word)) = true ->
  configured w account_id api_token ->
  let id := lower (upper word) +:+ "-" +:+ fragment w in
  let req := upload_request account_id api_token (id +:+ ".png") png in
  requests_post (sent w) req = Return r ->
  successful_upload r result ->
  Py.dict_get "id" result = Some image_id ->
  Py.dict_get "variants" result = Some (JArr variants) ->
  script_url account_id image_id variants = JStr url ->
  files w !! ProcessNumberCard.DATA_FILE = Some text ->
  holds_catalog w cards ->
  let w' :=
    writing ProcessNumberCard.DATA_FILE
      (Json.dumps (catalog_json (cards ++ [Card id (upper word) url "number"])))
      (sending req (drew (reading rest (writing (preview_of (upper word)) png w)))) in
  ProcessNumberCard.main (prog :: image_path :: word :: sx :: sy :: sw :: sh :: more) w
  = (Return tt, w')
  /\ files w' !! preview_of (upper word) = Some png.
Proof.
  intros Hx Hy Hwidth Hheight Hfile Hprocessed Hpng Hin Hyes _ _ Hconf id req Hpost Hok
    Hid Hvariants Hurl _ Hload w'.
  destruct (crop_then_remove image_path file x y width height processed w Hfile Hprocessed)
    as (cropped & Hcrop & Hremove).
  split.
  - number_to_prompt Hx Hy Hwidth Hheight Hfile Hcrop Hremove Hpng Hin Hyes.
    change (path_join ProcessNumberCard.PROCESSED_DIR
              (lower (upper word) +:+ "_preview.png"))
      with (preview_of (upper word)).
    unfold mbind at 1, M_bind at 1.
    match goal with
    | |- context [ProcessNumberCard.generate_card_id _ ?s] =>
        change s with (reading rest (writing (preview_of (upper word)) png w))
    end.
    rewrite number_generate_card_id.
    change (fragment _) with (fragment w). fold id.
    unfold mbind at 1, M_bind at 1.
    rewrite (number_upload_result
               (drew (reading rest (writing (preview_of (upper word)) png w)))
               processed (id +:+ ".png")
               account_id api_token png r result image_id variants
               Hconf Hpng Hpost Hok Hid Hvariants).
    rewrite Hurl.
    unfold mbind at 1, M_bind at 1. rewrite number_load_cards.
    rewrite (load_cards_same_catalog w _ (catalog_json cards) Hload)
      by (cbn [files sending drew reading writing];
          apply lookup_insert_ne, preview_of_not_catalog).
    unfold mbind at 1, M_bind at 1. unfold lift at 1.
    change (JObj [("id", JStr id); ("word", JStr (upper word));
                  ("imageUrl", JStr url); ("type", JStr "number")])
      with (card_json (Card id (upper word) url "number")).
    rewrite append_at_catalog.
    unfold mbind at 1, M_bind at 1. rewrite number_save_cards, save_cards_writes.
    run. cbn [catalog_json Py.getitem Py.dict_get String.eqb Ascii.eqb Bool.eqb Py.len].
    reflexivity.
  - subst w'. cbn [files writing sending drew reading].
    rewrite lookup_insert_ne by (intros Heq; symmetry in Heq;
                                 exact (preview_of_not_catalog (upper word) Heq)).
    apply lookup_insert_eq.
Qed.

(** [int] applied to text returns an integer or raises [ValueError]. *)
Lemma int_of_text_cases s :
  (exists n, Py.int_of_text s = Return n)
  \/ (exists message, Py.int_of_text s = Raise (Exn "ValueError" message)).
Proof.
  unfold Py.int_of_text.
  destruct (match Py.int_rstrip (Py.int_lstrip s) with
            | String "-" r => (true, r)
            | String "+" r => (false, r)
            | _ => (false, Py.int_rstrip (Py.int_lstrip s))
            end) as [negative body].
  destruct (Py.literal_run body) as [run rest].
  destruct (Py.digits_value 0 false run); [| eauto].
  destruct (_ && _); [eauto |].
  destruct rest; eauto.
Qed.

(** X17.  What the scripts do with a command line they cannot use: too few
    arguments end the run with exit status 1; and the number-card script
    converts its four crop arguments before it looks at any file, so an
    argument that [int] refuses ends the run with [ValueError], whatever the
    image path names.  In these cases the state is untouched. *)
Theorem script_usage_errors (argv : list string) (w : world) :
  (length argv < 3 -> ProcessFaceCard.main argv w = (Exit 1, w))
  /\ (length argv < 7 -> ProcessNumberCard.main argv w = (Exit 1, w))
  /\ (7 <= length argv ->
      (exists i e, 3 <= i <= 6 /\ Py.int (JStr (nth i argv "")) = Raise e) ->
      exists message,
        ProcessNumberCard.main argv w = (Raise (Exn "ValueError" message), w)).
Proof.
  split; [| split].
  - intros Hshort. unfold ProcessFaceCard.main.
    now rewrite (proj2 (Nat.ltb_lt _ _) Hshort).
  - intros Hshort. unfold ProcessNumberCard.main.
    now rewrite (proj2 (Nat.ltb_lt _ _) Hshort).
  - intros Hlong (i & e & Hi & Hbad).
    unfold ProcessNumberCard.main, ProcessNumberCard.int_arg.
    rewrite (proj2 (Nat.ltb_ge _ _) Hlong). run. cbn [Py.int] in *.
    destruct (int_of_text_cases (nth 3 argv "")) as [[n3 E3] | [m E3]]; rewrite E3;
      [| eexists; reflexivity].
    destruct (int_of_text_cases (nth 4 argv "")) as [[n4 E4] | [m E4]]; rewrite E4;
      [| eexists; reflexivity].
    destruct (int_of_text_cases (nth 5 argv "")) as [[n5 E5] | [m E5]]; rewrite E5;
      [| eexists; reflexivity].
    destruct (int_of_text_cases (nth 6 argv "")) as [[n6 E6] | [m E6]]; rewrite E6;
      [| eexists; reflexivity].
    assert (i = 3 \/ i = 4 \/ i = 5 \/ i = 6) as [-> | [-> | [-> | ->]]] by lia;
      congruence.
Qed.

End Scripts.

(** The examples: both scripts are run on a photograph and answered
    [ YES ]; and both are run on command lines they cannot use, the last with
    a crop argument that begins with the unit separator, which [strip]
    removes and [int] refuses. *)

Lemma face_script_published_witness :
  let P := demo_platform (Return (upload_answer "abc" [JStr "https://img.example/abc/public"])) 0 in
  let w := demo_world (<["street.png" := "bytes"]> (catalog_on_disk three_cards)) [" YES "] in
  @ProcessFaceCard.main P ["process-face-card.py"; "street.png"; strasse] w
  = (Return tt,
     writing (@ProcessFaceCard.DATA_FILE P)
       (Json.dumps (catalog_json
          (three_cards ++ [Card "face-strasse-00000000" "STRASSE"
                             "https://img.example/abc/public" "face"])))
       (sending (upload_request "acct" "token" "face-strasse-00000000.png" "bytes")
          (drew (reading [] w)))).
Proof.
  intros P w.
  apply (@face_script_published P "process-face-card.py" "street.png" strasse [] w
           "bytes" tt " YES " [] "acct" "token"
           (upload_answer "abc" [JStr "https://img.example/abc/public"])
           [("id", JStr "abc"); ("variants", JArr [JStr "https://img.example/abc/public"])]
           (JStr "abc") [JStr "https://img.example/abc/public"]
           "https://img.example/abc/public"
           (Json.dumps (catalog_json three_cards)) three_cards).
  - reflexivity.
  - reflexivity.
  - reflexivity.
  - reflexivity.
  - reflexivity.
  - apply demo_configured.
  - reflexivity.
  - apply demo_successful.
  - reflexivity.
  - reflexivity.
  - reflexivity.
  - reflexivity.
  - vm_compute. reflexivity.
Defined.

Lemma number_script_published_witness :
  let P := demo_platform (Return (upload_answer "abc" [])) 0 in
  let w := demo_world (<["dog.jpg" := "JPEG"]> (catalog_on_disk three_cards)) ["yes"] in
  let w' :=
    writing (@ProcessNumberCard.DATA_FILE P)
      (Json.dumps (catalog_json
         (three_cards ++ [Card "dog-00000000" "DOG"
                            "https://imagedelivery.net/acct/abc/public" "number"])))
      (sending (upload_request "acct" "token" "dog-00000000.png" "PNG")
         (drew (reading [] (writing (@preview_of P "dog") "PNG" w)))) in
  @ProcessNumberCard.main P
    ["process-number-card.py"; "dog.jpg"; "Dog"; " 100"; "+50"; "2_50"; "350"] w
  = (Return tt, w')
  /\ files w' !! @preview_of P "dog" = Some "PNG".
Proof.
  intros P w w'.
  apply (@number_script_published P "process-number-card.py" "dog.jpg" "Dog"
           " 100" "+50" "2_50" "350" [] w "JPEG" 100 50 250 350 tt "PNG" "yes" []
           "acct" "token" (upload_answer "abc" [])
           [("id", JStr "abc"); ("variants", JArr [])] (JStr "abc") []
           "https://imagedelivery.net/acct/abc/public"
           (Json.dumps (catalog_json three_cards)) three_cards).
  - reflexivity.
  - reflexivity.
  - reflexivity.
  - reflexivity.
  - reflexivity.
  - reflexivity.
  - reflexivity.
  - reflexivity.
  - reflexivity.
  - reflexivity.
  - reflexivity.
  - apply demo_configured.
  - reflexivity.
  - apply demo_successful.
  - reflexivity.
  - reflexivity.
  - reflexivity.
  - reflexivity.
  - vm_compute. reflexivity.
Defined.

Lemma script_usage_errors_witness :
  let w := demo_world (catalog_on_disk three_cards) [] in
  @ProcessFaceCard.main offline ["process-face-card.py"; "queen.png"] w = (Exit 1, w)
  /\ @ProcessNumberCard.main offline ["process-number-card.py"; "dog.jpg"; "Dog"; "100"] w
     = (Exit 1, w)
  /\ (exists message,
        @ProcessNumberCard.main offline
          ["process-number-card.py"; "dog.jpg"; "Dog"; "100"; String "031" "5"; "250"; "350"]
          w
        = (Raise (Exn "ValueError" message), w)).
Proof.
  intros w. split; [| split].
  - apply (proj1 (@script_usage_errors offline ["process-face-card.py"; "queen.png"] w)).
    cbn [length]. lia.
  - apply (proj1 (proj2 (@script_usage_errors offline
                           ["process-number-card.py"; "dog.jpg"; "Dog"; "100"] w))).
    cbn [length]. lia.
  - apply (proj2 (proj2 (@script_usage_errors offline
             ["process-number-card.py"; "dog.jpg"; "Dog"; "100"; String "031" "5"; "250";
              "350"] w))).
    + cbn [length]. lia.
    + exists 4. eexists. split; [lia | reflexivity].
Defined.

(** ** The scripts write the catalog last *)

Import Text.

Section FileRules.
Context `{Platform}.
Variable path : string.

Lemma preserves_bind {A B} (m : M A) (f : A -> M B) :
  preserves_file path m -> (forall a, preserves_file path (f a)) ->
  preserves_file path (m ≫= f).
Proof.
  intros Hm Hf w. unfold mbind, M_bind. specialize (Hm w).
  destruct (m w) as [[a | e | n] w1]; cbn [snd] in *; [| exact Hm | exact Hm].
  rewrite (Hf a w1). exact Hm.
Qed.

Lemma commits_bind {A B} (m : M A) (f : A -> M B) :
  preserves_file path m -> (forall a, commits_file path (f a)) ->
  commits_file path (m ≫= f).
Proof.
  intros Hm Hf w. unfold mbind, M_bind. specialize (Hm w).
  destruct (m w) as [[a | e | n] w1]; cbn [snd fst] in *; intros Hnot;
    [| exact Hm | exact Hm].
  rewrite (Hf a w1 Hnot). exact Hm.
Qed.

Lemma preserves_commits {A} (m : M A) : preserves_file path m -> commits_file path m.
Proof. intros Hm w _. apply Hm. Qed.

Lemma preserves_lift {A} (o : outcome A) : preserves_file path (lift o).
Proof. intros w. reflexivity. Qed.

Lemma preserves_sys_exit {A} n : preserves_file path (@sys_exit A n).
Proof. intros w. reflexivity. Qed.

Lemma preserves_path_exists p : preserves_file path (path_exists p).
Proof. intros w. reflexivity. Qed.

Lemma preserves_read_file p : preserves_file path (read_file p).
Proof. intros w. unfold read_file. now destruct (files w !! p). Qed.

Lemma preserves_input : preserves_file path input.
Proof. intros w. unfold input. now destruct (stdin w). Qed.

Lemma preserves_write_file p content :
  p <> path -> preserves_file path (write_file p content).
Proof. intros Hne w. cbn [write_file snd files]. now apply lookup_insert_ne. Qed.

Lemma preserves_image_open p : preserves_file path (image_open_path p).
Proof.
  apply preserves_bind; [apply preserves_read_file | intros; apply preserves_lift].
Qed.

Lemma preserves_image_save img p :
  p <> path -> preserves_file path (image_save_path img p).
Proof.
  intros Hne. apply preserves_bind; [apply preserves_lift |].
  intros png. now apply preserves_write_file.
Qed.

Lemma preserves_load_cards : preserves_file path AdminServer.load_cards.
Proof.
  intros w. unfold AdminServer.load_cards. run.
  repeat next_case; reflexivity.
Qed.

Lemma preserves_face_upload image_path filename :
  preserves_file path (ProcessFaceCard.upload_to_cloudflare image_path filename).
Proof.
  intros w. destruct (face_upload_frame image_path filename w) as (_ & Hfiles & _).
  now rewrite Hfiles.
Qed.

Lemma preserves_number_upload img filename :
  preserves_file path (ProcessNumberCard.upload_to_cloudflare img filename).
Proof.
  intros w. destruct (number_upload_frame img filename w) as (_ & Hfiles & _).
  now rewrite Hfiles.
Qed.

Lemma preserves_crop_image image_path x y width height :
  preserves_file path (ProcessNumberCard.crop_image image_path x y width height).
Proof.
  unfold ProcessNumberCard.crop_image.
  apply preserves_bind; [apply preserves_image_open | intros img].
  apply preserves_bind; [| intros; apply preserves_lift].
  destruct (_ || _); [intros w; reflexivity | apply preserves_lift].
Qed.

End FileRules.

Section CatalogLast.
Context `{Platform}.

Lemma dict_get_set key value d :
  Py.dict_get key (Json.dict_set key value d) = Some value.
Proof.
  induction d as [|[k v] d IH]; cbn [Json.dict_set Py.dict_get].
  - now rewrite String.eqb_refl.
  - destruct (String.eqb k key) eqn:E; cbn [Py.dict_get]; now rewrite E.
Qed.

(** After [container[key].append(x)], [container[key]] is a list. *)
Lemma append_at_list container key x changed :
  Py.append_at container key x = Return changed ->
  exists l, Py.getitem changed key = Return (JArr l).
Proof.
  unfold Py.append_at, mbind, outcome_bind.
  destruct (Py.getitem container key) as [l | e | n]; try discriminate.
  destruct l; try discriminate. cbn [Py.append].
  destruct container; try discriminate. cbn [Py.setitem].
  intros [= <-]. cbn [Py.getitem]. rewrite dict_get_set. eauto.
Qed.

(** The end of both scripts: the new record is appended, the catalog is
    saved, the total is printed. *)
Lemma commits_publish (cards_data new_card : json) :
  commits_file AdminServer.DATA_FILE
    (cards_data ← lift (Py.append_at cards_data "cards" new_card);
     _ ← AdminServer.save_cards cards_data;
     _ ← lift (cards ← Py.getitem cards_data "cards"; Py.len cards);
     mret tt).
Proof.
  intros w. run.
  destruct (Py.append_at cards_data "cards" new_card) as [changed | e | n] eqn:Happend;
    try reflexivity.
  destruct (append_at_list _ _ _ _ Happend) as [l Hl].
  unfold AdminServer.save_cards. run. rewrite Hl. cbn [Py.len fst].
  intros Hnot. now contradiction (Hnot tt).
Qed.

Lemma face_main_commits argv :
  commits_file ProcessFaceCard.DATA_FILE (ProcessFaceCard.main argv).
Proof.
  unfold ProcessFaceCard.main.
  destruct (length argv <? 3)%nat; [apply preserves_commits, preserves_sys_exit |].
  cbv zeta.
  apply commits_bind; [apply preserves_path_exists | intros there].
  destruct (negb there); [apply preserves_commits, preserves_sys_exit |].
  apply commits_bind; [apply preserves_image_open | intros img].
  apply commits_bind; [apply preserves_input | intros answer].
  destruct (negb _); [apply preserves_commits, preserves_sys_exit |].
  apply commits_bind; [intros w; reflexivity | intros card_id].
  apply commits_bind; [apply preserves_face_upload | intros image_url].
  apply commits_bind; [apply preserves_load_cards | intros cards_data].
  apply commits_publish.
Qed.

Lemma number_main_commits argv :
  commits_file ProcessNumberCard.DATA_FILE (ProcessNumberCard.main argv).
Proof.
  unfold ProcessNumberCard.main.
  destruct (length argv <? 7)%nat; [apply preserves_commits, preserves_sys_exit |].
  cbv zeta. unfold ProcessNumberCard.int_arg.
  apply commits_bind; [apply preserves_lift | intros crop_x].
  apply commits_bind; [apply preserves_lift | intros crop_y].
  apply commits_bind; [apply preserves_lift | intros crop_width].
  apply commits_bind; [apply preserves_lift | intros crop_height].
  apply commits_bind; [apply preserves_path_exists | intros there].
  destruct (negb there); [apply preserves_commits, preserves_sys_exit |].
  apply commits_bind; [apply preserves_crop_image | intros cropped].
  apply commits_bind; [apply preserves_lift | intros processed].
  apply commits_bind;
    [apply preserves_image_save, (preview_is_not_catalog _) | intros _].
  apply commits_bind; [apply preserves_input | intros answer].
  destruct (negb _); [apply preserves_commits, preserves_sys_exit |].
  apply commits_bind; [intros w; reflexivity | intros card_id].
  apply commits_bind; [apply preserves_number_upload | intros image_url].
  apply commits_bind; [apply preserves_load_cards | intros cards_data].
  apply commits_publish.
Qed.

(** X18.  Both scripts write the catalog last: in every run that does not
    end normally, whatever the command line, the files, the answer at the
    prompt, the image library and the service do, the catalog file is as it
    was.  A run that is cancelled, that fails to upload or that cannot read
    the catalog leaves no half-made change to it. *)
Theorem scripts_write_catalog_last (argv : list string) (w : world) :
  ((forall a, fst (ProcessFaceCard.main argv w) <> Return a) ->
   files (snd (ProcessFaceCard.main argv w)) !! ProcessFaceCard.DATA_FILE
   = files w !! ProcessFaceCard.DATA_FILE)
  /\ ((forall a, fst (ProcessNumberCard.main argv w) <> Return a) ->
      files (snd (ProcessNumberCard.main argv w)) !! ProcessNumberCard.DATA_FILE
      = files w !! ProcessNumberCard.DATA_FILE).
Proof.
  split; [apply face_main_commits | apply number_main_commits].
Qed.

End CatalogLast.

(** The example: the service is not reached, and the run ends with the
    exception. *)

Lemma scripts_write_catalog_last_witness :
  let w := demo_world (<["queen.png" := "bytes"]> (catalog_on_disk three_cards)) ["yes"] in
  fst (@ProcessFaceCard.main offline ["process-face-card.py"; "queen.png"; "stella"] w)
  = Raise (Exn "ConnectionError" "unreachable")
  /\ files (snd (@ProcessFaceCard.main offline
                   ["process-face-card.py"; "queen.png"; "stella"] w))
       !! @ProcessFaceCard.DATA_FILE offline
     = Some (Json.dumps (catalog_json three_cards)).
Proof.
  intros w.
  assert (Hrun : fst (@ProcessFaceCard.main offline
                        ["process-face-card.py"; "queen.png"; "stella"] w)
                 = Raise (Exn "ConnectionError" "unreachable"))
    by (vm_compute; reflexivity).
  split; [exact Hrun |].
  rewrite (proj1 (@scripts_write_catalog_last offline
                    ["process-face-card.py"; "queen.png"; "stella"] w)).
  - vm_compute. reflexivity.
  - intros a. rewrite Hrun. discriminate.
Defined.

(** ** The preview of a number card *)

Import Text.

Section ProcessPreview.
Context `{Platform}.

(** X19.  A process-number-card request with its six fields, whose file is
    in the uploads directory and whose crop fields [int] converts (integers,
    or text such as [50] between quotes): the image is opened, converted to
    RGBA unless it is RGB or RGBA, cropped to the box from [(x, y)] to
    [(x + width, y + height)] and cleared of its background.  When that
    succeeds the PNG of the result is written as the preview, under the name
    of the upper-cased word in lower case, and the answer is 200 with the
    same PNG in base 64, the relative path of the preview and the word in
    upper case.  When the image library or the background removal raises,
    the answer is 500 with the message, and no file is written.  The word is
    one whose upper case is made of code points up to 255, and the name of
    its preview is a file name. *)
Theorem process_number_card_preview (members : list (string * json))
    (name word : string) (vx vy vw vh : json) (x y width height : Z)
    (w : world) (file : string) :
  Py.dict_get "filename" members = Some (JStr name) ->
  Py.dict_get "word" members = Some (JStr word) ->
  capitals_fit word = true ->
  is_file_name (lower (upper word)) = true ->
  Py.dict_get "cropX" members = Some vx -> Py.int vx = Return x ->
  Py.dict_get "cropY" members = Some vy -> Py.int vy = Return y ->
  Py.dict_get "cropWidth" members = Some vw -> Py.int vw = Return width ->
  Py.dict_get "cropHeight" members = Some vh -> Py.int vh = Return height ->
  files w !! path_join AdminServer.UPLOADS_DIR name = Some file ->
  (forall processed png,
     processed_image file x y width height = Return processed ->
     image_save_png processed = Return png ->
     AdminServer.process_number_card (JObj members) w
     = (Return (jsonify [("success", JBool true);
                         ("preview", JStr ("data:image/png;base64," +:+ b64encode png));
                         ("previewPath",
                          JStr ("processed/" +:+ lower (upper word) +:+ "_preview.png"));
                         ("word", JStr (upper word))] 200),
        writing (preview_of (upper word)) png w))
  /\ (forall e,
        processed_image file x y width height = Raise e ->
        AdminServer.process_number_card (JObj members) w
        = (Return (jsonify (error_body (exn_str e)) 500), w))
  /\ (forall processed e,
        processed_image file x y width height = Return processed ->
        image_save_png processed = Raise e ->
        AdminServer.process_number_card (JObj members) w
        = (Return (jsonify (error_body (exn_str e)) 500), w)).
Proof.
  intros Hname Hword _ _ Hvx Hx Hvy Hy Hvw Hwidth Hvh Hheight Hfile.
  assert (Hrun : AdminServer.process_number_card (JObj members) w
    = match processed_image file x y width height with
      | Return processed =>
          match image_save_png processed with
          | Return png =>
              (Return (jsonify [("success", JBool true);
                                ("preview",
                                 JStr ("data:image/png;base64," +:+ b64encode png));
                                ("previewPath",
                                 JStr ("processed/" +:+ lower (upper word)
                                       +:+ "_preview.png"));
                                ("word", JStr (upper word))] 200),
               writing (preview_of (upper word)) png w)
          | Raise e => (Return (jsonify (error_body (exn_str e)) 500), w)
          | Exit n => (Exit n, w)
          end
      | Raise e => (Return (jsonify (error_body (exn_str e)) 500), w)
      | Exit n => (Exit n, w)
      end).
  { unfold AdminServer.process_number_card, processed_image.
    unfold mbind at 1, M_bind at 1. unfold lift at 1.
    rewrite first_missing_none
      by (unfold AdminServer.required; repeat constructor;
          rewrite ?Hname, ?Hword, ?Hvx, ?Hvy, ?Hvw, ?Hvh; eauto).
    run. cbn [Py.getitem].
    rewrite Hname, Hword, Hvx, Hvy, Hvw, Hvh. cbn [AdminServer.uploads_path Py.upper_of].
    rewrite Hfile. rewrite bool_decide_eq_true_2 by eauto. cbn [negb].
    rewrite Hx, Hy, Hwidth, Hheight, Hfile.
    destruct (Image_open file) as [img | e | n]; try reflexivity.
    destruct (String.eqb (image_mode img) "RGB" || String.eqb (image_mode img) "RGBA").
    - destruct (image_crop img _) as [cropped | e | n]; try reflexivity.
      destruct (rembg_remove cropped) as [processed | e | n]; try reflexivity.
      destruct (image_save_png processed) as [png | e | n]; reflexivity.
    - destruct (image_convert img "RGBA") as [img' | e | n]; try reflexivity.
      destruct (image_crop img' _) as [cropped | e | n]; try reflexivity.
      destruct (rembg_remove cropped) as [processed | e | n]; try reflexivity.
      destruct (image_save_png processed) as [png | e | n]; reflexivity. }
  split; [| split].
  - intros processed png Hprocessed Hpng. now rewrite Hrun, Hprocessed, Hpng.
  - intros e Hprocessed. now rewrite Hrun, Hprocessed.
  - intros processed e Hprocessed Hpng. now rewrite Hrun, Hprocessed, Hpng.
Qed.

End ProcessPreview.

(** The example: a photograph for the word [ecole], with [cropY] sent as
    text. *)

Lemma process_number_card_preview_witness :
  let P := demo_platform (Return (upload_answer "abc" [])) 0 in
  let small := String "233" "cole" in
  let capital := String "201" "COLE" in
  let members := [("filename", JStr "temp_00000000.jpg"); ("word", JStr ecole);
                  ("cropX", JInt 100); ("cropY", JStr "50");
                  ("cropWidth", JInt 250); ("cropHeight", JInt 350)] in
  let w := demo_world (<[@AdminServer.UPLOADS_DIR P +:+ "/temp_00000000.jpg" := "JPEG"]>
                         (catalog_on_disk three_cards)) [] in
  @AdminServer.process_number_card P (JObj members) w
  = (Return (jsonify [("success", JBool true);
                      ("preview", JStr "data:image/png;base64,PNG");
                      ("previewPath", JStr ("processed/" +:+ small +:+ "_preview.png"));
                      ("word", JStr capital)] 200),
     writing (@AdminServer.PROCESSED_DIR P +:+ "/" +:+ small +:+ "_preview.png") "PNG" w).
Proof.
  intros P small capital members w.
  apply (proj1 (@process_number_card_preview P members
                  "temp_00000000.jpg" ecole (JInt 100) (JStr "50") (JInt 250) (JInt 350)
                  100 50 250 350 w "JPEG"
                  eq_refl eq_refl eq_refl eq_refl eq_refl eq_refl eq_refl eq_refl
                  eq_refl eq_refl eq_refl eq_refl eq_refl) tt "PNG"); reflexivity.
Defined.

(** ** The upload comes before the catalog is read *)

Import Text.

Section UploadBeforeCatalog.
Context `{Platform}.

(** The decoder finds no value in a text that opens none. *)
Lemma scan_once_no_value n c r :
  negb (is_digit c
        || existsb (Ascii.eqb c) [dquote; "{"; "["; "-"; "n"; "t"; "f"; "N"; "I"]%char)
  = true ->
  Json.scan_once n (String c r) = None.
Proof.
  destruct n as [|n]; [reflexivity |].
  destruct c as [[] [] [] [] [] [] [] []]; intros Hc; try discriminate Hc; reflexivity.
Qed.

Lemma loads_no_value text : holds_no_value text = true -> Json.loads text = None.
Proof.
  unfold holds_no_value, Json.loads. destruct (Json.skip_ws text) as [|c r].
  - intros _. now destruct (String.length text).
  - intros Hc. now rewrite scan_once_no_value.
Qed.

Lemma load_cards_unreadable w text :
  files w !! AdminServer.DATA_FILE = Some text ->
  holds_no_value text = true ->
  AdminServer.load_cards w = (Raise (Exn "JSONDecodeError" "Expecting value"), w).
Proof.
  intros Hfile Hloads. apply loads_no_value in Hloads.
  unfold AdminServer.load_cards. run. rewrite Hfile.
  rewrite bool_decide_eq_true_2 by eauto. now rewrite Hfile, Hloads.
Qed.

(** X20.  Both publishing endpoints upload the image before they read the
    catalog.  When the catalog file holds no JSON value (it is empty or
    blank, or its first character after the white space opens no value) and
    the service accepts the upload, the image is uploaded all the same, the
    answer is 500, and no file changes: the catalog is left unreadable, no
    record of the uploaded image is kept, and the preview of a number card is
    still there.  The word is one whose upper case is made of code points up
    to 255, and the name of its preview is a file name. *)
Theorem unreadable_catalog_after_upload (w : world) (text : string)
    (account_id api_token : string) (r : response) (result : list (string * json))
    (image_id : json) :
  files w !! AdminServer.DATA_FILE = Some text ->
  holds_no_value text = true ->
  configured w account_id api_token ->
  successful_upload r result ->
  Py.dict_get "id" result = Some image_id ->
  (forall request_files request_form file word,
     Py.dict_get "image" request_files = Some file ->
     filename file <> "" ->
     Py.dict_get "word" request_form = Some word ->
     capitals_fit word = true ->
     let req := upload_request account_id api_token
                  (("face-" +:+ lower (upper word) +:+ "-" +:+ fragment w) +:+ ".png")
                  (content file) in
     requests_post (sent w) req = Return r ->
     exists message,
       AdminServer.process_face_card request_files request_form w
       = (Return (jsonify (error_body message) 500), sending req (drew w)))
  /\ (forall members word preview,
        Py.dict_get "word" members = Some (JStr word) ->
        capitals_fit word = true ->
        is_file_name (lower (upper word)) = true ->
        files w !! preview_of (upper word) = Some preview ->
        let req := upload_request account_id api_token
                     ((lower (upper word) +:+ "-" +:+ fragment w) +:+ ".png") preview in
        requests_post (sent w) req = Return r ->
        exists message,
          AdminServer.confirm_number_card (JObj members) w
          = (Return (jsonify (error_body message) 500), sending req (drew w))).
Proof.
  intros Hfile Hloads Hconf Hok Hid. split.
  - intros request_files request_form file word Himage Hname Hword _ req Hpost.
    exists "Expecting value".
    unfold AdminServer.process_face_card. rewrite Himage, Hword.
    apply String.eqb_neq in Hname. rewrite Hname.
    unfold try_except. unfold mbind at 1, M_bind at 1.
    rewrite admin_generate_card_id. cbn [String.eqb Ascii.eqb Bool.eqb].
    unfold mbind at 1, M_bind at 1.
    rewrite (admin_upload_result (drew w) (content file) _
               account_id api_token r result Hconf Hpost Hok).
    rewrite Hid.
    unfold mbind at 1, M_bind at 1.
    rewrite (load_cards_unreadable _ text) by exact Hfile || exact Hloads.
    reflexivity.
  - intros members word preview Hword _ _ Hpreview req Hpost.
    exists "Expecting value".
    unfold AdminServer.confirm_number_card.
    unfold mbind at 1, M_bind at 1. unfold lift at 1.
    rewrite contains_key_present by (rewrite Hword; eauto). cbn [negb].
    unfold mbind at 1, M_bind at 1. unfold lift at 1.
    unfold mbind at 1, outcome_bind at 1. cbn [Py.getitem]. rewrite Hword.
    cbn [Py.upper_of]. fold (preview_of (upper word)).
    unfold mbind at 1, M_bind at 1. unfold path_exists at 1.
    rewrite Hpreview. rewrite bool_decide_eq_true_2 by eauto. cbn [negb].
    unfold try_except. unfold mbind at 1, M_bind at 1. unfold read_file at 1.
    rewrite Hpreview.
    unfold mbind at 1, M_bind at 1.
    rewrite admin_generate_card_id. cbn [String.eqb Ascii.eqb Bool.eqb].
    change ("" +:+ lower (upper word) +:+ "-" +:+ fragment w)
      with (lower (upper word) +:+ "-" +:+ fragment w).
    unfold mbind at 1, M_bind at 1.
    rewrite (admin_upload_result (drew w) preview _
               account_id api_token r result Hconf Hpost Hok).
    rewrite Hid.
    unfold mbind at 1, M_bind at 1.
    rewrite (load_cards_unreadable _ text) by exact Hfile || exact Hloads.
    reflexivity.
Qed.

End UploadBeforeCatalog.

(** The example: the catalog file holds a page of HTML. *)

Lemma unreadable_catalog_after_upload_witness :
  let P := demo_platform (Return (upload_answer "abc" [])) 0 in
  let w := demo_world (<[@AdminServer.DATA_FILE P := "<html></html>"]> ∅) [] in
  exists message,
    @AdminServer.process_face_card P [("image", Upload "king.png" "bytes")]
      [("word", "King")] w
    = (Return (jsonify (error_body message) 500),
       sending (upload_request "acct" "token" "face-king-00000000.png" "bytes") (drew w)).
Proof.
  intros P w.
  apply (proj1 (@unreadable_catalog_after_upload P w "<html></html>" "acct" "token"
                  (upload_answer "abc" [])
                  [("id", JStr "abc"); ("variants", JArr [])] (JStr "abc")
                  eq_refl eq_refl (demo_configured _ _) (demo_successful _ _) eq_refl)
           [("image", Upload "king.png" "bytes")] [("word", "King")]
           (Upload "king.png" "bytes") "King").
  - reflexivity.
  - discriminate.
  - reflexivity.
  - reflexivity.
  - reflexivity.
Defined.
